(** * Talon: event delivery client, socket and webhook transports

    A shallow embedding of [TalonClient], [WebSocketTransport] and
    [WebhookTransport].  Objects are records, methods are functions that
    pass the object and the surrounding [World] explicitly.  The [World]
    holds everything a method can touch outside its own object: the
    client that subscribed to the transport, the sockets and timers of the
    host, the answers the host is going to give (the [Script]) and the
    list of observable effects.

    Conventions of the model:
    - numbers are integers ([Z]); delays and counters never leave the
      range in which JavaScript numbers are exact;
    - functions supplied by the application (event handlers, observers)
      either return or throw, and do not call back into the client or the
      transport;
    - a promise is represented by its outcome; the [catch] attached to a
      rejected promise runs right after the callback that rejected it;
    - [console.log] output is recorded only in debug mode, without the
      data argument;
    - an inbound frame either parses to a message or does not parse;
    - a write on a socket, [JSON.stringify] followed by [ws.send], is one
      step of the host: its answer tells whether both returned or one of
      them threw, not which one. *)

From Stdlib Require Import ZArith String DecimalString Lia.
From stdpp Require Import gmap strings list.

(** ** types.ts *)

Inductive TransportState :=
  disconnected | connecting | connected | reconnecting | error.

#[global] Instance TransportState_eq_dec : EqDecision TransportState.
Proof. solve_decision. Defined.

(** A JSON scalar; payloads are flat objects ([Record<string, unknown>]). *)
Inductive JSON :=
| JNull
| JBool (b : bool)
| JNumber (n : Z)
| JString (s : string).

Definition Payload : Type := list (string * JSON).

Module OutboundMessage.
Record t := {
  type : string;
  data : Payload;
  id : option string;
  timestamp : option Z
}.
End OutboundMessage.

Module InboundMessage.
Record t := {
  type : string;
  data : Payload;
  id : option string;
  timestamp : option Z
}.
End InboundMessage.

(** JavaScript [Error] objects, and the values a [throw] can carry. *)
Record Error := { name : string; message : string }.

Definition new_Error (msg : string) : Error :=
  {| name := "Error"; message := msg |}.

Inductive Thrown :=
| ThrowError (e : Error)
| ThrowValue (v : JSON).

(** [error instanceof Error ? error : new Error(msg)] *)
Definition instanceofError (msg : string) (x : Thrown) : Error :=
  match x with
  | ThrowError e => e
  | ThrowValue _ => new_Error msg
  end.

(** Decimal rendering of a number inside a template string. *)
Definition show (z : Z) : string := NilZero.string_of_int (Z.to_int z).

(** ** Functions, their arguments and the effects they leave *)

(** What a handler or observer is called with. *)
Inductive Arg :=
| ArgMessage (m : InboundMessage.t)   (* transport message observers *)
| ArgState (s : TransportState)       (* transport state observers *)
| ArgError (e : Error)                (* transport error observers *)
| ArgData (d : Payload)               (* event handlers: [message.data] *)
| ArgStateEvent (s : TransportState)  (* event handlers: [{ state }] *)
| ArgErrorEvent (e : Error).          (* event handlers: [{ error }] *)

(** The identity of a function object. *)
Inductive Fn :=
| Supplied (n : nat)    (* written by the application *)
| Wrapped (n : nat)     (* the n-th [wrappedHandler] closure made by [once] *)
| BoundMethod.          (* [handleX.bind(this)] made by the client constructor *)

#[global] Instance Fn_eq_dec : EqDecision Fn.
Proof. solve_decision. Defined.

(** A function of the application: who it is and whether a call with a
    given argument returns ([None]) or throws. *)
Record Callback := { fn : nat; body : Arg -> option Thrown }.

Inductive Effect :=
| Invoked (f : Fn) (a : Arg)                          (* a function was called *)
| Logged (line : string)                              (* console.log output *)
| Transmit (s : nat) (m : OutboundMessage.t) (ok : bool)
    (* a write on socket s, JSON.stringify then ws.send; ok when both returned *)
| Requested (m : OutboundMessage.t)                   (* fetch issued *)
| Slept (ms : Z).                                     (* awaited setTimeout *)

(** ** The dispatcher's handler sets *)

(** An entry of [Map<string, Set<EventHandler>>]: a function of the
    application, or the closure [once] wraps around one. *)
Inductive EventHandler :=
| Plain (handler : Callback)
| Once (n : nat) (eventType : string) (handler : Callback).

Definition handlerFn (h : EventHandler) : Fn :=
  match h with
  | Plain cb => Supplied (fn cb)
  | Once n _ _ => Wrapped n
  end.

(** An entry of a transport's observer set. *)
Inductive Observer :=
| Listener (handler : Callback)
| Bound.

Definition observerFn (o : Observer) : Fn :=
  match o with
  | Listener cb => Supplied (fn cb)
  | Bound => BoundMethod
  end.

(** A JavaScript [Set] of functions keeps insertion order and compares by
    identity: a list without repeated identities. *)
Section FunctionSet.
Context {A : Type} (ident : A -> Fn).

Definition has (x : A) (s : list A) : bool :=
  existsb (fun y => bool_decide (ident y = ident x)) s.

Definition add (x : A) (s : list A) : list A :=
  if has x s then s else s ++ [x].

Definition remove (x : A) (s : list A) : list A :=
  filter (fun y => ident y <> ident x) s.
End FunctionSet.

(** ** The client object and the world around a transport *)

(** Fields of a [TalonClient]; [closures] counts the [wrappedHandler]
    closures allocated so far and names the next one. *)
Record Client := {
  eventHandlers : gmap string (list EventHandler);
  debug : bool;
  closures : nat
}.

Inductive ReadyState := CONNECTING | OPEN | CLOSING | CLOSED.

#[global] Instance ReadyState_eq_dec : EqDecision ReadyState.
Proof. solve_decision. Defined.

(** A [WebSocket] made by [connect()], with the promise of that call:
    [settled] once it was resolved or rejected, [retrying] when the call
    came from the reconnect timer and so carries its [catch]; [guard] is
    the connection-timeout timer. *)
Record Socket := {
  readyState : ReadyState;
  settled : bool;
  retrying : bool;
  guard : nat
}.

Inductive Timer :=
| ConnectionTimer (socket : nat) (delay : Z)
| ReconnectTimer (delay : Z).

Inductive FetchOutcome :=
| Response (status : Z) (statusText : string)
| FetchRejected (x : Thrown).

(** What the host will answer next, one entry per call; an exhausted list
    means success (the constructor returns, the write goes through, the
    request is answered 200). *)
Record Script := {
  constructs : list (option Thrown);  (* new WebSocket(url) *)
  writes : list (option Thrown);      (* JSON.stringify + ws.send *)
  fetches : list FetchOutcome;        (* fetch *)
  clock : list Z;                     (* Date.now() *)
  randoms : list string               (* Math.random().toString(36).substr(2, 9) *)
}.

Record World := {
  client : Client;
  effects : list Effect;
  sockets : list Socket;
  timers : gmap nat Timer;
  timerIds : nat;
  script : Script
}.

Definition withClient (c : Client) (w : World) : World :=
  {| client := c; effects := effects w; sockets := sockets w;
     timers := timers w; timerIds := timerIds w; script := script w |}.

Definition withEffects (l : list Effect) (w : World) : World :=
  {| client := client w; effects := l; sockets := sockets w;
     timers := timers w; timerIds := timerIds w; script := script w |}.

Definition withSockets (l : list Socket) (w : World) : World :=
  {| client := client w; effects := effects w; sockets := l;
     timers := timers w; timerIds := timerIds w; script := script w |}.

Definition withTimers (m : gmap nat Timer) (n : nat) (w : World) : World :=
  {| client := client w; effects := effects w; sockets := sockets w;
     timers := m; timerIds := n; script := script w |}.

Definition withScript (s : Script) (w : World) : World :=
  {| client := client w; effects := effects w; sockets := sockets w;
     timers := timers w; timerIds := timerIds w; script := s |}.

Definition emit (e : Effect) (w : World) : World :=
  withEffects (effects w ++ [e]) w.

(** [log]: prints only in debug mode. *)
Definition console_log (dbg : bool) (prefix line : string) (w : World) : World :=
  if dbg then emit (Logged (prefix +:+ " " +:+ line)) w else w.

(** Calling a function of the application. *)
Definition call (cb : Callback) (a : Arg) (w : World) : World * option Thrown :=
  (emit (Invoked (Supplied (fn cb)) a) w, body cb a).

(** ** The transport interface (types.ts, [TalonTransport]) *)

Inductive Promise := Pending | Resolved | Rejected (e : Error).

Module TalonTransport.
(** [onX] registers an observer; [offX] is the closure [onX] returns,
    which deletes that observer again. *)
Class t (T : Type) := {
  state : T -> TransportState;
  connect : T -> World -> T * World * Promise;
  disconnect : T -> World -> T * World;
  send : OutboundMessage.t -> T -> World -> T * World * Promise;
  onMessage : Observer -> T -> T;
  offMessage : Observer -> T -> T;
  onStateChange : Observer -> T -> T;
  offStateChange : Observer -> T -> T;
  onError : Observer -> T -> T;
  offError : Observer -> T -> T
}.
End TalonTransport.

Definition stateName (s : TransportState) : string :=
  match s with
  | disconnected => "disconnected"
  | connecting => "connecting"
  | connected => "connected"
  | reconnecting => "reconnecting"
  | error => "error"
  end.

(** [Date.now()] and the random suffix, read off the script. *)
Definition Date_now (w : World) : Z * World :=
  let s := script w in
  (hd 0%Z (clock s),
   withScript {| constructs := constructs s; writes := writes s;
                 fetches := fetches s; clock := tl (clock s);
                 randoms := randoms s |} w).

Definition Math_random36 (w : World) : string * World :=
  let s := script w in
  (hd ""%string (randoms s),
   withScript {| constructs := constructs s; writes := writes s;
                 fetches := fetches s; clock := clock s;
                 randoms := tl (randoms s) |} w).

(** ** TalonClient.ts *)

Module TalonClient.

Definition log (line : string) (w : World) : World :=
  console_log (debug (client w)) "[TalonClient]" line w.

Definition setHandlers (m : gmap string (list EventHandler)) (w : World) : World :=
  withClient {| eventHandlers := m; debug := debug (client w);
                closures := closures (client w) |} w.

(** The handlers currently registered for an event type. *)
Definition registered (eventType : string) (w : World) : list EventHandler :=
  default [] (eventHandlers (client w) !! eventType).

(** The closure [on] returns. *)
Definition unsubscribe (eventType : string) (handler : EventHandler)
    (w : World) : World :=
  let w1 :=
    match eventHandlers (client w) !! eventType with
    | Some handlers =>
        let handlers' := remove handlerFn handler handlers in
        if (length handlers' =? 0)%nat
        then setHandlers (delete eventType (eventHandlers (client w))) w
        else setHandlers (<[eventType := handlers']> (eventHandlers (client w))) w
    | None => w
    end in
  log ("Unsubscribed from event: " +:+ eventType) w1.

Definition on (eventType : string) (handler : EventHandler) (w : World) : World :=
  let handlers := registered eventType w in
  log ("Subscribed to event: " +:+ eventType)
    (setHandlers
       (<[eventType := add handlerFn handler handlers]> (eventHandlers (client w))) w).

(** [once] allocates the [wrappedHandler] closure and registers it; the
    closure is returned so that its unsubscription can be named. *)
Definition once (eventType : string) (handler : Callback) (w : World)
    : World * EventHandler :=
  let c := client w in
  let wrappedHandler := Once (closures c) eventType handler in
  let w1 := withClient {| eventHandlers := eventHandlers c; debug := debug c;
                          closures := S (closures c) |} w in
  (on eventType wrappedHandler w1, wrappedHandler).

Definition off (eventType : string) (w : World) : World :=
  log ("Removed all handlers for: " +:+ eventType)
    (setHandlers (delete eventType (eventHandlers (client w))) w).

(** Calling an entry of a handler set.  The wrapper of [once] runs
    [handler(data); unsubscribe();]: a throw of the handler leaves
    before [unsubscribe]. *)
Definition invoke (h : EventHandler) (a : Arg) (w : World)
    : World * option Thrown :=
  match h with
  | Plain handler => call handler a w
  | Once n eventType handler =>
      let (w1, r) := call handler a (emit (Invoked (Wrapped n) a) w) in
      match r with
      | Some x => (w1, Some x)
      | None => (unsubscribe eventType h w1, None)
      end
  end.

(** [handlers.forEach(h => { try { h(a) } catch (e) { log } })].
    [Set.prototype.forEach] skips an entry deleted from the set before
    its turn; the set iterated is the one stored under [eventType]. *)
Fixpoint forEachTry (eventType : string) (snapshot : list EventHandler)
    (a : Arg) (w : World) : World :=
  match snapshot with
  | [] => w
  | h :: rest =>
      if has handlerFn h (registered eventType w) then
        let (w1, r) := invoke h a w in
        let w2 := match r with
                  | Some _ => log ("Error in handler for " +:+ eventType +:+ ":") w1
                  | None => w1
                  end in
        forEachTry eventType rest a w2
      else forEachTry eventType rest a w
  end.

(** [handlers.forEach(h => h(a))]: the first throw ends the iteration
    and leaves [forEach]. *)
Fixpoint forEach (eventType : string) (snapshot : list EventHandler)
    (a : Arg) (w : World) : World * option Thrown :=
  match snapshot with
  | [] => (w, None)
  | h :: rest =>
      if has handlerFn h (registered eventType w) then
        let (w1, r) := invoke h a w in
        match r with
        | Some x => (w1, Some x)
        | None => forEach eventType rest a w1
        end
      else forEach eventType rest a w
  end.

Definition handleMessage (message : InboundMessage.t) (w : World) : World :=
  let w0 := log "Received message:" w in
  let eventType := InboundMessage.type message in
  match eventHandlers (client w0) !! eventType with
  | Some handlers =>
      if (0 <? length handlers)%nat
      then forEachTry eventType handlers (ArgData (InboundMessage.data message)) w0
      else log ("No handlers for message type: " +:+ eventType) w0
  | None => log ("No handlers for message type: " +:+ eventType) w0
  end.

Definition handleStateChange (state : TransportState) (w : World)
    : World * option Thrown :=
  let w0 := log ("State changed: " +:+ stateName state) w in
  match eventHandlers (client w0) !! "_state_change" with
  | Some handlers => forEach "_state_change" handlers (ArgStateEvent state) w0
  | None => (w0, None)
  end.

Definition handleError (error : Error) (w : World) : World * option Thrown :=
  let w0 := log "Transport error:" w in
  match eventHandlers (client w0) !! "_error" with
  | Some handlers => forEach "_error" handlers (ArgErrorEvent error) w0
  | None => (w0, None)
  end.

Definition generateId (w : World) : string * World :=
  let (t, w1) := Date_now w in
  let (r, w2) := Math_random36 w1 in
  ("msg_" +:+ show t +:+ "_" +:+ r, w2).

Section OverTransport.
Context {T : Type} `{TalonTransport.t T}.

Definition connect (transport : T) (w : World) : T * World * Promise :=
  TalonTransport.connect transport w.

(** [new TalonClient({ transport, autoConnect, debug })]: a rejection
    of the auto-connect is only logged.  The debug line is recorded for a
    rejection inside the call; a socket whose promise is rejected later
    adds the same line, which no effect records. *)
Definition constructor (transport : T) (autoConnect dbg : option bool)
    (w : World) : T * World :=
  let w0 := withClient {| eventHandlers := ∅; debug := default false dbg;
                          closures := 0 |} w in
  let t1 := TalonTransport.onMessage Bound transport in
  let t2 := TalonTransport.onStateChange Bound t1 in
  let t3 := TalonTransport.onError Bound t2 in
  match autoConnect with
  | Some false => (t3, w0)
  | _ =>
      match connect t3 w0 with
      | (t4, w4, Rejected _) => (t4, log "Auto-connect failed:" w4)
      | (t4, w4, _) => (t4, w4)
      end
  end.

Definition cleanup (transport : T) (w : World) : T * World :=
  let t1 := TalonTransport.offMessage Bound transport in
  let t2 := TalonTransport.offStateChange Bound t1 in
  let t3 := TalonTransport.offError Bound t2 in
  (t3, setHandlers ∅ w).

Definition disconnect (transport : T) (w : World) : T * World :=
  let (t1, w1) := TalonTransport.disconnect transport w in
  cleanup t1 w1.

(** The message [send] builds, and the worlds after building it. *)
Definition envelope (event : Payload) (w : World) : OutboundMessage.t * World :=
  let (i, w1) := generateId w in
  let (ts, w2) := Date_now w1 in
  ({| OutboundMessage.type := "event"; OutboundMessage.data := event;
      OutboundMessage.id := Some i; OutboundMessage.timestamp := Some ts |},
   w2).

Definition send (event : Payload) (transport : T) (w : World)
    : T * World * Promise :=
  let (message, w1) := envelope event w in
  TalonTransport.send message transport (log "Sending message:" w1).

Definition state (transport : T) : TransportState :=
  TalonTransport.state transport.

Definition connected (transport : T) : bool :=
  bool_decide (TalonTransport.state transport = connected).
End OverTransport.

End TalonClient.

(** Calling an entry of a transport's observer set.  The bound methods of
    the client are told apart by the channel, that is by the argument. *)
Definition observe (o : Observer) (a : Arg) (w : World) : World * option Thrown :=
  match o with
  | Listener handler => call handler a w
  | Bound =>
      let w0 := emit (Invoked BoundMethod a) w in
      match a with
      | ArgMessage m => (TalonClient.handleMessage m w0, None)
      | ArgState s => TalonClient.handleStateChange s w0
      | ArgError e => TalonClient.handleError e w0
      | _ => (w0, None)
      end
  end.

(** [observers.forEach(h => { try { h(a) } catch (e) { this.log(line, e) } })],
    the loop of [setState], [emitError] and the socket's [handleMessage]. *)
Fixpoint notify (dbg : bool) (prefix line : string) (observers : list Observer)
    (a : Arg) (w : World) : World :=
  match observers with
  | [] => w
  | o :: rest =>
      let (w1, r) := observe o a w in
      let w2 := match r with
                | Some _ => console_log dbg prefix line w1
                | None => w1
                end in
      notify dbg prefix line rest a w2
  end.

(** ** transports/WebhookTransport.ts *)

Module WebhookTransport.

Inductive Method := POST | PUT.

Module Options.
Record t := {
  url : string;
  method : option Method;
  headers : option (gmap string string);
  timeout : option Z;
  retry : option bool;
  maxRetries : option Z;
  retryDelay : option Z;
  debug : option bool
}.
End Options.

Record t := {
  url : string;
  method : Method;
  headers : gmap string string;
  timeout : Z;
  retry : bool;
  maxRetries : Z;
  retryDelay : Z;
  debug : bool;
  _state : TransportState;
  messageHandlers : list Observer;
  stateHandlers : list Observer;
  errorHandlers : list Observer
}.

Definition constructor (options : Options.t) : t :=
  {| url := Options.url options;
     method := default POST (Options.method options);
     headers := default ∅ (Options.headers options)
                ∪ {[ "Content-Type"%string := "application/json"%string ]};
     timeout := default 10000%Z (Options.timeout options);
     retry := default false (Options.retry options);
     maxRetries := default 3%Z (Options.maxRetries options);
     retryDelay := default 1000%Z (Options.retryDelay options);
     debug := default false (Options.debug options);
     _state := disconnected;
     messageHandlers := [];
     stateHandlers := [];
     errorHandlers := [] |}.

Definition set_state (s : TransportState) (self : t) : t :=
  {| url := url self; method := method self; headers := headers self;
     timeout := timeout self; retry := retry self;
     maxRetries := maxRetries self; retryDelay := retryDelay self;
     debug := debug self; _state := s;
     messageHandlers := messageHandlers self;
     stateHandlers := stateHandlers self;
     errorHandlers := errorHandlers self |}.

Definition set_handlers (ms ss es : list Observer) (self : t) : t :=
  {| url := url self; method := method self; headers := headers self;
     timeout := timeout self; retry := retry self;
     maxRetries := maxRetries self; retryDelay := retryDelay self;
     debug := debug self; _state := _state self;
     messageHandlers := ms; stateHandlers := ss; errorHandlers := es |}.

Definition log (self : t) (line : string) (w : World) : World :=
  console_log (debug self) "[WebhookTransport]" line w.

Definition state (self : t) : TransportState := _state self.

Definition setState (state : TransportState) (self : t) (w : World) : t * World :=
  if bool_decide (_state self = state) then (self, w)
  else
    let self1 := set_state state self in
    (self1,
     notify (debug self1) "[WebhookTransport]" "State handler error:"
       (stateHandlers self1) (ArgState state) w).

Definition emitError (error : Error) (self : t) (w : World) : World :=
  notify (debug self) "[WebhookTransport]" "Error handler error:"
    (errorHandlers self) (ArgError error) w.

Definition connect (self : t) (w : World) : t * World * Promise :=
  let (self1, w1) := setState connected self (log self "Webhook transport ready" w) in
  (self1, w1, Resolved).

Definition disconnect (self : t) (w : World) : t * World :=
  setState disconnected self (log self "Disconnecting webhook transport" w).

(** The next answer of [fetch]. *)
Definition fetch (w : World) : FetchOutcome * World :=
  let s := script w in
  (hd (Response 200 "OK") (fetches s),
   withScript {| constructs := constructs s; writes := writes s;
                 fetches := tl (fetches s); clock := clock s;
                 randoms := randoms s |} w).

(** One request; [None] when it returns, the thrown error otherwise.  An
    abort by the request timeout reaches the [catch] as an error named
    AbortError. *)
Definition sendRequest (message : OutboundMessage.t) (self : t) (w : World)
    : World * option Thrown :=
  let (r, w1) := fetch (emit (Requested message) w) in
  match r with
  | Response status statusText =>
      if ((200 <=? status) && (status <=? 299))%Z
      then (log self ("Request successful: " +:+ show status) w1, None)
      else (w1, Some (ThrowError
              (new_Error ("HTTP " +:+ show status +:+ ": " +:+ statusText))))
  | FetchRejected (ThrowError e) =>
      if String.eqb (name e) "AbortError"
      then (w1, Some (ThrowError (new_Error "Request timeout")))
      else (w1, Some (ThrowError e))
  | FetchRejected (ThrowValue _) =>
      (w1, Some (ThrowError (new_Error "Request failed")))
  end.

Inductive LoopExit := Sent | Exhausted (lastError : option Error).

(** The [for] loop of [send], [n] iterations before [attempt] reaches
    [attempts]. *)
Fixpoint attemptLoop (n : nat) (attempt attempts : Z) (lastError : option Error)
    (message : OutboundMessage.t) (self : t) (w : World) : World * LoopExit :=
  match n with
  | O => (w, Exhausted lastError)
  | S n' =>
      let (w1, r) := sendRequest message self w in
      match r with
      | None =>
          (log self ("Sent message (attempt " +:+ show (attempt + 1) +:+ ")") w1,
           Sent)
      | Some x =>
          let lastError := instanceofError "Send failed" x in
          let w2 := log self
                      ("Send failed (attempt " +:+ show (attempt + 1) +:+ "):") w1 in
          let w3 := if (attempt <? attempts - 1)%Z
                    then emit (Slept (retryDelay self * 2 ^ attempt)%Z) w2
                    else w2 in
          attemptLoop n' (attempt + 1)%Z attempts (Some lastError) message self w3
      end
  end.

Definition send (message : OutboundMessage.t) (self : t) (w : World)
    : t * World * Promise :=
  if negb (bool_decide (_state self = connected))
  then (self, w, Rejected (new_Error "Transport not connected"))
  else
    let attempts := if retry self then (maxRetries self + 1)%Z else 1%Z in
    match attemptLoop (Z.to_nat attempts) 0%Z attempts None message self w with
    | (w1, Sent) => (self, w1, Resolved)
    | (w1, Exhausted (Some lastError)) =>
        (self, emitError lastError self w1, Rejected lastError)
    | (w1, Exhausted None) => (self, w1, Resolved)
    end.

Definition onMessage (handler : Observer) (self : t) : t :=
  set_handlers (add observerFn handler (messageHandlers self))
    (stateHandlers self) (errorHandlers self) self.

Definition offMessage (handler : Observer) (self : t) : t :=
  set_handlers (remove observerFn handler (messageHandlers self))
    (stateHandlers self) (errorHandlers self) self.

Definition onStateChange (handler : Observer) (self : t) : t :=
  set_handlers (messageHandlers self)
    (add observerFn handler (stateHandlers self)) (errorHandlers self) self.

Definition offStateChange (handler : Observer) (self : t) : t :=
  set_handlers (messageHandlers self)
    (remove observerFn handler (stateHandlers self)) (errorHandlers self) self.

Definition onError (handler : Observer) (self : t) : t :=
  set_handlers (messageHandlers self) (stateHandlers self)
    (add observerFn handler (errorHandlers self)) self.

Definition offError (handler : Observer) (self : t) : t :=
  set_handlers (messageHandlers self) (stateHandlers self)
    (remove observerFn handler (errorHandlers self)) self.

End WebhookTransport.

#[global] Instance WebhookTransport_TalonTransport
  : TalonTransport.t WebhookTransport.t :=
  {| TalonTransport.state := WebhookTransport.state;
     TalonTransport.connect := WebhookTransport.connect;
     TalonTransport.disconnect := WebhookTransport.disconnect;
     TalonTransport.send := WebhookTransport.send;
     TalonTransport.onMessage := WebhookTransport.onMessage;
     TalonTransport.offMessage := WebhookTransport.offMessage;
     TalonTransport.onStateChange := WebhookTransport.onStateChange;
     TalonTransport.offStateChange := WebhookTransport.offStateChange;
     TalonTransport.onError := WebhookTransport.onError;
     TalonTransport.offError := WebhookTransport.offError |}.

(** ** transports/WebSocketTransport.ts *)

(** A text frame as [JSON.parse] sees it. *)
Inductive Frame :=
| WellFormed (m : InboundMessage.t)
| Malformed.

(** What the host can do to a socket transport between two calls. *)
Inductive HostEvent :=
| SocketOpen (s : nat)
| SocketError (s : nat)
| SocketClose (s : nat)
| SocketMessage (s : nat) (frame : Frame)
| TimerFired (id : nat).

Module WebSocketTransport.

Module Options.
Record t := {
  url : string;
  autoReconnect : option bool;
  reconnectDelay : option Z;
  maxReconnectAttempts : option Z;
  connectionTimeout : option Z;
  debug : option bool
}.
End Options.

(** [ws] and [reconnectTimeout] hold the identity of a socket and of a
    timer of the world, or [null]. *)
Record t := {
  url : string;
  ws : option nat;
  _state : TransportState;
  autoReconnect : bool;
  reconnectDelay : Z;
  maxReconnectAttempts : Z;
  reconnectAttempts : Z;
  reconnectTimeout : option nat;
  connectionTimeout : Z;
  debug : bool;
  messageHandlers : list Observer;
  stateHandlers : list Observer;
  errorHandlers : list Observer;
  messageQueue : list OutboundMessage.t
}.

Definition constructor (options : Options.t) : t :=
  {| url := Options.url options;
     ws := None;
     _state := disconnected;
     autoReconnect := default true (Options.autoReconnect options);
     reconnectDelay := default 1000%Z (Options.reconnectDelay options);
     maxReconnectAttempts := default 0%Z (Options.maxReconnectAttempts options);
     reconnectAttempts := 0%Z;
     reconnectTimeout := None;
     connectionTimeout := default 10000%Z (Options.connectionTimeout options);
     debug := default false (Options.debug options);
     messageHandlers := [];
     stateHandlers := [];
     errorHandlers := [];
     messageQueue := [] |}.

(** The fields that change after construction: the connection part. *)
Definition set_connection (sock : option nat) (s : TransportState)
    (auto : bool) (attempts : Z) (timer : option nat) (self : t) : t :=
  {| url := url self; ws := sock; _state := s; autoReconnect := auto;
     reconnectDelay := reconnectDelay self;
     maxReconnectAttempts := maxReconnectAttempts self;
     reconnectAttempts := attempts; reconnectTimeout := timer;
     connectionTimeout := connectionTimeout self; debug := debug self;
     messageHandlers := messageHandlers self;
     stateHandlers := stateHandlers self;
     errorHandlers := errorHandlers self;
     messageQueue := messageQueue self |}.

Definition set_ws (sock : option nat) (self : t) : t :=
  set_connection sock (_state self) (autoReconnect self)
    (reconnectAttempts self) (reconnectTimeout self) self.

Definition set_state (s : TransportState) (self : t) : t :=
  set_connection (ws self) s (autoReconnect self)
    (reconnectAttempts self) (reconnectTimeout self) self.

Definition set_autoReconnect (auto : bool) (self : t) : t :=
  set_connection (ws self) (_state self) auto
    (reconnectAttempts self) (reconnectTimeout self) self.

Definition set_reconnectAttempts (attempts : Z) (self : t) : t :=
  set_connection (ws self) (_state self) (autoReconnect self)
    attempts (reconnectTimeout self) self.

Definition set_reconnectTimeout (timer : option nat) (self : t) : t :=
  set_connection (ws self) (_state self) (autoReconnect self)
    (reconnectAttempts self) timer self.

(** ... and the handler sets and the queue. *)
Definition set_registry (ms ss es : list Observer)
    (queue : list OutboundMessage.t) (self : t) : t :=
  {| url := url self; ws := ws self; _state := _state self;
     autoReconnect := autoReconnect self;
     reconnectDelay := reconnectDelay self;
     maxReconnectAttempts := maxReconnectAttempts self;
     reconnectAttempts := reconnectAttempts self;
     reconnectTimeout := reconnectTimeout self;
     connectionTimeout := connectionTimeout self; debug := debug self;
     messageHandlers := ms; stateHandlers := ss; errorHandlers := es;
     messageQueue := queue |}.

Definition set_messageQueue (queue : list OutboundMessage.t) (self : t) : t :=
  set_registry (messageHandlers self) (stateHandlers self)
    (errorHandlers self) queue self.

Definition log (self : t) (line : string) (w : World) : World :=
  console_log (debug self) "[WebSocketTransport]" line w.

Definition state (self : t) : TransportState := _state self.

(** *** The host: timers and sockets *)

(** Timer identities are positive, so a stored identity is truthy. *)
Definition setTimeout (k : Timer) (w : World) : nat * World :=
  let i := S (timerIds w) in
  (i, withTimers (<[i := k]> (timers w)) i w).

Definition clearTimeout (i : nat) (w : World) : World :=
  withTimers (delete i (timers w)) (timerIds w) w.

(** The next answer of [new WebSocket(url)]. *)
Definition construct (w : World) : option Thrown * World :=
  let s := script w in
  (default None (head (constructs s)),
   withScript {| constructs := tl (constructs s); writes := writes s;
                 fetches := fetches s; clock := clock s;
                 randoms := randoms s |} w).

(** The next answer of [JSON.stringify] followed by [ws.send]. *)
Definition write (w : World) : option Thrown * World :=
  let s := script w in
  (default None (head (writes s)),
   withScript {| constructs := constructs s; writes := tl (writes s);
                 fetches := fetches s; clock := clock s;
                 randoms := randoms s |} w).

Definition updateSocket (s : nat) (f : Socket -> Socket) (w : World) : World :=
  match sockets w !! s with
  | Some k => withSockets (<[s := f k]> (sockets w)) w
  | None => w
  end.

(** [socket.close()]: a socket still connecting or open starts closing;
    the close event is delivered later by the host. *)
Definition close (s : nat) (w : World) : World :=
  updateSocket s
    (fun k =>
       match readyState k with
       | CONNECTING | OPEN =>
           {| readyState := CLOSING; settled := settled k;
              retrying := retrying k; guard := guard k |}
       | _ => k
       end) w.

Definition setReady (r : ReadyState) (s : nat) (w : World) : World :=
  updateSocket s
    (fun k => {| readyState := r; settled := settled k;
                 retrying := retrying k; guard := guard k |}) w.

(** Settling the promise of the [connect()] call that made socket [s];
    a promise settles once. *)
Definition settle (s : nat) (w : World) : World :=
  updateSocket s
    (fun k => {| readyState := readyState k; settled := true;
                 retrying := retrying k; guard := guard k |}) w.

(** [reject(err)]: tells whether this rejection reaches the [catch] that
    the reconnect timer attached to the call. *)
Definition reject (s : nat) (w : World) : World * bool :=
  match sockets w !! s with
  | Some k => (settle s w, negb (settled k) && retrying k)
  | None => (w, false)
  end.

Definition clearGuard (s : nat) (w : World) : World :=
  match sockets w !! s with
  | Some k => clearTimeout (guard k) w
  | None => w
  end.

(** *** Private methods *)

Definition setState (state : TransportState) (self : t) (w : World) : t * World :=
  if bool_decide (_state self = state) then (self, w)
  else
    let self1 := set_state state self in
    (self1,
     notify (debug self1) "[WebSocketTransport]" "State handler error:"
       (stateHandlers self1) (ArgState state) w).

Definition emitError (error : Error) (self : t) (w : World) : World :=
  notify (debug self) "[WebSocketTransport]" "Error handler error:"
    (errorHandlers self) (ArgError error) w.

Definition handleMessage (data : Frame) (self : t) (w : World) : World :=
  match data with
  | WellFormed message =>
      notify (debug self) "[WebSocketTransport]" "Handler error:"
        (messageHandlers self) (ArgMessage message)
        (log self "Received message:" w)
  | Malformed =>
      emitError (new_Error "Invalid message format") self
        (log self "Failed to parse message:" w)
  end.

Definition scheduleReconnect (self : t) (w : World) : t * World :=
  let delay := (reconnectDelay self * 2 ^ reconnectAttempts self)%Z in
  let w1 := log self ("Reconnecting in " +:+ show delay +:+ "ms (attempt "
                      +:+ show (reconnectAttempts self + 1) +:+ ")") w in
  let (i, w2) := setTimeout (ReconnectTimer delay) w1 in
  (set_reconnectTimeout (Some i) self, w2).

Definition handleDisconnect (self : t) (w : World) : t * World :=
  let w1 := log self "Disconnected" w in
  let self1 := set_ws None self in
  if autoReconnect self1
     && ((maxReconnectAttempts self1 =? 0)%Z
         || (reconnectAttempts self1 <? maxReconnectAttempts self1)%Z)
  then
    let (self2, w2) := setState reconnecting self1 w1 in
    scheduleReconnect self2 w2
  else setState disconnected self1 w1.

(** *** Public methods *)

Definition send (message : OutboundMessage.t) (self : t) (w : World)
    : t * World * Promise :=
  match bool_decide (_state self = connected), ws self with
  | true, Some s =>
      let (r, w1) := write w in
      match r with
      | None =>
          (self, log self "Sent message:" (emit (Transmit s message true) w1),
           Resolved)
      | Some x =>
          let err := instanceofError "Send failed" x in
          let w2 := log self "Send error:" (emit (Transmit s message false) w1) in
          (self, emitError err self w2, Rejected err)
      end
  | _, _ =>
      (set_messageQueue (messageQueue self ++ [message]) self,
       log self "Not connected, queueing message" w, Resolved)
  end.

(** [queue.forEach(m => this.send(m).catch(log))].  The body of the
    async [send] runs inside the call; its [catch] only logs. *)
Fixpoint flushEach (queue : list OutboundMessage.t) (self : t) (w : World)
    : t * World :=
  match queue with
  | [] => (self, w)
  | message :: rest =>
      match send message self w with
      | (self1, w1, Rejected _) =>
          flushEach rest self1 (log self1 "Failed to flush message:" w1)
      | (self1, w1, _) => flushEach rest self1 w1
      end
  end.

Definition flushMessageQueue (self : t) (w : World) : t * World :=
  if (length (messageQueue self) =? 0)%nat then (self, w)
  else
    let w1 := log self ("Flushing " +:+ show (Z.of_nat (length (messageQueue self)))
                        +:+ " queued messages") w in
    let queue := messageQueue self in
    flushEach queue (set_messageQueue [] self) w1.

(** [connect()]; [viaTimer] tells whether the caller is the reconnect
    timer, whose call carries the [catch] that runs [handleDisconnect]. *)
Definition connectFrom (viaTimer : bool) (self : t) (w : World)
    : t * World * Promise :=
  if bool_decide (_state self = connected) || bool_decide (_state self = connecting)
  then (self, log self "Already connected or connecting" w, Resolved)
  else
    let (self1, w1) := setState connecting self w in
    let w2 := log self1 ("Connecting to " +:+ url self1) w1 in
    match construct w2 with
    | (Some x, w3) =>
        let (self2, w4) := setState error self1 w3 in
        let err := instanceofError "Unknown error" x in
        (self2, emitError err self2 w4, Rejected err)
    | (None, w3) =>
        let s := length (sockets w3) in
        let (g, w4) := setTimeout (ConnectionTimer s (connectionTimeout self1)) w3 in
        let w5 := withSockets
                    (sockets w4 ++ [{| readyState := CONNECTING; settled := false;
                                       retrying := viaTimer; guard := g |}]) w4 in
        (set_ws (Some s) self1, w5, Pending)
    end.

Definition connect (self : t) (w : World) : t * World * Promise :=
  connectFrom false self w.

Definition disconnect (self : t) (w : World) : t * World :=
  let w1 := log self "Disconnecting" w in
  let self1 := set_autoReconnect false self in
  let (self2, w2) :=
    match reconnectTimeout self1 with
    | Some i => (set_reconnectTimeout None self1, clearTimeout i w1)
    | None => (self1, w1)
    end in
  let (self3, w3) :=
    match ws self2 with
    | Some s => (set_ws None self2, close s w2)
    | None => (self2, w2)
    end in
  setState disconnected self3 w3.

Definition onMessage (handler : Observer) (self : t) : t :=
  set_registry (add observerFn handler (messageHandlers self))
    (stateHandlers self) (errorHandlers self) (messageQueue self) self.

Definition offMessage (handler : Observer) (self : t) : t :=
  set_registry (remove observerFn handler (messageHandlers self))
    (stateHandlers self) (errorHandlers self) (messageQueue self) self.

Definition onStateChange (handler : Observer) (self : t) : t :=
  set_registry (messageHandlers self)
    (add observerFn handler (stateHandlers self)) (errorHandlers self)
    (messageQueue self) self.

Definition offStateChange (handler : Observer) (self : t) : t :=
  set_registry (messageHandlers self)
    (remove observerFn handler (stateHandlers self)) (errorHandlers self)
    (messageQueue self) self.

Definition onError (handler : Observer) (self : t) : t :=
  set_registry (messageHandlers self) (stateHandlers self)
    (add observerFn handler (errorHandlers self)) (messageQueue self) self.

Definition offError (handler : Observer) (self : t) : t :=
  set_registry (messageHandlers self) (stateHandlers self)
    (remove observerFn handler (errorHandlers self)) (messageQueue self) self.

(** *** The callbacks [connect()] installs *)

(** The [catch] of the reconnect timer. *)
Definition reconnectFailed (self : t) (w : World) : t * World :=
  handleDisconnect self (log self "Reconnect failed:" w).

Definition onopen (s : nat) (self : t) (w : World) : t * World :=
  let w1 := clearGuard s w in
  let (self1, w2) := setState connected self w1 in
  let self2 := set_reconnectAttempts 0%Z self1 in
  let w3 := log self2 "Connected" w2 in
  let (self3, w4) := flushMessageQueue self2 w3 in
  (self3, settle s w4).

Definition onerror (s : nat) (self : t) (w : World) : t * World :=
  let w1 := clearGuard s w in
  let error := new_Error "WebSocket connection error" in
  let w2 := log self "Connection error:" w1 in
  let w3 := emitError error self w2 in
  let (w4, caught) := reject s w3 in
  if caught then reconnectFailed self w4 else (self, w4).

Definition onclose (s : nat) (self : t) (w : World) : t * World :=
  handleDisconnect self (clearGuard s w).

Definition onmessage (data : Frame) (self : t) (w : World) : t * World :=
  (self, handleMessage data self w).

(** The connection timeout of socket [s]:
    [reject(new Error('Connection timeout')); this.ws?.close();] *)
Definition connectionTimedOut (s : nat) (self : t) (w : World) : t * World :=
  let (w1, caught) := reject s w in
  let w2 := match ws self with
            | Some current => close current w1
            | None => w1
            end in
  if caught then reconnectFailed self w2 else (self, w2).

(** The reconnect timer:
    [this.reconnectAttempts++; this.connect().catch(...)] *)
Definition reconnectNow (self : t) (w : World) : t * World :=
  let self1 := set_reconnectAttempts (reconnectAttempts self + 1)%Z self in
  match connectFrom true self1 w with
  | (self2, w2, Rejected _) => reconnectFailed self2 w2
  | (self2, w2, _) => (self2, w2)
  end.

(** Delivery of a host event.  A socket opens only while connecting,
    reports errors, messages and its closure only until it is closed,
    and a timer fires only while pending; anything else does not
    happen. *)
Definition enabled (e : HostEvent) (w : World) : bool :=
  match e with
  | SocketOpen s =>
      match sockets w !! s with
      | Some k => bool_decide (readyState k = CONNECTING)
      | None => false
      end
  | SocketMessage s _ =>
      match sockets w !! s with
      | Some k => bool_decide (readyState k = OPEN)
      | None => false
      end
  | SocketError s | SocketClose s =>
      match sockets w !! s with
      | Some k => negb (bool_decide (readyState k = CLOSED))
      | None => false
      end
  | TimerFired i => bool_decide (is_Some (timers w !! i))
  end.

Definition deliver (e : HostEvent) (self : t) (w : World) : t * World :=
  if enabled e w then
    match e with
    | SocketOpen s => onopen s self (setReady OPEN s w)
    | SocketError s => onerror s self w
    | SocketClose s => onclose s self (setReady CLOSED s w)
    | SocketMessage s data => onmessage data self w
    | TimerFired i =>
        let w1 := clearTimeout i w in
        match timers w !! i with
        | Some (ConnectionTimer s _) => connectionTimedOut s self w1
        | Some (ReconnectTimer _) => reconnectNow self w1
        | None => (self, w)
        end
    end
  else (self, w).

End WebSocketTransport.

#[global] Instance WebSocketTransport_TalonTransport
  : TalonTransport.t WebSocketTransport.t :=
  {| TalonTransport.state := WebSocketTransport.state;
     TalonTransport.connect := WebSocketTransport.connect;
     TalonTransport.disconnect := WebSocketTransport.disconnect;
     TalonTransport.send := WebSocketTransport.send;
     TalonTransport.onMessage := WebSocketTransport.onMessage;
     TalonTransport.offMessage := WebSocketTransport.offMessage;
     TalonTransport.onStateChange := WebSocketTransport.onStateChange;
     TalonTransport.offStateChange := WebSocketTransport.offStateChange;
     TalonTransport.onError := WebSocketTransport.onError;
     TalonTransport.offError := WebSocketTransport.offError |}.

(** ** A client on its transport: what the application and the host can do *)

Module Host.
(** The callbacks a transport leaves with the host. *)
Class t (T : Type) := { deliver : HostEvent -> T -> World -> T * World }.
End Host.

#[global] Instance WebSocketTransport_Host : Host.t WebSocketTransport.t :=
  {| Host.deliver := WebSocketTransport.deliver |}.

(** The webhook transport installs no callback. *)
#[global] Instance WebhookTransport_Host : Host.t WebhookTransport.t :=
  {| Host.deliver := fun _ self w => (self, w) |}.

Inductive Channel := Messages | States | Errors.

Inductive Action :=
| Connect                                           (* client.connect() *)
| Disconnect                                        (* client.disconnect() *)
| Send (event : Payload)                            (* client.send(event) *)
| On (eventType : string) (handler : Callback)      (* client.on *)
| OnOnce (eventType : string) (handler : Callback)  (* client.once *)
| Off (eventType : string)                          (* client.off *)
| Unsubscribe (eventType : string) (handler : EventHandler)
                                  (* a closure returned by on or once *)
| Observe (c : Channel) (handler : Callback)        (* transport.onX(handler) *)
| Unobserve (c : Channel) (handler : Callback)      (* the closure it returned *)
| TransportDisconnect                               (* transport.disconnect() *)
| TransportSend (message : OutboundMessage.t)       (* transport.send(message) *)
| Happens (e : HostEvent).

Section System.
Context {T : Type} `{TalonTransport.t T} `{Host.t T}.

Definition step (a : Action) (tw : T * World) : T * World :=
  let (transport, w) := tw in
  match a with
  | Connect => fst (TalonClient.connect transport w)
  | Disconnect => TalonClient.disconnect transport w
  | Send event => fst (TalonClient.send event transport w)
  | On eventType handler => (transport, TalonClient.on eventType (Plain handler) w)
  | OnOnce eventType handler => (transport, fst (TalonClient.once eventType handler w))
  | Off eventType => (transport, TalonClient.off eventType w)
  | Unsubscribe eventType handler =>
      (transport, TalonClient.unsubscribe eventType handler w)
  | Observe Messages handler => (TalonTransport.onMessage (Listener handler) transport, w)
  | Observe States handler => (TalonTransport.onStateChange (Listener handler) transport, w)
  | Observe Errors handler => (TalonTransport.onError (Listener handler) transport, w)
  | Unobserve Messages handler => (TalonTransport.offMessage (Listener handler) transport, w)
  | Unobserve States handler => (TalonTransport.offStateChange (Listener handler) transport, w)
  | Unobserve Errors handler => (TalonTransport.offError (Listener handler) transport, w)
  | TransportDisconnect => TalonTransport.disconnect transport w
  | TransportSend message => fst (TalonTransport.send message transport w)
  | Happens e => Host.deliver e transport w
  end.

Definition run (actions : list Action) (tw : T * World) : T * World :=
  fold_left (fun tw a => step a tw) actions tw.
End System.

(** A world in which nothing has happened yet. *)
Definition newWorld (s : Script) : World :=
  {| client := {| eventHandlers := ∅; debug := false; closures := 0 |};
     effects := []; sockets := []; timers := ∅; timerIds := 0; script := s |}.

Definition smooth : Script :=
  {| constructs := []; writes := []; fetches := []; clock := []; randoms := [] |}.

(** ** Reading worlds and effects *)

(** The part of the world that belongs to the host. *)
Definition hostOf (w : World) : list Socket * gmap nat Timer * nat * Script :=
  (sockets w, timers w, timerIds w, script w).

(** [touches P w w']: from [w] to [w'] the host part is untouched and the
    effects grew by entries that all satisfy [P]. *)
Definition touches (P : Effect -> Prop) (w w' : World) : Prop :=
  hostOf w' = hostOf w /\
  exists added, effects w' = effects w ++ added /\ Forall P added.

Definition clientArg (a : Arg) : bool :=
  match a with
  | ArgData _ | ArgStateEvent _ | ArgErrorEvent _ => true
  | _ => false
  end.

(** Console output and calls of event handlers. *)
Definition handlerSide (e : Effect) : Prop :=
  match e with
  | Logged _ => True
  | Invoked _ a => clientArg a = true
  | _ => False
  end.

(** Console output and calls of transport observers. *)
Definition observerSide (e : Effect) : Prop :=
  match e with
  | Logged _ => True
  | Invoked _ a => clientArg a = false
  | _ => False
  end.

(** Console output and calls of any function. *)
Definition callSide (e : Effect) : Prop :=
  match e with
  | Logged _ | Invoked _ _ => True
  | _ => False
  end.

(** Calls of transport observers, of event handlers, writes on sockets and
    HTTP requests, each in the order they happened. *)
Definition observerCall (e : Effect) : option (Fn * Arg) :=
  match e with
  | Invoked f a => if clientArg a then None else Some (f, a)
  | _ => None
  end.

Definition handlerCall (e : Effect) : option (Fn * Arg) :=
  match e with
  | Invoked f a => if clientArg a then Some (f, a) else None
  | _ => None
  end.

Definition transmission (e : Effect) : option (nat * OutboundMessage.t * bool) :=
  match e with
  | Transmit s m ok => Some (s, m, ok)
  | _ => None
  end.

Definition request (e : Effect) : option OutboundMessage.t :=
  match e with
  | Requested m => Some m
  | _ => None
  end.

Definition observerCalls (w : World) : list (Fn * Arg) := omap observerCall (effects w).
Definition handlerCalls (w : World) : list (Fn * Arg) := omap handlerCall (effects w).
Definition transmissions (w : World) : list (nat * OutboundMessage.t * bool) :=
  omap transmission (effects w).
Definition requests (w : World) : list OutboundMessage.t := omap request (effects w).

(** Without the client's bound methods in the set, no event handler runs. *)
Definition detached (observers : list Observer) : Prop :=
  Forall (fun o => o <> Bound) observers.

(** ** Sample objects *)

(** A handler that returns and one that throws. *)
Definition returning (n : nat) : Callback := {| fn := n; body := fun _ => None |}.

Definition throwing (n : nat) : Callback :=
  {| fn := n; body := fun _ => Some (ThrowError (new_Error "Handler error")) |}.

(** [new WebSocketTransport({ url })] and [new WebhookTransport({ url })]
    with every option left to its default. *)
Definition socketTransport : WebSocketTransport.t :=
  WebSocketTransport.constructor
    {| WebSocketTransport.Options.url := "wss://edge.example.com";
       WebSocketTransport.Options.autoReconnect := None;
       WebSocketTransport.Options.reconnectDelay := None;
       WebSocketTransport.Options.maxReconnectAttempts := None;
       WebSocketTransport.Options.connectionTimeout := None;
       WebSocketTransport.Options.debug := None |}.

Definition webhookOptions (retry : option bool) (maxRetries : option Z)
    : WebhookTransport.Options.t :=
  {| WebhookTransport.Options.url := "https://edge.example.com/webhook";
     WebhookTransport.Options.method := None;
     WebhookTransport.Options.headers := None;
     WebhookTransport.Options.timeout := None;
     WebhookTransport.Options.retry := retry;
     WebhookTransport.Options.maxRetries := maxRetries;
     WebhookTransport.Options.retryDelay := None;
     WebhookTransport.Options.debug := None |}.

Definition webhookTransport : WebhookTransport.t :=
  WebhookTransport.constructor (webhookOptions None None).

(** [new TalonClient({ transport, autoConnect: false })] on each. *)
Definition socketClient (s : Script) : WebSocketTransport.t * World :=
  TalonClient.constructor socketTransport (Some false) None (newWorld s).

Definition webhookClient (s : Script) : WebhookTransport.t * World :=
  TalonClient.constructor webhookTransport (Some false) None (newWorld s).

Definition purchase : OutboundMessage.t :=
  {| OutboundMessage.type := "event";
     OutboundMessage.data := [("event"%string, JString "purchase");
                              ("order_id"%string, JString "123")];
     OutboundMessage.id := None;
     OutboundMessage.timestamp := None |}.

Definition testEvent (count : Z) : InboundMessage.t :=
  {| InboundMessage.type := "test_event";
     InboundMessage.data := [("count"%string, JNumber count)];
     InboundMessage.id := None;
     InboundMessage.timestamp := None |}.

(** A socket transport that has connected, with one error observer. *)
Definition openSocket (s : Script) : WebSocketTransport.t * World :=
  run [Observe Errors (returning 7); Connect; Happens (SocketOpen 0)]
    (socketClient s).

(** The handler sets of a socket transport. *)
Definition registryOf (self : WebSocketTransport.t)
    : list Observer * list Observer * list Observer :=
  (WebSocketTransport.messageHandlers self,
   WebSocketTransport.stateHandlers self,
   WebSocketTransport.errorHandlers self).

(** The test of [handleDisconnect]: retry, or settle as disconnected. *)
Definition mayRetry (self : WebSocketTransport.t) : bool :=
  WebSocketTransport.autoReconnect self
  && ((WebSocketTransport.maxReconnectAttempts self =? 0)%Z
      || (WebSocketTransport.reconnectAttempts self
          <? WebSocketTransport.maxReconnectAttempts self)%Z).

(** A socket transport whose first reconnect attempt failed (error, then
    close) and whose second one is under way: socket 2 is connecting and
    reconnect timer 5 is still pending. *)
Definition retryingSocket : WebSocketTransport.t * World :=
  run [Connect; Happens (SocketOpen 0); Happens (SocketClose 0);
       Happens (TimerFired 2); Happens (SocketError 1); Happens (SocketClose 1);
       Happens (TimerFired 4)]
    (socketClient smooth).

(** A script whose first write on a socket throws something that is not
    an [Error]. *)
Definition failingWrite : Script :=
  {| constructs := []; writes := [Some (ThrowValue (JString "circular"))];
     fetches := []; clock := []; randoms := [] |}.

(** The answer [fetch] gives to the [k]-th request from now on. *)
Definition answer (k : nat) (w : World) : FetchOutcome :=
  nth k (fetches (script w)) (Response 200 "OK").

(** The error [sendRequest] throws on an answer, [None] when it returns. *)
Definition failure (r : FetchOutcome) : option Error :=
  match snd (WebhookTransport.sendRequest purchase webhookTransport
               (newWorld {| constructs := []; writes := []; fetches := [r];
                            clock := []; randoms := [] |})) with
  | Some x => Some (instanceofError "Send failed" x)
  | None => None
  end.

(** A webhook transport with retries enabled, connected, with an error
    observer, and a host that answers 500, 500 and then 200. *)
Definition flakyHost : Script :=
  {| constructs := []; writes := [];
     fetches := [Response 500 "Error"; Response 500 "Error"; Response 200 "OK"];
     clock := []; randoms := [] |}.

Definition deadHost : Script :=
  {| constructs := []; writes := [];
     fetches := [Response 500 "Error"; FetchRejected (ThrowValue JNull);
                 Response 503 "Unavailable";
                 FetchRejected (ThrowError {| name := "AbortError";
                                              message := "aborted" |})];
     clock := []; randoms := [] |}.

Definition retryingWebhook (s : Script) : WebhookTransport.t * World :=
  run [Observe Errors (returning 7); Connect]
    (TalonClient.constructor
       (WebhookTransport.constructor (webhookOptions (Some true) (Some 3%Z)))
       (Some false) None (newWorld s)).

(** Whether the host can deliver each of its events at its turn. *)
Fixpoint feasible (actions : list Action) (tw : WebSocketTransport.t * World)
    : bool :=
  match actions with
  | [] => true
  | a :: rest =>
      match a with
      | Happens e => WebSocketTransport.enabled e (snd tw)
      | _ => true
      end && feasible rest (step a tw)
  end.

(** Two handlers on one reserved event type, the first of which throws;
    the transport then connects, and a request is answered 500. *)
Definition twoStateHandlers : list Action :=
  [On "_state_change" (throwing 1); On "_state_change" (returning 2); Connect].

Definition twoErrorHandlers : list Action :=
  [On "_error" (throwing 1); On "_error" (returning 2); Connect; Send []].

Definition twoMessageHandlers : list Action :=
  [On "test_event" (throwing 1); On "test_event" (returning 2); Connect;
   Happens (SocketOpen 0);
   Happens (SocketMessage 0 (WellFormed (testEvent 1)))].

Definition serverError : Script :=
  {| constructs := []; writes := []; fetches := [Response 500 "Error"];
     clock := []; randoms := [] |}.

(** [once] with a handler, then two messages of that type. *)
Definition onceThenTwoMessages (handler : Callback) : list Action :=
  [OnOnce "test_event" handler; Connect; Happens (SocketOpen 0);
   Happens (SocketMessage 0 (WellFormed (testEvent 1)));
   Happens (SocketMessage 0 (WellFormed (testEvent 2)))].

(** Disconnect, queue a message, connect again; the close event of the
    first socket arrives while the second is connecting. *)
Definition reconnectByHand : list Action :=
  [Connect; Happens (SocketOpen 0); TransportDisconnect; TransportSend purchase;
   Connect; Happens (SocketClose 0); Happens (SocketOpen 1)].

(** A connection is lost, the first reconnect attempt fails with an error
    event followed by the close event, and the application disconnects. *)
Definition failedRetryThenDisconnect : list Action :=
  [Connect; Happens (SocketOpen 0); Happens (SocketClose 0);
   Happens (TimerFired 2); Happens (SocketError 1); Happens (SocketClose 1);
   TransportDisconnect].

(** A transport none of whose observer sets holds a bound method of the
    client. *)
Definition socketDetached (self : WebSocketTransport.t) : Prop :=
  detached (WebSocketTransport.messageHandlers self) /\
  detached (WebSocketTransport.stateHandlers self) /\
  detached (WebSocketTransport.errorHandlers self).


(** [keepsQuiet self w r]: the step from [(self, w)] to [r] leaves the
    observer sets as they are and, on a detached transport, calls no event
    handler. *)
Definition keepsQuiet (self : WebSocketTransport.t) (w : World)
    (r : WebSocketTransport.t * World) : Prop :=
  registryOf (fst r) = registryOf self /\
  (socketDetached self -> handlerCalls (snd r) = handlerCalls w).

(** Inbound messages reaching the client one after the other. *)
Definition deliverAll (messages : list InboundMessage.t) (w : World) : World :=
  fold_left (fun w m => TalonClient.handleMessage m w) messages w.

Definition isPlain (h : EventHandler) : Prop :=
  match h with
  | Plain _ => True
  | Once _ _ _ => False
  end.

(** From [w] to [w'] no socket was made and no reconnect timer added. *)
Definition noRetry (w w' : World) : Prop :=
  length (sockets w') = length (sockets w) /\
  forall i d, timers w' !! i = Some (ReconnectTimer d) ->
              timers w !! i = Some (ReconnectTimer d).

(** A step that, with auto-reconnect off, keeps it off and neither makes
    a socket nor adds a reconnect timer. *)
Definition staysOff (self : WebSocketTransport.t) (w : World)
    (r : WebSocketTransport.t * World) : Prop :=
  WebSocketTransport.autoReconnect self = false ->
  WebSocketTransport.autoReconnect (fst r) = false /\ noRetry w (snd r).

(** Auto-reconnect is off and no reconnect timer is pending. *)
Definition retired (self : WebSocketTransport.t) (w : World) : Prop :=
  WebSocketTransport.autoReconnect self = false /\
  forall i d, timers w !! i <> Some (ReconnectTimer d).

(** ** Further readings of worlds, for the properties beyond the claims *)

(** No event type is mapped to an empty set. *)
Definition noEmptySet (w : World) : Prop :=
  forall eventType, eventHandlers (client w) !! eventType <> Some [].

(** The function behind a handler returns when called with [a]. *)
Definition returnsOn (a : Arg) (h : EventHandler) : Prop :=
  match h with
  | Plain cb => body cb a = None
  | Once _ _ cb => body cb a = None
  end.

(** The delays awaited between attempts, in order. *)
Definition sleep (e : Effect) : option Z :=
  match e with
  | Slept ms => Some ms
  | _ => None
  end.

Definition sleeps (w : World) : list Z := omap sleep (effects w).

(** A client with two handlers on "test_event", the first of which
    throws, and one on "other_event". *)
Definition listeningWorld : World :=
  snd (run [On "test_event" (throwing 1); On "test_event" (returning 2);
            On "other_event" (returning 3)]
         (socketClient smooth)).

(** A client with two handlers on each reserved event type. *)
Definition watchingWorld : World :=
  snd (run [On "_state_change" (returning 1); On "_state_change" (returning 2);
            On "_error" (returning 3)]
         (socketClient smooth)).

(** A socket transport with observers on its three channels. *)
Definition observedSocket : WebSocketTransport.t * World :=
  run [Observe Messages (throwing 4); Observe Messages (returning 5);
       Observe States (returning 6); Observe Errors (returning 7)]
    (socketClient smooth).

(** A host whose [WebSocket] constructor throws. *)
Definition badUrl : Script :=
  {| constructs := [Some (ThrowError {| name := "SyntaxError";
                                        message := "invalid url" |})];
     writes := []; fetches := []; clock := []; randoms := [] |}.

(** A socket transport with auto-reconnect disabled, connected. *)
Definition manualSocket : WebSocketTransport.t * World :=
  run [Connect; Happens (SocketOpen 0)]
    (TalonClient.constructor
       (WebSocketTransport.constructor
          {| WebSocketTransport.Options.url := "wss://edge.example.com";
             WebSocketTransport.Options.autoReconnect := Some false;
             WebSocketTransport.Options.reconnectDelay := None;
             WebSocketTransport.Options.maxReconnectAttempts := None;
             WebSocketTransport.Options.connectionTimeout := None;
             WebSocketTransport.Options.debug := None |})
       (Some false) None (newWorld smooth)).


(** Calls that hand inbound data on: a message observer called with a
    message, or an event handler called with the data of one. *)
Definition inbound (a : Arg) : bool :=
  match a with
  | ArgMessage _ | ArgData _ => true
  | _ => false
  end.

Definition inboundCall (e : Effect) : option (Fn * Arg) :=
  match e with
  | Invoked f a => if inbound a then Some (f, a) else None
  | _ => None
  end.

Definition inboundCalls (w : World) : list (Fn * Arg) := omap inboundCall (effects w).

(** The writes attempted on sockets so far, in order, each with its
    outcome: [true] when [JSON.stringify] and [ws.send] both returned,
    [false] when one of them threw. *)
Definition attempts (w : World) : list (OutboundMessage.t * bool) :=
  map (fun t => (snd (fst t), snd t)) (transmissions w).

(** The messages handed to a socket, and the messages dropped because
    their write threw: these were neither handed to a socket nor kept in
    the queue. *)
Definition written (w : World) : list OutboundMessage.t :=
  omap (fun a : OutboundMessage.t * bool => if snd a then Some (fst a) else None)
    (attempts w).

Definition dropped (w : World) : list OutboundMessage.t :=
  omap (fun a : OutboundMessage.t * bool => if snd a then None else Some (fst a))
    (attempts w).

(** Where a message handed to [send] can be: written, dropped, or still
    in the queue. *)
Definition accounted (self : WebSocketTransport.t) (w : World)
    : list OutboundMessage.t :=
  written w ++ dropped w ++ WebSocketTransport.messageQueue self.

(** The messages of the attempts, in order, followed by the queue. *)
Definition ledger (self : WebSocketTransport.t) (w : World)
    : list OutboundMessage.t :=
  map fst (attempts w) ++ WebSocketTransport.messageQueue self.

(** The messages an action hands to the transport's [send]. *)
Definition offered (a : Action) (w : World) : list OutboundMessage.t :=
  match a with
  | TransportSend message => [message]
  | Send event => [fst (TalonClient.envelope event w)]
  | _ => []
  end.

Fixpoint offeredBy (actions : list Action) (tw : WebSocketTransport.t * World)
    : list OutboundMessage.t :=
  match actions with
  | [] => []
  | a :: rest => offered a (snd tw) ++ offeredBy rest (step a tw)
  end.

(** A step that attempts no write and leaves the queue alone. *)
Definition calm (self : WebSocketTransport.t) (w : World)
    (r : WebSocketTransport.t * World) : Prop :=
  WebSocketTransport.messageQueue (fst r) = WebSocketTransport.messageQueue self /\
  transmissions (snd r) = transmissions w.

(** A step after which the ledger holds what it held and [extra], in
    some order. *)
Definition advances (self : WebSocketTransport.t) (w : World)
    (r : WebSocketTransport.t * World) (extra : list OutboundMessage.t) : Prop :=
  Permutation (ledger (fst r) (snd r)) (ledger self w ++ extra).

(** A message told apart by its number. *)
Definition numbered (n : Z) : OutboundMessage.t :=
  {| OutboundMessage.type := "event";
     OutboundMessage.data := [("n"%string, JNumber n)];
     OutboundMessage.id := None;
     OutboundMessage.timestamp := None |}.

(** A host on which the second write throws. *)
Definition secondWriteFails : Script :=
  {| constructs := [];
     writes := [None; Some (ThrowError (new_Error "not serializable")); None];
     fetches := []; clock := []; randoms := [] |}.

(** The observer set behind each channel of a transport. *)
Definition socketObservers (c : Channel) (self : WebSocketTransport.t)
    : list Observer :=
  match c with
  | Messages => WebSocketTransport.messageHandlers self
  | States => WebSocketTransport.stateHandlers self
  | Errors => WebSocketTransport.errorHandlers self
  end.

Definition webhookObservers (c : Channel) (self : WebhookTransport.t)
    : list Observer :=
  match c with
  | Messages => WebhookTransport.messageHandlers self
  | States => WebhookTransport.stateHandlers self
  | Errors => WebhookTransport.errorHandlers self
  end.

(** A socket transport that gives up after three reconnect attempts. *)
Definition limitedSocketClient (s : Script) : WebSocketTransport.t * World :=
  TalonClient.constructor
    (WebSocketTransport.constructor
       {| WebSocketTransport.Options.url := "wss://edge.example.com";
          WebSocketTransport.Options.autoReconnect := None;
          WebSocketTransport.Options.reconnectDelay := None;
          WebSocketTransport.Options.maxReconnectAttempts := Some 3%Z;
          WebSocketTransport.Options.connectionTimeout := None;
          WebSocketTransport.Options.debug := None |})
    (Some false) None (newWorld s).

(** A connection is lost and every reconnect attempt fails the way a
    socket fails, with an error event followed by the close event; the
    two timers each failure arms fire in the order they were armed. *)
Definition failingReconnects : list Action :=
  [Connect; Happens (SocketOpen 0); Happens (SocketClose 0);
   Happens (TimerFired 2); Happens (SocketError 1); Happens (SocketClose 1);
   Happens (TimerFired 4); Happens (TimerFired 5);
   Happens (SocketError 2); Happens (SocketClose 2);
   Happens (TimerFired 7); Happens (TimerFired 8);
   Happens (SocketError 3); Happens (SocketClose 3)].

(** * Verification *)

Lemma handlerSide_callSide e : handlerSide e -> callSide e.
Proof. destruct e; simpl; auto. Qed.

Lemma observerSide_callSide e : observerSide e -> callSide e.
Proof. destruct e; simpl; auto. Qed.

Lemma touches_refl P w : touches P w w.
Proof. split; [reflexivity|]. exists []. rewrite app_nil_r. auto. Qed.

Lemma touches_trans P w1 w2 w3 :
  touches P w1 w2 -> touches P w2 w3 -> touches P w1 w3.
Proof.
  intros [H1 (a1 & E1 & F1)] [H2 (a2 & E2 & F2)]. split; [congruence|].
  exists (a1 ++ a2). rewrite E2, E1, app_assoc. split; [reflexivity|].
  apply Forall_app; auto.
Qed.

Lemma touches_weaken (P Q : Effect -> Prop) w w' :
  (forall e, P e -> Q e) -> touches P w w' -> touches Q w w'.
Proof.
  intros HPQ [H1 (a & E & F)]. split; [exact H1|].
  exists a. split; [exact E|]. eapply Forall_impl; eauto.
Qed.

Lemma touches_emit (P : Effect -> Prop) e w : P e -> touches P w (emit e w).
Proof.
  intros He. split; [reflexivity|]. exists [e]. split; [reflexivity|].
  constructor; auto.
Qed.

Lemma touches_withClient P c w : touches P w (withClient c w).
Proof. split; [reflexivity|]. exists []. rewrite app_nil_r. auto. Qed.

Lemma touches_console_log (P : Effect -> Prop) dbg prefix line w :
  (forall l, P (Logged l)) -> touches P w (console_log dbg prefix line w).
Proof.
  intros HP. unfold console_log. destruct dbg.
  - apply touches_emit, HP.
  - apply touches_refl.
Qed.

Create HintDb talon.

#[local] Hint Resolve touches_refl touches_emit touches_withClient : talon.

Lemma handlerSide_Logged l : handlerSide (Logged l).
Proof. exact I. Qed.

Lemma observerSide_Logged l : observerSide (Logged l).
Proof. exact I. Qed.

Lemma callSide_Logged l : callSide (Logged l).
Proof. exact I. Qed.

#[local] Hint Resolve handlerSide_Logged observerSide_Logged callSide_Logged : talon.

(** ** The dispatcher only logs and calls event handlers *)

Lemma touches_client_log line w : touches handlerSide w (TalonClient.log line w).
Proof. apply touches_console_log; auto with talon. Qed.

Lemma touches_setHandlers m w : touches handlerSide w (TalonClient.setHandlers m w).
Proof. apply touches_withClient. Qed.

#[local] Hint Resolve touches_client_log touches_setHandlers : talon.

Lemma touches_unsubscribe eventType h w :
  touches handlerSide w (TalonClient.unsubscribe eventType h w).
Proof.
  unfold TalonClient.unsubscribe.
  eapply touches_trans; [|apply touches_client_log].
  destruct (eventHandlers (client w) !! eventType) as [hs|]; auto with talon.
  destruct (length _ =? 0)%nat; auto with talon.
Qed.

Lemma touches_on eventType h w : touches handlerSide w (TalonClient.on eventType h w).
Proof.
  unfold TalonClient.on.
  eapply touches_trans; [|apply touches_client_log]. auto with talon.
Qed.

Lemma touches_once eventType h w :
  touches handlerSide w (fst (TalonClient.once eventType h w)).
Proof.
  unfold TalonClient.once. simpl.
  eapply touches_trans; [|apply touches_on]. auto with talon.
Qed.

Lemma touches_off eventType w : touches handlerSide w (TalonClient.off eventType w).
Proof.
  unfold TalonClient.off.
  eapply touches_trans; [|apply touches_client_log]. auto with talon.
Qed.

Lemma touches_invoke h a w :
  clientArg a = true -> touches handlerSide w (fst (TalonClient.invoke h a w)).
Proof.
  intros Ha. destruct h as [cb|n eventType cb]; simpl.
  - apply touches_emit. exact Ha.
  - destruct (body cb a); simpl.
    + eapply touches_trans; apply touches_emit; exact Ha.
    + eapply touches_trans; [|apply touches_unsubscribe].
      eapply touches_trans; apply touches_emit; exact Ha.
Qed.

Lemma touches_forEachTry eventType snapshot a w :
  clientArg a = true ->
  touches handlerSide w (TalonClient.forEachTry eventType snapshot a w).
Proof.
  intros Ha. revert w. induction snapshot as [|h rest IH]; intros w; simpl.
  - apply touches_refl.
  - destruct (has handlerFn h _); [|apply IH].
    pose proof (touches_invoke h a w Ha) as Hi.
    destruct (TalonClient.invoke h a w) as [w1 r]. simpl in Hi.
    eapply touches_trans; [exact Hi|].
    eapply touches_trans; [|apply IH].
    destruct r; auto with talon.
Qed.

Lemma touches_forEach eventType snapshot a w :
  clientArg a = true ->
  touches handlerSide w (fst (TalonClient.forEach eventType snapshot a w)).
Proof.
  intros Ha. revert w. induction snapshot as [|h rest IH]; intros w; simpl.
  - apply touches_refl.
  - destruct (has handlerFn h _); [|apply IH].
    pose proof (touches_invoke h a w Ha) as Hi.
    destruct (TalonClient.invoke h a w) as [w1 r]. simpl in Hi.
    destruct r; simpl; [exact Hi|].
    eapply touches_trans; [exact Hi|apply IH].
Qed.

Lemma touches_handleMessage m w :
  touches handlerSide w (TalonClient.handleMessage m w).
Proof.
  unfold TalonClient.handleMessage.
  eapply touches_trans; [apply (touches_client_log "Received message:")|].
  destruct (eventHandlers _ !! _) as [hs|]; auto with talon.
  destruct (0 <? length hs)%nat; auto with talon.
  apply touches_forEachTry. reflexivity.
Qed.

Lemma touches_handleStateChange s w :
  touches handlerSide w (fst (TalonClient.handleStateChange s w)).
Proof.
  unfold TalonClient.handleStateChange.
  eapply touches_trans; [apply touches_client_log|].
  destruct (eventHandlers _ !! _) as [hs|]; simpl; auto with talon.
  apply touches_forEach. reflexivity.
Qed.

Lemma touches_handleError e w :
  touches handlerSide w (fst (TalonClient.handleError e w)).
Proof.
  unfold TalonClient.handleError.
  eapply touches_trans; [apply touches_client_log|].
  destruct (eventHandlers _ !! _) as [hs|]; simpl; auto with talon.
  apply touches_forEach. reflexivity.
Qed.

(** ** What is read off the effects *)

Lemma touches_omap {X} (f : Effect -> option X) (P : Effect -> Prop) w w' :
  (forall e, P e -> f e = None) ->
  touches P w w' -> omap f (effects w') = omap f (effects w).
Proof.
  intros Hf [_ (added & E & F)]. rewrite E, omap_app.
  assert (Hnil : omap f added = []).
  { clear E. induction F as [|e l He _ IH]; [reflexivity|].
    simpl. rewrite (Hf e He). exact IH. }
  rewrite Hnil. apply app_nil_r.
Qed.

Lemma touches_hostOf P w w' : touches P w w' -> hostOf w' = hostOf w.
Proof. intros [H _]. exact H. Qed.

Lemma hostOf_parts w w' :
  hostOf w' = hostOf w ->
  sockets w' = sockets w /\ timers w' = timers w /\
  timerIds w' = timerIds w /\ script w' = script w.
Proof. unfold hostOf. intros E. inversion E. auto. Qed.

Lemma handlerSide_observerCall e : handlerSide e -> observerCall e = None.
Proof. destruct e as [f a| | | |]; simpl; try tauto. intros ->. reflexivity. Qed.

Lemma observerSide_handlerCall e : observerSide e -> handlerCall e = None.
Proof. destruct e as [f a| | | |]; simpl; try tauto. intros ->. reflexivity. Qed.

Lemma callSide_transmission e : callSide e -> transmission e = None.
Proof. destruct e; simpl; tauto. Qed.

Lemma callSide_request e : callSide e -> request e = None.
Proof. destruct e; simpl; tauto. Qed.

(** ** Observers: one call each, nothing escapes *)

Lemma touches_observe o a w :
  clientArg a = false -> touches callSide w (fst (observe o a w)).
Proof.
  intros Ha. destruct o as [cb|]; simpl.
  - apply touches_emit. exact I.
  - apply touches_trans with (emit (Invoked BoundMethod a) w);
      [apply touches_emit; exact I|].
    eapply touches_weaken; [apply handlerSide_callSide|].
    destruct a; try discriminate Ha; simpl.
    + apply touches_handleMessage.
    + apply touches_handleStateChange.
    + apply touches_handleError.
Qed.

Lemma touches_notify dbg prefix line observers a w :
  clientArg a = false ->
  touches callSide w (notify dbg prefix line observers a w).
Proof.
  intros Ha. revert w. induction observers as [|o rest IH]; intros w; simpl.
  - apply touches_refl.
  - pose proof (touches_observe o a w Ha) as Ho.
    destruct (observe o a w) as [w1 r]. simpl in Ho.
    eapply touches_trans; [exact Ho|].
    eapply touches_trans; [|apply IH].
    destruct r; [apply touches_console_log|]; auto with talon.
Qed.

Lemma touches_notify_detached dbg prefix line observers a w :
  clientArg a = false -> detached observers ->
  touches observerSide w (notify dbg prefix line observers a w).
Proof.
  intros Ha Hd. revert w.
  induction Hd as [|o rest Ho _ IH]; intros w; simpl.
  - apply touches_refl.
  - destruct o as [cb|]; [|congruence]. simpl.
    apply touches_trans with (emit (Invoked (Supplied (fn cb)) a) w);
      [apply touches_emit; exact Ha|].
    eapply touches_trans; [|apply IH].
    destruct (body cb a); [apply touches_console_log|]; auto with talon.
Qed.

Lemma observerCalls_observe o a w :
  clientArg a = false ->
  observerCalls (fst (observe o a w)) = observerCalls w ++ [(observerFn o, a)].
Proof.
  intros Ha. unfold observerCalls. destruct o as [cb|]; simpl.
  - rewrite omap_app. simpl. rewrite Ha. reflexivity.
  - assert (E : omap observerCall (effects (emit (Invoked BoundMethod a) w))
                = omap observerCall (effects w) ++ [(BoundMethod, a)]).
    { simpl. rewrite omap_app. simpl. rewrite Ha. reflexivity. }
    rewrite <- E.
    apply (touches_omap observerCall handlerSide); [apply handlerSide_observerCall|].
    destruct a; try discriminate Ha; simpl.
    + apply touches_handleMessage.
    + apply touches_handleStateChange.
    + apply touches_handleError.
Qed.

(** [notify] calls every observer of the set once, in registration order,
    whatever the observers do. *)
Lemma observerCalls_notify dbg prefix line observers a w :
  clientArg a = false ->
  observerCalls (notify dbg prefix line observers a w)
  = observerCalls w ++ map (fun o => (observerFn o, a)) observers.
Proof.
  intros Ha. revert w. induction observers as [|o rest IH]; intros w; simpl.
  - symmetry. apply app_nil_r.
  - pose proof (observerCalls_observe o a w Ha) as Ho.
    destruct (observe o a w) as [w1 r]. simpl in Ho.
    rewrite IH.
    assert (E : observerCalls
                  match r with
                  | Some _ => console_log dbg prefix line w1
                  | None => w1
                  end = observerCalls w1).
    { destruct r; [|reflexivity].
      apply (touches_omap observerCall handlerSide); [apply handlerSide_observerCall|].
      apply touches_console_log. auto with talon. }
    rewrite E, Ho, <- app_assoc. reflexivity.
Qed.

(** ** Sets of functions *)

Lemma has_true_iff {A} (ident : A -> Fn) x s :
  has ident x s = true <-> ident x ∈ map ident s.
Proof.
  unfold has. rewrite existsb_exists. split.
  - intros (y & Hy & E). apply bool_decide_eq_true in E. rewrite <- E.
    apply list_elem_of_In, in_map, Hy.
  - intros Hin. apply list_elem_of_In, in_map_iff in Hin.
    destruct Hin as (y & E & Hy). exists y. split; [exact Hy|].
    apply bool_decide_eq_true. exact E.
Qed.

(** Registration never makes a function occur twice. *)
Lemma add_NoDup {A} (ident : A -> Fn) x s :
  NoDup (map ident s) -> NoDup (map ident (add ident x s)).
Proof.
  intros Hs. unfold add. destruct (has ident x s) eqn:E; [exact Hs|].
  rewrite map_app. simpl. apply NoDup_app. split; [exact Hs|]. split.
  - intros f Hf Hx. apply list_elem_of_singleton in Hx. subst f.
    apply has_true_iff in Hf. congruence.
  - apply NoDup_singleton.
Qed.

Lemma remove_absent {A} (ident : A -> Fn) x s :
  ident x ∉ map ident (remove ident x s).
Proof.
  unfold remove. intros Hin. apply list_elem_of_In, in_map_iff in Hin.
  destruct Hin as (y & E & Hy). apply list_elem_of_In, list_elem_of_filter in Hy.
  destruct Hy as [Hne _]. congruence.
Qed.

(** ** C8: one state, one notification per change *)

(** C8.  A transport holds its state in the single field [_state], read by
    [state].  [setState] leaves the transport in the state asked for; when
    that is the state it already holds nothing at all happens (no observer
    is called), and otherwise the calls made to state observers are
    exactly one per entry of the observer set, in registration order, with
    the new state.  This holds for the socket and the webhook transport. *)
Theorem setState_notifies_each_observer_once :
  (forall (s : TransportState) (self : WebSocketTransport.t) (w : World),
     let (self', w') := WebSocketTransport.setState s self w in
     WebSocketTransport.state self' = s /\
     if bool_decide (WebSocketTransport._state self = s)
     then self' = self /\ w' = w
     else observerCalls w'
          = observerCalls w
            ++ map (fun o => (observerFn o, ArgState s))
                 (WebSocketTransport.stateHandlers self)) /\
  (forall (s : TransportState) (self : WebhookTransport.t) (w : World),
     let (self', w') := WebhookTransport.setState s self w in
     WebhookTransport.state self' = s /\
     if bool_decide (WebhookTransport._state self = s)
     then self' = self /\ w' = w
     else observerCalls w'
          = observerCalls w
            ++ map (fun o => (observerFn o, ArgState s))
                 (WebhookTransport.stateHandlers self)).
Proof.
  split; intros s self w.
  - unfold WebSocketTransport.setState.
    destruct (bool_decide (WebSocketTransport._state self = s)) eqn:E.
    + apply bool_decide_eq_true in E. auto.
    + split; [reflexivity|]. apply observerCalls_notify. reflexivity.
  - unfold WebhookTransport.setState.
    destruct (bool_decide (WebhookTransport._state self = s)) eqn:E.
    + apply bool_decide_eq_true in E. auto.
    + split; [reflexivity|]. apply observerCalls_notify. reflexivity.
Qed.

(** ** The socket transport, method by method *)

Module SocketFacts.
Import WebSocketTransport.

Lemma setState_fst s self w : fst (setState s self w) = set_state s self.
Proof.
  unfold setState. destruct (bool_decide (_state self = s)) eqn:E; [|reflexivity].
  apply bool_decide_eq_true in E. subst s. destruct self. reflexivity.
Qed.

Lemma setState_touches s self w : touches callSide w (snd (setState s self w)).
Proof.
  unfold setState. destruct (bool_decide (_state self = s)); simpl.
  - apply touches_refl.
  - apply touches_notify. reflexivity.
Qed.

Lemma emitError_touches e self w : touches callSide w (emitError e self w).
Proof. apply touches_notify. reflexivity. Qed.

Lemma log_touches P self line w :
  (forall l, P (Logged l)) -> touches P w (log self line w).
Proof. apply touches_console_log. Qed.

Lemma log_hostOf self line w : hostOf (log self line w) = hostOf w.
Proof. unfold log, console_log. destruct (debug self); reflexivity. Qed.

Lemma log_observerCalls self line w : observerCalls (log self line w) = observerCalls w.
Proof.
  apply (touches_omap observerCall handlerSide); [apply handlerSide_observerCall|].
  apply log_touches. exact handlerSide_Logged.
Qed.

(** [send] either leaves the object alone or appends to its queue. *)
Lemma send_fst message self w :
  fst (fst (send message self w)) = self \/
  fst (fst (send message self w))
  = set_messageQueue (messageQueue self ++ [message]) self.
Proof.
  unfold send. destruct (bool_decide (_state self = connected)); [|auto].
  destruct (ws self); [|auto].
  destruct (write w) as [[x|] w1]; auto.
Qed.

Lemma send_keeps message self w :
  let self' := fst (fst (send message self w)) in
  reconnectAttempts self' = reconnectAttempts self /\
  registryOf self' = registryOf self /\
  _state self' = _state self /\ ws self' = ws self /\
  autoReconnect self' = autoReconnect self.
Proof.
  simpl. destruct (send_fst message self w) as [-> | ->]; auto.
Qed.

Lemma flushEach_keeps queue self w :
  let self' := fst (flushEach queue self w) in
  reconnectAttempts self' = reconnectAttempts self /\
  registryOf self' = registryOf self /\
  _state self' = _state self /\ ws self' = ws self /\
  autoReconnect self' = autoReconnect self.
Proof.
  revert self w. induction queue as [|m rest IH]; intros self w; simpl; [auto|].
  pose proof (send_keeps m self w) as Hs. simpl in Hs.
  destruct (send m self w) as [[self1 w1] p]. simpl in Hs.
  destruct Hs as (H1 & H2 & H3 & H4 & H5).
  assert (Hgoal : forall w',
    let self' := fst (flushEach rest self1 w') in
    reconnectAttempts self' = reconnectAttempts self /\
    registryOf self' = registryOf self /\
    _state self' = _state self /\ ws self' = ws self /\
    autoReconnect self' = autoReconnect self).
  { intros w'. specialize (IH self1 w'). simpl in IH. simpl.
    destruct IH as (I1 & I2 & I3 & I4 & I5).
    repeat split; congruence. }
  destruct p; apply Hgoal.
Qed.

Lemma flushMessageQueue_keeps self w :
  let self' := fst (flushMessageQueue self w) in
  reconnectAttempts self' = reconnectAttempts self /\
  registryOf self' = registryOf self /\
  _state self' = _state self /\ ws self' = ws self /\
  autoReconnect self' = autoReconnect self.
Proof.
  unfold flushMessageQueue.
  destruct (length (messageQueue self) =? 0)%nat; [simpl; auto|].
  pose proof (flushEach_keeps (messageQueue self) (set_messageQueue [] self)
                (log self ("Flushing "
                   +:+ show (Z.of_nat (length (messageQueue self)))
                   +:+ " queued messages") w)) as Hk.
  simpl in Hk. simpl. destruct self; simpl in *. exact Hk.
Qed.

Lemma scheduleReconnect_spec self w :
  let delay := (reconnectDelay self * 2 ^ reconnectAttempts self)%Z in
  exists w1,
    hostOf w1 = hostOf w /\
    scheduleReconnect self w
    = (set_reconnectTimeout (Some (S (timerIds w))) self,
       withTimers (<[S (timerIds w) := ReconnectTimer delay]> (timers w))
         (S (timerIds w)) w1).
Proof.
  simpl. unfold scheduleReconnect.
  set (line := ("Reconnecting in " +:+ _)%string).
  exists (log self line w). split; [apply log_hostOf|].
  unfold setTimeout.
  destruct (hostOf_parts _ _ (log_hostOf self line w)) as (_ & -> & -> & _).
  reflexivity.
Qed.

Lemma handleDisconnect_retry self w :
  mayRetry self = true ->
  let delay := (reconnectDelay self * 2 ^ reconnectAttempts self)%Z in
  exists w1,
    hostOf w1 = hostOf w /\
    handleDisconnect self w
    = (set_reconnectTimeout (Some (S (timerIds w)))
         (set_state reconnecting (set_ws None self)),
       withTimers (<[S (timerIds w) := ReconnectTimer delay]> (timers w))
         (S (timerIds w)) w1).
Proof.
  intros Hr. simpl. unfold handleDisconnect.
  replace (autoReconnect (set_ws None self) && _) with (mayRetry self)
    by (destruct self; reflexivity).
  rewrite Hr.
  set (w0 := log self "Disconnected" w).
  pose proof (setState_fst reconnecting (set_ws None self) w0) as Hf.
  pose proof (setState_touches reconnecting (set_ws None self) w0) as Ht.
  destruct (setState reconnecting (set_ws None self) w0) as [self2 w2].
  simpl in Hf, Ht. subst self2.
  destruct (scheduleReconnect_spec (set_state reconnecting (set_ws None self)) w2)
    as (w3 & H3 & ->).
  assert (H02 : hostOf w2 = hostOf w).
  { rewrite (touches_hostOf _ _ _ Ht). apply log_hostOf. }
  exists w3. split; [congruence|].
  destruct (hostOf_parts _ _ H02) as (_ & -> & -> & _).
  destruct self; reflexivity.
Qed.

Lemma handleDisconnect_settle self w :
  mayRetry self = false ->
  exists w1,
    hostOf w1 = hostOf w /\
    handleDisconnect self w = (set_state disconnected (set_ws None self), w1).
Proof.
  intros Hr. unfold handleDisconnect.
  replace (autoReconnect (set_ws None self) && _) with (mayRetry self)
    by (destruct self; reflexivity).
  rewrite Hr.
  set (w0 := log self "Disconnected" w).
  pose proof (setState_fst disconnected (set_ws None self) w0) as Hf.
  pose proof (setState_touches disconnected (set_ws None self) w0) as Ht.
  destruct (setState disconnected (set_ws None self) w0) as [self2 w2].
  simpl in Hf, Ht. subst self2.
  exists w2. split; [|reflexivity].
  rewrite (touches_hostOf _ _ _ Ht). apply log_hostOf.
Qed.

Lemma handleDisconnect_keeps self w :
  let self' := fst (handleDisconnect self w) in
  reconnectAttempts self' = reconnectAttempts self /\
  registryOf self' = registryOf self /\
  autoReconnect self' = autoReconnect self.
Proof.
  simpl. destruct (mayRetry self) eqn:Hr.
  - destruct (handleDisconnect_retry self w Hr) as (w1 & _ & ->).
    destruct self; simpl; auto.
  - destruct (handleDisconnect_settle self w Hr) as (w1 & _ & ->).
    destruct self; simpl; auto.
Qed.

Lemma connectFrom_keeps viaTimer self w :
  let self' := fst (fst (connectFrom viaTimer self w)) in
  reconnectAttempts self' = reconnectAttempts self /\
  registryOf self' = registryOf self /\
  autoReconnect self' = autoReconnect self.
Proof.
  simpl. unfold connectFrom.
  destruct (bool_decide (_state self = connected) || _); [simpl; auto|].
  pose proof (setState_fst connecting self w) as Hf.
  destruct (setState connecting self w) as [self1 w1]. simpl in Hf. subst self1.
  destruct (construct _) as [[x|] w3].
  - pose proof (setState_fst error (set_state connecting self) w3) as Hf.
    destruct (setState error (set_state connecting self) w3) as [self2 w4].
    simpl in Hf. subst self2. destruct self; simpl; auto.
  - destruct (setTimeout _ w3) as [g w4]. destruct self; simpl; auto.
Qed.

End SocketFacts.

(** ** Reconnecting with exponential backoff *)

(** The schedule in terms of the counter [reconnectAttempts]: on the
    socket transport with auto-reconnect enabled, the close event of a
    socket schedules a reconnect exactly when the attempt limit is 0 or
    the counter is below the limit, and otherwise leaves the state
    [disconnected] with no timer added; the timer scheduled carries the
    delay [reconnectDelay * 2 ^ reconnectAttempts], without any cap.  The
    counter grows by one when a reconnect timer fires and is 0 after a
    socket has opened.  The counter is not the number of attempts made,
    as the trace that follows shows. *)
Lemma reconnect_backoff_schedule (self : WebSocketTransport.t) (w : World) :
  (WebSocketTransport.autoReconnect self = true ->
   forall s,
   let w0 := WebSocketTransport.clearGuard s w in
   let (self', w') := WebSocketTransport.onclose s self w in
   if ((WebSocketTransport.maxReconnectAttempts self =? 0)
       || (WebSocketTransport.reconnectAttempts self
           <? WebSocketTransport.maxReconnectAttempts self))%Z
   then WebSocketTransport._state self' = reconnecting /\
        WebSocketTransport.reconnectTimeout self' = Some (S (timerIds w0)) /\
        timers w'
        = <[S (timerIds w0) :=
              ReconnectTimer (WebSocketTransport.reconnectDelay self
                              * 2 ^ WebSocketTransport.reconnectAttempts self)%Z]>
            (timers w0)
   else WebSocketTransport._state self' = disconnected /\
        timers w' = timers w0) /\
  (forall i d,
     timers w !! i = Some (ReconnectTimer d) ->
     WebSocketTransport.reconnectAttempts
       (fst (WebSocketTransport.deliver (TimerFired i) self w))
     = (WebSocketTransport.reconnectAttempts self + 1)%Z) /\
  (forall s k,
     sockets w !! s = Some k -> readyState k = CONNECTING ->
     WebSocketTransport.reconnectAttempts
       (fst (WebSocketTransport.deliver (SocketOpen s) self w))
     = 0%Z).
Proof.
  split; [|split].
  - intros Hauto s. simpl. unfold WebSocketTransport.onclose.
    set (w0 := WebSocketTransport.clearGuard s w).
    assert (Hm : mayRetry self
                 = ((WebSocketTransport.maxReconnectAttempts self =? 0)
                    || (WebSocketTransport.reconnectAttempts self
                        <? WebSocketTransport.maxReconnectAttempts self))%Z).
    { unfold mayRetry. rewrite Hauto. reflexivity. }
    rewrite <- Hm. destruct (mayRetry self) eqn:Hr.
    + destruct (SocketFacts.handleDisconnect_retry self w0 Hr) as (w1 & _ & ->).
      destruct self; simpl. auto.
    + destruct (SocketFacts.handleDisconnect_settle self w0 Hr) as (w1 & H1 & ->).
      destruct (hostOf_parts _ _ H1) as (_ & Ht & _).
      destruct self; simpl. auto.
  - intros i d Hi. unfold WebSocketTransport.deliver, WebSocketTransport.enabled.
    rewrite Hi. rewrite bool_decide_eq_true_2 by eauto.
    unfold WebSocketTransport.reconnectNow.
    set (self1 := WebSocketTransport.set_reconnectAttempts _ self).
    pose proof (SocketFacts.connectFrom_keeps true self1
                  (WebSocketTransport.clearTimeout i w)) as Hk.
    simpl in Hk.
    destruct (WebSocketTransport.connectFrom true self1 _) as [[self2 w2] p].
    simpl in Hk. destruct Hk as (Hk & _).
    assert (H1 : WebSocketTransport.reconnectAttempts self1
                 = (WebSocketTransport.reconnectAttempts self + 1)%Z)
      by (destruct self; reflexivity).
    destruct p; simpl; try congruence.
    unfold WebSocketTransport.reconnectFailed.
    pose proof (SocketFacts.handleDisconnect_keeps self2
                  (WebSocketTransport.log self2 "Reconnect failed:" w2)) as Hd.
    simpl in Hd. destruct Hd as (Hd & _). congruence.
  - intros s k Hs Hk. unfold WebSocketTransport.deliver, WebSocketTransport.enabled.
    rewrite Hs, Hk. simpl. unfold WebSocketTransport.onopen.
    set (w1 := WebSocketTransport.clearGuard s _).
    pose proof (SocketFacts.setState_fst connected self w1) as Hf.
    destruct (WebSocketTransport.setState connected self w1) as [self1 w2].
    simpl in Hf. subst self1.
    set (self2 := WebSocketTransport.set_reconnectAttempts 0 _).
    set (w3 := WebSocketTransport.log self2 "Connected" w2).
    pose proof (SocketFacts.flushMessageQueue_keeps self2 w3) as Hq.
    simpl in Hq. destruct (WebSocketTransport.flushMessageQueue self2 w3) as [self3 w4].
    simpl in Hq. destruct Hq as (Hq & _). simpl. rewrite Hq.
    destruct self; reflexivity.
Qed.

Lemma reconnect_backoff_schedule_witness :
  let self := fst retryingSocket in
  let w := snd retryingSocket in
  WebSocketTransport.autoReconnect self = true /\
  timers w !! 5 = Some (ReconnectTimer 2000) /\
  (readyState <$> sockets w !! 2) = Some CONNECTING /\
  WebSocketTransport.reconnectAttempts self = 2%Z /\
  timers (snd (WebSocketTransport.onclose 2 self w)) !! 7
  = Some (ReconnectTimer 4000) /\
  WebSocketTransport.reconnectAttempts
    (fst (WebSocketTransport.deliver (TimerFired 5) self w)) = 3%Z /\
  WebSocketTransport.reconnectAttempts
    (fst (WebSocketTransport.deliver (SocketOpen 2) self w)) = 0%Z.
Proof.
  cbv zeta.
  destruct (reconnect_backoff_schedule (fst retryingSocket) (snd retryingSocket))
    as (Hclose & Htimer & Hopen).
  split; [vm_compute; reflexivity|]. split; [vm_compute; reflexivity|].
  split; [vm_compute; reflexivity|]. split; [vm_compute; reflexivity|].
  split; [|split].
  - assert (Hauto : WebSocketTransport.autoReconnect (fst retryingSocket) = true)
      by (vm_compute; reflexivity).
    specialize (Hclose Hauto 2). cbv zeta in Hclose.
    destruct (WebSocketTransport.onclose 2 (fst retryingSocket) (snd retryingSocket))
      as [self' w'].
    replace ((WebSocketTransport.maxReconnectAttempts (fst retryingSocket) =? 0)
             || (WebSocketTransport.reconnectAttempts (fst retryingSocket)
                 <? WebSocketTransport.maxReconnectAttempts (fst retryingSocket)))%Z
      with true in Hclose by (vm_compute; reflexivity).
    destruct Hclose as (_ & _ & Ht). cbn [snd]. rewrite Ht.
    vm_compute. reflexivity.
  - rewrite (Htimer 5 2000%Z ltac:(vm_compute; reflexivity)).
    vm_compute. reflexivity.
  - apply (Hopen 2 {| readyState := CONNECTING; settled := false;
                      retrying := true; guard := 6 |});
      vm_compute; reflexivity.
Defined.

(** ** C3: the schedule against the attempts made *)

(** C3.  The delay before reconnect attempt [n] is not
    [reconnectDelay * 2 ^ n], and a limit of 3 does not allow three
    attempts.  A failed attempt reports an error and then closes: the
    [catch] of the reconnect timer and [onclose] each run
    [handleDisconnect], so two timers are armed and the counter advances
    twice, the second time without an attempt ([connect()] finds the
    state [connecting]).  After the loss of the connection the attempts
    (sockets 1, 2, 3) are made after 1000, 2000 and 8000 ms, and the next
    is armed with 32000 ms; with [maxReconnectAttempts = 3] the transport
    settles as [disconnected] once two attempts have failed, with no
    timer pending. *)
Theorem failed_attempt_advances_counter_twice :
  let unlimited n := run (take n failingReconnects) (socketClient smooth) in
  let limited n := run (take n failingReconnects) (limitedSocketClient smooth) in
  feasible failingReconnects (socketClient smooth) = true /\
  (timers (snd (unlimited 3)) = {[2%nat := ReconnectTimer 1000]} /\
   length (sockets (snd (unlimited 3))) = 1%nat /\
   length (sockets (snd (unlimited 4))) = 2%nat) /\
  (timers (snd (unlimited 6))
   = {[4%nat := ReconnectTimer 2000; 5%nat := ReconnectTimer 2000]} /\
   length (sockets (snd (unlimited 7))) = 3%nat /\
   WebSocketTransport.reconnectAttempts (fst (unlimited 7)) = 2%Z /\
   length (sockets (snd (unlimited 8))) = 3%nat /\
   WebSocketTransport.reconnectAttempts (fst (unlimited 8)) = 3%Z) /\
  (timers (snd (unlimited 10))
   = {[7%nat := ReconnectTimer 8000; 8%nat := ReconnectTimer 8000]} /\
   length (sockets (snd (unlimited 11))) = 4%nat /\
   length (sockets (snd (unlimited 12))) = 4%nat /\
   WebSocketTransport.reconnectAttempts (fst (unlimited 12)) = 5%Z) /\
  timers (snd (unlimited 14))
  = {[10%nat := ReconnectTimer 32000; 11%nat := ReconnectTimer 32000]} /\
  (feasible (take 10 failingReconnects) (limitedSocketClient smooth) = true /\
   WebSocketTransport.autoReconnect (fst (limited 9)) = true /\
   WebSocketTransport.maxReconnectAttempts (fst (limited 9)) = 3%Z /\
   length (sockets (snd (limited 9))) = 3%nat /\
   WebSocketTransport._state (fst (limited 9)) = disconnected /\
   timers (snd (limited 9)) = ∅ /\
   WebSocketTransport._state (fst (limited 10)) = disconnected /\
   timers (snd (limited 10)) = ∅ /\
   length (sockets (snd (limited 10))) = 3%nat).
Proof. vm_compute. repeat split; reflexivity. Qed.

(** ** C6: sending on the socket transport *)

(** C6.  [send] on the socket transport, called in any state other than
    [connected], appends the message to the queue and resolves; nothing
    else happens but a debug line.  Called while connected (with the
    socket in place), a throw of the serialization or of the write
    rejects the call with that error and every error observer is called
    with it, once each in registration order. *)
Theorem socket_send_queues_or_reports (message : OutboundMessage.t)
    (self : WebSocketTransport.t) (w : World) :
  (WebSocketTransport._state self <> connected ->
   WebSocketTransport.send message self w
   = (WebSocketTransport.set_messageQueue
        (WebSocketTransport.messageQueue self ++ [message]) self,
      WebSocketTransport.log self "Not connected, queueing message" w,
      Resolved)) /\
  (forall s x,
     WebSocketTransport._state self = connected ->
     WebSocketTransport.ws self = Some s ->
     head (writes (script w)) = Some (Some x) ->
     let '(self', w', p) := WebSocketTransport.send message self w in
     let err := instanceofError "Send failed" x in
     p = Rejected err /\
     self' = self /\
     observerCalls w'
     = observerCalls w
       ++ map (fun o => (observerFn o, ArgError err))
            (WebSocketTransport.errorHandlers self)).
Proof.
  split.
  - intros Hs. unfold WebSocketTransport.send.
    rewrite bool_decide_eq_false_2 by exact Hs. reflexivity.
  - intros s x Hc Hws Hx. unfold WebSocketTransport.send.
    rewrite bool_decide_eq_true_2 by exact Hc. rewrite Hws.
    unfold WebSocketTransport.write. rewrite Hx. simpl.
    split; [reflexivity|]. split; [reflexivity|].
    unfold WebSocketTransport.emitError.
    rewrite observerCalls_notify by reflexivity.
    rewrite SocketFacts.log_observerCalls.
    unfold observerCalls at 1. simpl. rewrite omap_app. simpl.
    rewrite app_nil_r. reflexivity.
Qed.

Lemma socket_send_queues_or_reports_witness :
  (WebSocketTransport._state socketTransport <> connected /\
   WebSocketTransport.messageQueue
     (fst (fst (WebSocketTransport.send purchase socketTransport (newWorld smooth))))
   = [purchase]) /\
  (let self := fst (openSocket failingWrite) in
   let w := snd (openSocket failingWrite) in
   WebSocketTransport._state self = connected /\
   WebSocketTransport.ws self = Some 0 /\
   head (writes (script w)) = Some (Some (ThrowValue (JString "circular"))) /\
   snd (WebSocketTransport.send purchase self w) = Rejected (new_Error "Send failed")).
Proof.
  split.
  - assert (Hs : WebSocketTransport._state socketTransport <> connected)
      by (vm_compute; discriminate).
    split; [exact Hs|].
    rewrite (proj1 (socket_send_queues_or_reports purchase socketTransport
                      (newWorld smooth)) Hs).
    vm_compute. reflexivity.
  - cbv zeta.
    assert (Hc : WebSocketTransport._state (fst (openSocket failingWrite)) = connected)
      by (vm_compute; reflexivity).
    assert (Hws : WebSocketTransport.ws (fst (openSocket failingWrite)) = Some 0)
      by (vm_compute; reflexivity).
    assert (Hx : head (writes (script (snd (openSocket failingWrite))))
                 = Some (Some (ThrowValue (JString "circular"))))
      by (vm_compute; reflexivity).
    split; [exact Hc|]. split; [exact Hws|]. split; [exact Hx|].
    pose proof (proj2 (socket_send_queues_or_reports purchase
                         (fst (openSocket failingWrite))
                         (snd (openSocket failingWrite))) 0 _ Hc Hws Hx) as H.
    destruct (WebSocketTransport.send purchase (fst (openSocket failingWrite))
                (snd (openSocket failingWrite))) as [[self' w'] p].
    cbv zeta in H. destruct H as (-> & _). reflexivity.
Defined.

(** ** C5: sending on the webhook transport *)

Lemma omap_emit {X} (f : Effect -> option X) e w :
  omap f (effects (emit e w))
  = omap f (effects w) ++ match f e with Some x => [x] | None => [] end.
Proof. simpl. rewrite omap_app. simpl. destruct (f e); reflexivity. Qed.

Lemma omap_console_log {X} (f : Effect -> option X) dbg prefix line w :
  (forall l, f (Logged l) = None) ->
  omap f (effects (console_log dbg prefix line w)) = omap f (effects w).
Proof.
  intros Hf. unfold console_log. destruct dbg; [|reflexivity].
  rewrite omap_emit, Hf. apply app_nil_r.
Qed.

Lemma script_console_log dbg prefix line w :
  script (console_log dbg prefix line w) = script w.
Proof. unfold console_log. destruct dbg; reflexivity. Qed.

Module WebhookFacts.
Import WebhookTransport.

(** [failure] does not depend on the message, the object or the world it
    was read off. *)
Lemma sendRequest_spec message self w :
  exists w1,
    sendRequest message self w
    = (w1, ThrowError <$> failure (answer 0 w)) /\
    fetches (script w1) = tl (fetches (script w)) /\
    requests w1 = requests w ++ [message] /\
    observerCalls w1 = observerCalls w.
Proof.
  assert (Hfin : forall w1 : World,
            script w1 = script (snd (fetch (emit (Requested message) w))) ->
            omap request (effects w1) = omap request (effects w) ++ [message] ->
            omap observerCall (effects w1) = omap observerCall (effects w) ->
            fetches (script w1) = tl (fetches (script w)) /\
            requests w1 = requests w ++ [message] /\
            observerCalls w1 = observerCalls w).
  { intros w1 -> Hr Ho. auto. }
  assert (Hbase : omap request (effects (snd (fetch (emit (Requested message) w))))
                  = omap request (effects w) ++ [message] /\
                  omap observerCall (effects (snd (fetch (emit (Requested message) w))))
                  = omap observerCall (effects w)).
  { simpl. rewrite !omap_app. simpl. rewrite app_nil_r. auto. }
  destruct Hbase as (Hbr & Hbo).
  unfold sendRequest, answer, failure, sendRequest.
  destruct (fetch (emit (Requested message) w)) as [r w1] eqn:Ef.
  assert (Hr : r = nth 0 (fetches (script w)) (Response 200 "OK")).
  { unfold fetch in Ef. inversion Ef. simpl.
    destruct (fetches (script w)); reflexivity. }
  rewrite <- Hr. simpl in Hfin, Hbr, Hbo. clear Ef Hr.
  destruct r as [status statusText|[e|v]]; simpl.
  - destruct ((200 <=? status)%Z && (status <=? 299)%Z); simpl;
      eexists; (split; [reflexivity|]); apply Hfin;
      unfold log; rewrite ?script_console_log, ?omap_console_log by reflexivity;
      auto.
  - destruct (String.eqb (name e) "AbortError"); simpl;
      eexists; (split; [reflexivity|]); apply Hfin; auto.
  - eexists; (split; [reflexivity|]); apply Hfin; auto.
Qed.

Lemma answer_next k w w1 :
  fetches (script w1) = tl (fetches (script w)) -> answer k w1 = answer (S k) w.
Proof.
  unfold answer. intros ->. destruct (fetches (script w)); [|reflexivity].
  simpl. destruct k; reflexivity.
Qed.

(** The loop of [send]: how many requests it makes and how it ends. *)
Lemma attemptLoop_spec message self n : forall attempt attempts lastError w,
  exists w' exit made,
    attemptLoop n attempt attempts lastError message self w = (w', exit) /\
    requests w' = requests w ++ replicate made message /\
    observerCalls w' = observerCalls w /\
    (made <= n)%nat /\
    (forall k, (k < n)%nat ->
       (forall j, (j < k)%nat -> failure (answer j w) <> None) ->
       failure (answer k w) = None -> exit = Sent /\ made = S k) /\
    ((forall j, (j < n)%nat -> failure (answer j w) <> None) ->
     made = n /\
     exit = Exhausted (match n with
                       | O => lastError
                       | S m => failure (answer m w)
                       end)).
Proof.
  induction n as [|n IH]; intros attempt attempts lastError w.
  - exists w, (Exhausted lastError), 0%nat. simpl.
    rewrite app_nil_r. repeat split; auto; intros; lia.
  - simpl. destruct (sendRequest_spec message self w) as (w1 & -> & Hf & Hr & Ho).
    destruct (failure (answer 0 w)) as [e|] eqn:E0; simpl.
    + set (w2 := log self _ w1).
      set (w3 := if (attempt <? attempts - 1)%Z then _ else w2).
      assert (H3 : fetches (script w3) = tl (fetches (script w)) /\
                   requests w3 = requests w ++ [message] /\
                   observerCalls w3 = observerCalls w).
      { assert (H2 : fetches (script w2) = tl (fetches (script w)) /\
                     requests w2 = requests w ++ [message] /\
                     observerCalls w2 = observerCalls w).
        { unfold w2, log, requests, observerCalls.
          rewrite script_console_log, !omap_console_log by reflexivity. auto. }
        unfold w3. destruct (attempt <? attempts - 1)%Z; [|exact H2].
        destruct H2 as (A & B & C). unfold requests, observerCalls in *.
        rewrite !omap_emit. simpl. rewrite !app_nil_r. auto. }
      destruct H3 as (Hf3 & Hr3 & Ho3).
      destruct (IH (attempt + 1)%Z attempts (Some e) w3)
        as (w' & exit & made & -> & Hreq & Hobs & Hle & Hfirst & Hall).
      exists w', exit, (S made). split; [reflexivity|].
      split; [rewrite Hreq, Hr3, <- app_assoc; reflexivity|].
      split; [congruence|]. split; [lia|]. split.
      * intros k Hk Hbefore Hok. destruct k as [|k]; [congruence|].
        destruct (Hfirst k) as (-> & ->); auto; [lia| |].
        -- intros j Hj. rewrite (answer_next j w w3 Hf3). apply Hbefore. lia.
        -- rewrite (answer_next k w w3 Hf3). exact Hok.
      * intros Hfail. destruct Hall as (-> & ->).
        { intros j Hj. rewrite (answer_next j w w3 Hf3). apply Hfail. lia. }
        split; [reflexivity|]. destruct n as [|m]; [congruence|].
        rewrite (answer_next m w w3 Hf3). reflexivity.
    + eexists _, Sent, 1%nat. split; [reflexivity|].
      unfold log, requests, observerCalls in *.
      rewrite !omap_console_log by reflexivity.
      split; [exact Hr|]. split; [exact Ho|]. split; [lia|]. split.
      * intros k Hk Hbefore Hok. destruct k as [|k]; [auto|].
        exfalso. apply (Hbefore 0%nat); [lia|exact E0].
      * intros Hfail. exfalso. apply (Hfail 0%nat); [lia|exact E0].
Qed.

End WebhookFacts.

(** C5.  [send] on the webhook transport rejects at once, without a
    request, when the state is not [connected].  Otherwise it issues the
    same request at most [1 + maxRetries] times with retry enabled and
    exactly once without; it resolves at the first answer in the 2xx
    range, having made no further request; a status outside 2xx, a
    timeout (abort) or any other rejection of the request counts as a
    failed attempt; and when all attempts have failed the error of the
    last one is passed to every error observer and the call rejects with
    it.  Retry is off unless the options turn it on. *)
Theorem webhook_send_attempts (message : OutboundMessage.t)
    (self : WebhookTransport.t) (w : World) :
  (WebhookTransport._state self <> connected ->
   WebhookTransport.send message self w
   = (self, w, Rejected (new_Error "Transport not connected"))) /\
  (WebhookTransport._state self = connected ->
   let attempts := if WebhookTransport.retry self
                   then Z.to_nat (1 + WebhookTransport.maxRetries self)
                   else 1%nat in
   let '(self', w', p) := WebhookTransport.send message self w in
   exists made,
     requests w' = requests w ++ replicate made message /\
     (made <= attempts)%nat /\
     (WebhookTransport.retry self = false -> made = 1%nat) /\
     (forall k, (k < attempts)%nat ->
        (forall j, (j < k)%nat -> failure (answer j w) <> None) ->
        failure (answer k w) = None ->
        p = Resolved /\ made = S k) /\
     (forall e, (0 < attempts)%nat ->
        (forall j, (j < attempts)%nat -> failure (answer j w) <> None) ->
        failure (answer (attempts - 1) w) = Some e ->
        p = Rejected e /\ made = attempts /\
        observerCalls w'
        = observerCalls w
          ++ map (fun o => (observerFn o, ArgError e))
               (WebhookTransport.errorHandlers self))) /\
  (forall status statusText,
     failure (Response status statusText) = None
     <-> (200 <= status <= 299)%Z) /\
  (forall x, failure (FetchRejected x) <> None) /\
  (forall m, failure (FetchRejected (ThrowError {| name := "AbortError"; message := m |}))
             = Some (new_Error "Request timeout")) /\
  (forall options,
     WebhookTransport.retry (WebhookTransport.constructor options)
     = default false (WebhookTransport.Options.retry options)).
Proof.
  split; [|split; [|split; [|split; [|split; [|reflexivity]]]]].
  - intros Hs. unfold WebhookTransport.send.
    rewrite bool_decide_eq_false_2 by exact Hs. reflexivity.
  - intros Hc. cbv zeta. unfold WebhookTransport.send.
    rewrite bool_decide_eq_true_2 by exact Hc. cbn [negb].
    set (attempts := if WebhookTransport.retry self
                     then (WebhookTransport.maxRetries self + 1)%Z else 1%Z).
    assert (Hn : (if WebhookTransport.retry self
                  then Z.to_nat (1 + WebhookTransport.maxRetries self)
                  else 1%nat) = Z.to_nat attempts).
    { unfold attempts. destruct (WebhookTransport.retry self); [|reflexivity].
      f_equal. lia. }
    rewrite Hn. clear Hn.
    destruct (WebhookFacts.attemptLoop_spec message self (Z.to_nat attempts)
                0%Z attempts None w)
      as (w1 & exit & made & -> & Hreq & Hobs & Hle & Hfirst & Hall).
    assert (Hone : WebhookTransport.retry self = false -> made = 1%nat).
    { intros Hr. unfold attempts in *. rewrite Hr in *.
      change (Z.to_nat 1) with 1%nat in *.
      destruct (failure (answer 0 w)) eqn:E0.
      - destruct Hall as (-> & _); [|reflexivity].
        intros j Hj. assert (j = 0%nat) as -> by lia. congruence.
      - destruct (Hfirst 0%nat) as (_ & ->); auto; intros; lia. }
    destruct exit as [|[lastError|]].
    + exists made. split; [exact Hreq|]. split; [exact Hle|]. split; [exact Hone|].
      split.
      * intros k Hk Hb Hok. destruct (Hfirst k Hk Hb Hok) as (_ & ->). auto.
      * intros e Hpos Hfail _. destruct (Hall Hfail) as (_ & Hex). discriminate.
    + exists made.
      assert (Hsame : requests (WebhookTransport.emitError lastError self w1)
                      = requests w1).
      { apply (touches_omap request callSide); [apply callSide_request|].
        apply touches_notify. reflexivity. }
      split; [rewrite Hsame; exact Hreq|]. split; [exact Hle|].
      split; [exact Hone|]. split.
      * intros k Hk Hb Hok. destruct (Hfirst k Hk Hb Hok) as (Hex & _). discriminate.
      * intros e Hpos Hfail He. destruct (Hall Hfail) as (-> & Hex).
        destruct (Z.to_nat attempts) as [|m] eqn:En; [lia|].
        replace (S m - 1)%nat with m in He by lia.
        assert (lastError = e) as -> by congruence.
        split; [reflexivity|]. split; [reflexivity|].
        unfold WebhookTransport.emitError.
        rewrite observerCalls_notify by reflexivity. rewrite Hobs. reflexivity.
    + exists made. split; [exact Hreq|]. split; [exact Hle|]. split; [exact Hone|].
      split.
      * intros k Hk Hb Hok. destruct (Hfirst k Hk Hb Hok) as (Hex & _). discriminate.
      * intros e Hpos Hfail He. destruct (Hall Hfail) as (_ & Hex).
        destruct (Z.to_nat attempts) as [|m] eqn:En; [lia|].
        replace (S m - 1)%nat with m in He by lia. congruence.
  - intros status statusText.
    unfold failure, WebhookTransport.sendRequest, WebhookTransport.fetch. cbn.
    destruct ((200 <=? status)%Z && (status <=? 299)%Z) eqn:E; cbn.
    + split; [|reflexivity]. intros _. apply andb_true_iff in E. lia.
    + split; [discriminate|]. intros H. apply andb_false_iff in E. lia.
  - intros [e|v];
      unfold failure, WebhookTransport.sendRequest, WebhookTransport.fetch; cbn;
      [|discriminate].
    destruct (String.eqb (name e) "AbortError"); discriminate.
  - intros m. reflexivity.
Qed.

Lemma webhook_send_attempts_witness :
  (WebhookTransport._state webhookTransport <> connected /\
   snd (WebhookTransport.send purchase webhookTransport (newWorld flakyHost))
   = Rejected (new_Error "Transport not connected")) /\
  (let self := fst (retryingWebhook flakyHost) in
   let w := snd (retryingWebhook flakyHost) in
   WebhookTransport._state self = connected /\
   failure (answer 0 w) <> None /\ failure (answer 1 w) <> None /\
   failure (answer 2 w) = None /\
   snd (WebhookTransport.send purchase self w) = Resolved /\
   length (requests (snd (fst (WebhookTransport.send purchase self w)))) = 3%nat) /\
  (let self := fst (retryingWebhook deadHost) in
   let w := snd (retryingWebhook deadHost) in
   WebhookTransport._state self = connected /\
   failure (answer 3 w) = Some (new_Error "Request timeout") /\
   snd (WebhookTransport.send purchase self w)
   = Rejected (new_Error "Request timeout") /\
   length (requests (snd (fst (WebhookTransport.send purchase self w)))) = 4%nat).
Proof.
  split; [|split].
  - assert (Hs : WebhookTransport._state webhookTransport <> connected)
      by (vm_compute; discriminate).
    split; [exact Hs|].
    rewrite (proj1 (webhook_send_attempts purchase webhookTransport
                      (newWorld flakyHost)) Hs).
    reflexivity.
  - cbv zeta.
    set (self := fst (retryingWebhook flakyHost)).
    set (w := snd (retryingWebhook flakyHost)).
    assert (Hc : WebhookTransport._state self = connected) by (vm_compute; reflexivity).
    assert (H0 : failure (answer 0 w) <> None) by (vm_compute; discriminate).
    assert (H1 : failure (answer 1 w) <> None) by (vm_compute; discriminate).
    assert (H2 : failure (answer 2 w) = None) by (vm_compute; reflexivity).
    assert (Hw : requests w = []) by (vm_compute; reflexivity).
    split; [exact Hc|]. split; [exact H0|]. split; [exact H1|]. split; [exact H2|].
    pose proof (proj1 (proj2 (webhook_send_attempts purchase self w)) Hc) as H.
    cbv zeta in H.
    destruct (WebhookTransport.send purchase self w) as [[self' w'] p].
    destruct H as (made & Hreq & _ & _ & Hfirst & _).
    destruct (Hfirst 2%nat) as (-> & ->).
    + vm_compute. lia.
    + intros j Hj. destruct j as [|[|j]]; [exact H0|exact H1|lia].
    + exact H2.
    + cbn [fst snd]. rewrite Hreq, Hw. split; reflexivity.
  - cbv zeta.
    set (self := fst (retryingWebhook deadHost)).
    set (w := snd (retryingWebhook deadHost)).
    assert (Hc : WebhookTransport._state self = connected) by (vm_compute; reflexivity).
    assert (H3 : failure (answer 3 w) = Some (new_Error "Request timeout"))
      by (vm_compute; reflexivity).
    assert (Hw : requests w = []) by (vm_compute; reflexivity).
    split; [exact Hc|]. split; [exact H3|].
    pose proof (proj1 (proj2 (webhook_send_attempts purchase self w)) Hc) as H.
    cbv zeta in H.
    destruct (WebhookTransport.send purchase self w) as [[self' w'] p].
    destruct H as (made & Hreq & _ & _ & _ & Hall).
    destruct (Hall (new_Error "Request timeout")) as (-> & -> & _).
    + vm_compute. lia.
    + intros j Hj.
      assert (Hj4 : (j < 4)%nat) by (vm_compute in Hj; lia).
      destruct j as [|[|[|[|j]]]]; try lia; vm_compute; discriminate.
    + exact H3.
    + cbn [fst snd]. rewrite Hreq, Hw. split; reflexivity.
Defined.

(** ** C9: the envelope of an outgoing event *)

(** C9.  [client.send(event)] makes one call of the transport's [send],
    with a message whose type is "event", whose data is the event, whose
    id is the non-empty string "msg_", the clock reading, "_" and the
    random suffix, and whose timestamp is the reading of the clock taken
    while the message is built.  Before that call nothing happens but a
    debug line. *)
Theorem client_send_envelope {T : Type} `{TalonTransport.t T}
    (event : Payload) (transport : T) (w : World) :
  exists (i : string) (ts : Z) (w' : World),
    TalonClient.send event transport w
    = TalonTransport.send
        {| OutboundMessage.type := "event"; OutboundMessage.data := event;
           OutboundMessage.id := Some i; OutboundMessage.timestamp := Some ts |}
        transport w' /\
    i = "msg_" +:+ show (hd 0%Z (clock (script w))) +:+ "_"
        +:+ hd ""%string (randoms (script w)) /\
    i <> ""%string /\
    ts = hd 0%Z (tl (clock (script w))) /\
    effects w'
    = effects w ++ (if debug (client w)
                    then [Logged "[TalonClient] Sending message:"]
                    else []).
Proof.
  unfold TalonClient.send, TalonClient.envelope, TalonClient.generateId,
    Date_now, Math_random36. simpl.
  eexists _, _, _. split; [reflexivity|]. split; [reflexivity|].
  split; [discriminate|]. split; [reflexivity|].
  unfold TalonClient.log, console_log. simpl.
  destruct (debug (client w)); simpl; [reflexivity|].
  symmetry. apply app_nil_r.
Qed.

(** ** C1: a throwing handler of a reserved event type *)

(** C1.  Two handlers are subscribed through the client to
    "_state_change" (resp. "_error"), the first of which throws.  When the
    webhook transport changes state (resp. reports an error), the first
    handler is called and the second never is: [handleStateChange] and
    [handleError] iterate without a [try], so the throw ends the
    iteration; the transport then catches it.  Handlers of a message
    type, by contrast, are all called. *)
Theorem reserved_event_throw_skips_siblings :
  let s1 := run twoStateHandlers (webhookClient smooth) in
  let s2 := run twoErrorHandlers (webhookClient serverError) in
  let s3 := run twoMessageHandlers (socketClient smooth) in
  feasible twoMessageHandlers (socketClient smooth) = true /\
  TalonClient.registered "_state_change" (snd s1)
  = [Plain (throwing 1); Plain (returning 2)] /\
  handlerCalls (snd s1) = [(Supplied 1, ArgStateEvent connected)] /\
  TalonClient.registered "_error" (snd s2)
  = [Plain (throwing 1); Plain (returning 2)] /\
  handlerCalls (snd s2)
  = [(Supplied 1, ArgErrorEvent (new_Error "HTTP 500: Error"))] /\
  handlerCalls (snd s3)
  = [(Supplied 1, ArgData [("count"%string, JNumber 1)]);
     (Supplied 2, ArgData [("count"%string, JNumber 1)])].
Proof. vm_compute. repeat split; reflexivity. Qed.

(** ** C2: [once] and a handler that throws *)

(** C2.  A handler registered with [once] that throws on its first call
    is still registered afterwards and is called again with the second
    message: the wrapper runs [handler(data)] before [unsubscribe()].  A
    handler that returns is called with the first payload only. *)
Theorem once_throwing_handler_called_again :
  let bad := run (onceThenTwoMessages (throwing 1)) (socketClient smooth) in
  let good := run (onceThenTwoMessages (returning 1)) (socketClient smooth) in
  feasible (onceThenTwoMessages (throwing 1)) (socketClient smooth) = true /\
  handlerCalls (snd bad)
  = [(Wrapped 0, ArgData [("count"%string, JNumber 1)]);
     (Supplied 1, ArgData [("count"%string, JNumber 1)]);
     (Wrapped 0, ArgData [("count"%string, JNumber 2)]);
     (Supplied 1, ArgData [("count"%string, JNumber 2)])] /\
  TalonClient.registered "test_event" (snd bad)
  = [Once 0 "test_event" (throwing 1)] /\
  handlerCalls (snd good)
  = [(Wrapped 0, ArgData [("count"%string, JNumber 1)]);
     (Supplied 1, ArgData [("count"%string, JNumber 1)])] /\
  TalonClient.registered "test_event" (snd good) = [].
Proof. vm_compute. repeat split; reflexivity. Qed.

(** ** C4: flushing the queue *)

(** C4.  The transport is disconnected by hand, a message is queued and
    [connect()] is called again.  The close event of the first socket,
    arriving while the second one connects, runs [handleDisconnect], which
    sets [ws] to null.  When the second socket opens the transport enters
    [connected], the flush calls [send], and [send] finds no socket and
    puts the message back: the queue is not empty and nothing was
    written. *)
Theorem stale_close_defeats_flush :
  let second := run (take 5 reconnectByHand) (socketClient smooth) in
  let stale := run (take 6 reconnectByHand) (socketClient smooth) in
  let st := run reconnectByHand (socketClient smooth) in
  feasible reconnectByHand (socketClient smooth) = true /\
  (WebSocketTransport._state (fst second) = connecting /\
   WebSocketTransport.ws (fst second) = Some 1 /\
   WebSocketTransport.messageQueue (fst second) = [purchase]) /\
  (WebSocketTransport._state (fst stale) = disconnected /\
   WebSocketTransport.ws (fst stale) = None) /\
  WebSocketTransport._state (fst st) = connected /\
  WebSocketTransport.ws (fst st) = None /\
  WebSocketTransport.messageQueue (fst st) = [purchase] /\
  transmissions (snd st) = [].
Proof. vm_compute. repeat split; reflexivity. Qed.

(** ** C7: disconnecting for good *)

(** C7.  A failed reconnect attempt reports an error and then closes; each
    of the two runs [handleDisconnect], so two reconnect timers are
    pending and [reconnectTimeout] names the second only.  [disconnect()]
    leaves the state [disconnected], auto-reconnect off and that timer
    cleared, but the first timer is still pending; when it fires the
    transport is [connecting] again on a new socket, and connected once
    that socket opens. *)
Theorem lost_timer_reconnects_after_disconnect :
  let before := run failedRetryThenDisconnect (socketClient smooth) in
  let after := step (Happens (TimerFired 4)) before in
  let opened := step (Happens (SocketOpen 2)) after in
  feasible (failedRetryThenDisconnect
            ++ [Happens (TimerFired 4); Happens (SocketOpen 2)])
    (socketClient smooth) = true /\
  WebSocketTransport._state (fst before) = disconnected /\
  WebSocketTransport.autoReconnect (fst before) = false /\
  WebSocketTransport.reconnectTimeout (fst before) = None /\
  timers (snd before) !! 4 = Some (ReconnectTimer 2000) /\
  length (sockets (snd before)) = 2%nat /\
  WebSocketTransport._state (fst after) = connecting /\
  WebSocketTransport.ws (fst after) = Some 2 /\
  length (sockets (snd after)) = 3%nat /\
  WebSocketTransport._state (fst opened) = connected.
Proof. vm_compute. repeat split; reflexivity. Qed.

(** ** C10: after the client has disconnected *)




Lemma handlerCalls_notify_detached dbg prefix line observers a w :
  clientArg a = false -> detached observers ->
  handlerCalls (notify dbg prefix line observers a w) = handlerCalls w.
Proof.
  intros Ha Hd.
  apply (touches_omap handlerCall observerSide); [apply observerSide_handlerCall|].
  apply touches_notify_detached; assumption.
Qed.

Lemma handlerCalls_console_log dbg prefix line w :
  handlerCalls (console_log dbg prefix line w) = handlerCalls w.
Proof. apply omap_console_log. reflexivity. Qed.

Lemma handlerCalls_on eventType h w :
  handlerCalls (TalonClient.on eventType h w) = handlerCalls w.
Proof.
  unfold TalonClient.on, TalonClient.log. rewrite handlerCalls_console_log.
  reflexivity.
Qed.

Lemma handlerCalls_once eventType h w :
  handlerCalls (fst (TalonClient.once eventType h w)) = handlerCalls w.
Proof.
  unfold TalonClient.once. simpl. rewrite handlerCalls_on. reflexivity.
Qed.

Lemma handlerCalls_off eventType w :
  handlerCalls (TalonClient.off eventType w) = handlerCalls w.
Proof.
  unfold TalonClient.off, TalonClient.log. rewrite handlerCalls_console_log.
  reflexivity.
Qed.



Module SocketQuiet.
Import WebSocketTransport.

Lemma detached_registry self self' :
  registryOf self' = registryOf self -> socketDetached self -> socketDetached self'.
Proof.
  unfold registryOf, socketDetached. intros E. inversion E as [[E1 E2 E3]].
  rewrite E1, E2, E3. auto.
Qed.


Lemma kq_trans self w self1 w1 r :
  keepsQuiet self w (self1, w1) -> keepsQuiet self1 w1 r -> keepsQuiet self w r.
Proof.
  intros [R1 Q1] [R2 Q2]. simpl in *. split; [congruence|].
  intros Hd. rewrite Q2, Q1; auto. apply (detached_registry self); auto.
Qed.

(** A step that only changes the world, without adding effects. *)
Lemma kq_world self w w' : effects w' = effects w -> keepsQuiet self w (self, w').
Proof. intros E. split; [reflexivity|]. intros _. unfold handlerCalls. simpl. rewrite E. reflexivity. Qed.

(** A step that only changes fields other than the observer sets. *)
Lemma kq_object self self' w :
  registryOf self' = registryOf self -> keepsQuiet self w (self', w).
Proof. intros E. split; auto. Qed.

Lemma kq_log self0 self line w : keepsQuiet self0 w (self0, log self line w).
Proof. split; [reflexivity|]. intros _. apply handlerCalls_console_log. Qed.


Lemma kq_setState s self w : keepsQuiet self w (setState s self w).
Proof.
  split.
  - rewrite SocketFacts.setState_fst. destruct self; reflexivity.
  - intros (_ & Hs & _). unfold setState.
    destruct (bool_decide (_state self = s)); [reflexivity|]. simpl.
    apply handlerCalls_notify_detached; [reflexivity|].
    destruct self; exact Hs.
Qed.









Lemma kq_disconnect self w : keepsQuiet self w (disconnect self w).
Proof.
  unfold disconnect.
  eapply kq_trans; [apply kq_log|].
  eapply kq_trans;
    [apply (kq_object _ (set_autoReconnect false self)); destruct self; reflexivity|].
  set (self1 := set_autoReconnect false self).
  set (w1 := log self "Disconnecting" w).
  destruct (reconnectTimeout self1) as [i|].
  - eapply kq_trans; [apply (kq_world _ _ (clearTimeout i w1)); reflexivity|].
    eapply kq_trans;
      [apply (kq_object _ (set_reconnectTimeout None self1)); destruct self; reflexivity|].
    destruct (ws (set_reconnectTimeout None self1)) as [s|]; [|apply kq_setState].
    eapply kq_trans; [|apply kq_setState].
    eapply kq_trans; [apply (kq_world _ _ (close s (clearTimeout i w1)))|].
    + unfold close, updateSocket. destruct (sockets _ !! s); reflexivity.
    + apply kq_object. destruct self; reflexivity.
  - destruct (ws self1) as [s|]; [|apply kq_setState].
    eapply kq_trans; [|apply kq_setState].
    eapply kq_trans; [apply (kq_world _ _ (close s w1))|].
    + unfold close, updateSocket. destruct (sockets _ !! s); reflexivity.
    + apply kq_object. destruct self; reflexivity.
Qed.

Lemma effects_updateSocket s f w : effects (updateSocket s f w) = effects w.
Proof. unfold updateSocket. destruct (sockets w !! s); reflexivity. Qed.

Lemma effects_clearGuard s w : effects (clearGuard s w) = effects w.
Proof. unfold clearGuard. destruct (sockets w !! s); reflexivity. Qed.

Lemma effects_reject s w : effects (fst (reject s w)) = effects w.
Proof.
  unfold reject. destruct (sockets w !! s); [|reflexivity].
  apply effects_updateSocket.
Qed.








End SocketQuiet.

Module WebhookQuiet.
Import WebhookTransport.






End WebhookQuiet.

Module SocketSystem.
Import WebSocketTransport.



End SocketSystem.






(** ** What the code does achieve where C1, C2, C4 and C7 fail *)

(** Message dispatch on the client: every handler registered for the type
    is called, whether or not an earlier one threw. *)
Lemma forEachTry_reaches_every_handler eventType a : forall handlers w,
  clientArg a = true ->
  Forall isPlain handlers ->
  (forall h, h ∈ handlers ->
     has handlerFn h (TalonClient.registered eventType w) = true) ->
  handlerCalls (TalonClient.forEachTry eventType handlers a w)
  = handlerCalls w ++ map (fun h => (handlerFn h, a)) handlers /\
  client (TalonClient.forEachTry eventType handlers a w) = client w.
Proof.
  intros handlers w Ha Hp. revert w.
  induction Hp as [|h rest Hh _ IH]; intros w Hreg.
  - cbn. rewrite app_nil_r. auto.
  - cbn [TalonClient.forEachTry]. rewrite (Hreg h) by (constructor).
    destruct h as [cb|]; [|destruct Hh].
    cbn [TalonClient.invoke call].
    set (w2 := match body cb a with
               | Some _ => TalonClient.log _ _
               | None => emit (Invoked (Supplied (fn cb)) a) w
               end).
    assert (H2 : client w2 = client w /\
                 handlerCalls w2 = handlerCalls w ++ [(Supplied (fn cb), a)]).
    { unfold w2. destruct (body cb a).
      - unfold TalonClient.log, console_log. cbn [client emit withEffects].
        destruct (debug (client w)); cbn [client withEffects]; (split; [reflexivity|]);
          unfold handlerCalls; rewrite ?omap_emit; cbn [handlerCall];
          rewrite Ha, ?app_nil_r; reflexivity.
      - split; [reflexivity|]. unfold handlerCalls. rewrite omap_emit.
        cbn [handlerCall]. rewrite Ha. reflexivity. }
    destruct H2 as (Hc & Hcalls).
    destruct (IH w2) as (I1 & I2).
    { intros h Hin. unfold TalonClient.registered. rewrite Hc.
      apply Hreg. constructor. exact Hin. }
    split; [|congruence].
    rewrite I1, Hcalls, <- app_assoc. reflexivity.
Qed.

Lemma handlers_log line w :
  eventHandlers (client (TalonClient.log line w)) = eventHandlers (client w).
Proof. unfold TalonClient.log, console_log. destruct (debug (client w)); reflexivity. Qed.

Lemma handlerCalls_client_log line w :
  handlerCalls (TalonClient.log line w) = handlerCalls w.
Proof. unfold TalonClient.log. apply handlerCalls_console_log. Qed.

Lemma handlers_once eventType cb w :
  eventHandlers (client (fst (TalonClient.once eventType cb w)))
  = <[eventType := add handlerFn (Once (closures (client w)) eventType cb)
                     (TalonClient.registered eventType w)]>
      (eventHandlers (client w)).
Proof. unfold TalonClient.once, TalonClient.on. cbn [fst]. rewrite handlers_log. reflexivity. Qed.

Lemma handlers_unsubscribe_last eventType h w :
  eventHandlers (client w) !! eventType = Some [h] ->
  eventHandlers (client (TalonClient.unsubscribe eventType h w))
  = delete eventType (eventHandlers (client w)).
Proof.
  intros Hh. unfold TalonClient.unsubscribe. rewrite handlers_log, Hh.
  unfold remove. cbn [filter list_filter].
  rewrite decide_False by (intros Hne; apply Hne; reflexivity).
  reflexivity.
Qed.

(** A message for a type nobody listens to changes nothing but the log. *)
Lemma handleMessage_unheard m w :
  eventHandlers (client w) !! InboundMessage.type m = None ->
  eventHandlers (client (TalonClient.handleMessage m w)) = eventHandlers (client w) /\
  handlerCalls (TalonClient.handleMessage m w) = handlerCalls w.
Proof.
  intros Hn. unfold TalonClient.handleMessage. rewrite handlers_log, Hn.
  rewrite handlers_log, handlers_log, !handlerCalls_client_log. auto.
Qed.

(** [once] with a handler that returns, on a type with no other handler:
    the handler is called with the payload of the first message and never
    again. *)
Lemma once_returning_handler_called_once eventType cb first rest w :
  eventHandlers (client w) !! eventType = None ->
  (forall d, body cb (ArgData d) = None) ->
  InboundMessage.type first = eventType ->
  Forall (fun m => InboundMessage.type m = eventType) rest ->
  handlerCalls (deliverAll (first :: rest) (fst (TalonClient.once eventType cb w)))
  = handlerCalls w
    ++ [(Wrapped (closures (client w)), ArgData (InboundMessage.data first));
        (Supplied (fn cb), ArgData (InboundMessage.data first))].
Proof.
  intros Hnone Hret Hfirst Hrest.
  set (W := Once (closures (client w)) eventType cb).
  pose proof (handlers_once eventType cb w) as Hreg.
  pose proof (handlerCalls_once eventType cb w) as Hcalls0.
  unfold TalonClient.registered in Hreg. rewrite Hnone in Hreg.
  fold W in Hreg. cbn [default add has existsb] in Hreg.
  set (w0 := fst (TalonClient.once eventType cb w)) in *. clearbody w0.
  change (deliverAll (first :: rest) w0)
    with (deliverAll rest (TalonClient.handleMessage first w0)).
  assert (H1 : eventHandlers (client (TalonClient.handleMessage first w0)) !! eventType
               = None /\
               handlerCalls (TalonClient.handleMessage first w0)
               = handlerCalls w
                 ++ [(Wrapped (closures (client w)), ArgData (InboundMessage.data first));
                     (Supplied (fn cb), ArgData (InboundMessage.data first))]).
  { unfold TalonClient.handleMessage. rewrite Hfirst, handlers_log, Hreg.
    rewrite lookup_insert_eq. cbn [app length Nat.ltb Nat.leb].
    set (wa := TalonClient.log "Received message:" w0).
    assert (Ha : eventHandlers (client wa) !! eventType = Some [W]).
    { unfold wa. rewrite handlers_log, Hreg. apply lookup_insert_eq. }
    assert (Hhas : has handlerFn W (TalonClient.registered eventType wa) = true).
    { unfold TalonClient.registered. rewrite Ha. simpl.
      rewrite bool_decide_eq_true_2 by reflexivity. reflexivity. }
    cbn [TalonClient.forEachTry]. rewrite Hhas.
    set (wb := emit (Invoked (Supplied (fn cb)) (ArgData (InboundMessage.data first)))
                 (emit (Invoked (Wrapped (closures (client w)))
                          (ArgData (InboundMessage.data first))) wa)).
    assert (Hinv : TalonClient.invoke W (ArgData (InboundMessage.data first)) wa
                   = (TalonClient.unsubscribe eventType W wb, None)).
    { unfold W. cbn [TalonClient.invoke call]. rewrite Hret. reflexivity. }
    rewrite Hinv.
    assert (Hb : eventHandlers (client wb) !! eventType = Some [W]) by exact Ha.
    rewrite (handlers_unsubscribe_last eventType W wb Hb).
    split; [apply lookup_delete_eq|].
    unfold TalonClient.unsubscribe. rewrite handlerCalls_client_log.
    rewrite Hb.
    assert (Hany : forall wx wy : World, effects wx = effects wy ->
                                         handlerCalls wx = handlerCalls wy).
    { intros wx wy E. unfold handlerCalls. rewrite E. reflexivity. }
    rewrite (Hany _ wb) by (destruct (length _ =? 0)%nat; reflexivity).
    unfold wb, handlerCalls. rewrite !omap_emit. cbn [handlerCall clientArg].
    fold (handlerCalls wa). unfold wa. rewrite handlerCalls_client_log, Hcalls0.
    rewrite <- app_assoc. reflexivity. }
  destruct H1 as (Hgone & Hcalls1).
  set (w1 := TalonClient.handleMessage first w0) in *. clearbody w1.
  clear -Hgone Hcalls1 Hrest.
  revert w1 Hgone Hcalls1.
  induction Hrest as [|m rest Hm _ IH]; intros w1 Hgone Hcalls1; [exact Hcalls1|].
  cbn [deliverAll fold_left].
  rewrite <- Hm in Hgone.
  destruct (handleMessage_unheard m w1 Hgone) as (H1 & H2).
  apply IH; [rewrite H1, <- Hm; exact Hgone|congruence].
Qed.

Module SocketGood.
Import WebSocketTransport.

Lemma transmissions_touches w w' : touches callSide w w' -> transmissions w' = transmissions w.
Proof. apply touches_omap, callSide_transmission. Qed.

Lemma transmissions_log self line w : transmissions (log self line w) = transmissions w.
Proof. unfold log. apply omap_console_log. reflexivity. Qed.

(** While the transport is connected and holds its socket, [send] writes
    on that socket, once, and leaves the object alone. *)
Lemma send_connected message self w s :
  _state self = connected -> ws self = Some s ->
  exists ok w',
    fst (send message self w) = (self, w') /\
    transmissions w' = transmissions w ++ [(s, message, ok)].
Proof.
  intros Hc Hs. unfold send. rewrite bool_decide_eq_true_2 by exact Hc.
  rewrite Hs. unfold write.
  set (w1 := withScript _ w).
  assert (H1 : forall ok, transmissions (emit (Transmit s message ok) w1)
                          = transmissions w ++ [(s, message, ok)]).
  { intros ok. unfold transmissions. rewrite omap_emit. reflexivity. }
  destruct (default None (head (writes (script w)))) as [x|]; cbn [fst].
  - eexists false, _. split; [reflexivity|].
    rewrite (transmissions_touches _ _ (SocketFacts.emitError_touches _ _ _)).
    rewrite transmissions_log. apply H1.
  - eexists true, _. split; [reflexivity|].
    rewrite transmissions_log. apply H1.
Qed.

Lemma flushEach_connected s queue : forall self w,
  _state self = connected -> ws self = Some s ->
  fst (flushEach queue self w) = self /\
  map fst (transmissions (snd (flushEach queue self w)))
  = map fst (transmissions w) ++ map (fun m => (s, m)) queue.
Proof.
  induction queue as [|m rest IH]; intros self w Hc Hs; cbn [flushEach].
  - cbn. rewrite app_nil_r. auto.
  - destruct (send_connected m self w s Hc Hs) as (ok & w' & E & Ht).
    destruct (send m self w) as [[self1 w1] p]. cbn [fst] in E.
    inversion E; subst self1 w1.
    assert (Hgoal : forall wx, transmissions wx = transmissions w' ->
              fst (flushEach rest self wx) = self /\
              map fst (transmissions (snd (flushEach rest self wx)))
              = map fst (transmissions w) ++ (s, m) :: map (fun m => (s, m)) rest).
    { intros wx Hx. destruct (IH self wx Hc Hs) as (I1 & I2).
      split; [exact I1|]. rewrite I2, Hx, Ht, map_app, <- app_assoc. reflexivity. }
    destruct p; apply Hgoal; try reflexivity. apply transmissions_log.
Qed.

(** The flush as the claim C4 describes it, when the socket that opens is
    the one the transport holds: one write per queued message, in queue
    order, on that socket, failed or not, and an empty queue after. *)
Lemma onopen_flushes_in_order s self w :
  ws self = Some s ->
  let (self', w') := onopen s self w in
  _state self' = connected /\
  messageQueue self' = [] /\
  map fst (transmissions w')
  = map fst (transmissions w) ++ map (fun m => (s, m)) (messageQueue self).
Proof.
  intros Hs. unfold onopen.
  pose proof (SocketFacts.setState_fst connected self (clearGuard s w)) as Hf.
  pose proof (SocketFacts.setState_touches connected self (clearGuard s w)) as Ht.
  destruct (setState connected self (clearGuard s w)) as [self1 w2].
  cbn [fst snd] in Hf, Ht. subst self1.
  set (self2 := set_reconnectAttempts 0 (set_state connected self)).
  assert (H2 : transmissions (log self2 "Connected" w2) = transmissions w).
  { rewrite transmissions_log, (transmissions_touches _ _ Ht).
    unfold transmissions. rewrite SocketQuiet.effects_clearGuard. reflexivity. }
  set (w3 := log self2 "Connected" w2) in *. clearbody w3.
  unfold flushMessageQueue.
  assert (Hq : messageQueue self2 = messageQueue self) by (destruct self; reflexivity).
  rewrite Hq.
  destruct (messageQueue self) as [|m rest] eqn:Eq; cbn [length Nat.eqb].
  - cbv beta iota zeta. unfold settle, transmissions.
    rewrite SocketQuiet.effects_updateSocket.
    fold (transmissions w3). rewrite H2. cbn [map]. rewrite app_nil_r.
    split; [destruct self; reflexivity|]. split; [congruence|reflexivity].
  - set (w4 := log self2 _ w3).
    destruct (flushEach_connected s (m :: rest) (set_messageQueue [] self2) w4)
      as (F1 & F2); [destruct self; reflexivity|destruct self; exact Hs|].
    destruct (flushEach (m :: rest) (set_messageQueue [] self2) w4) as [self3 w5].
    cbn [fst snd] in F1, F2. subst self3.
    cbv beta iota zeta.
    split; [destruct self; reflexivity|]. split; [destruct self; reflexivity|].
    assert (H4 : transmissions w4 = transmissions w).
    { rewrite <- H2. apply transmissions_log. }
    unfold settle. unfold transmissions at 1.
    rewrite SocketQuiet.effects_updateSocket. fold (transmissions w5).
    rewrite F2, H4. reflexivity.
Qed.

(** What [disconnect()] does achieve: the state is [disconnected],
    auto-reconnect is off, the timer named by [reconnectTimeout] is no
    longer pending and the socket held is no longer connecting or open. *)
Lemma disconnect_settles self w :
  let (self', w') := disconnect self w in
  _state self' = disconnected /\
  autoReconnect self' = false /\
  reconnectTimeout self' = None /\
  ws self' = None /\
  (forall i, reconnectTimeout self = Some i -> timers w' !! i = None) /\
  (forall s k, ws self = Some s -> sockets w' !! s = Some k ->
     readyState k = CLOSING \/ readyState k = CLOSED).
Proof.
  unfold disconnect.
  set (w1 := log self "Disconnecting" w).
  set (self1 := set_autoReconnect false self).
  assert (Hw1 : hostOf w1 = hostOf w) by apply SocketFacts.log_hostOf.
  set (r2 := match reconnectTimeout self1 with
             | Some i => (set_reconnectTimeout None self1, clearTimeout i w1)
             | None => (self1, w1)
             end).
  assert (H2 : fst r2 = set_reconnectTimeout None self1 /\
               sockets (snd r2) = sockets w1 /\
               (forall i, reconnectTimeout self = Some i -> timers (snd r2) !! i = None)).
  { unfold r2. replace (reconnectTimeout self1) with (reconnectTimeout self)
      by (destruct self; reflexivity).
    destruct (reconnectTimeout self) as [i|] eqn:Ei; cbn [fst snd].
    - split; [reflexivity|]. split; [reflexivity|].
      intros j Ej. inversion Ej; subst j. cbn. apply lookup_delete_eq.
    - split; [destruct self; cbn in *; subst; reflexivity|]. split; [reflexivity|].
      intros j Ej. discriminate. }
  destruct r2 as [self2 w2]. cbn [fst snd] in H2. destruct H2 as (-> & Hs2 & Ht2).
  set (self2 := set_reconnectTimeout None self1).
  set (r3 := match ws self2 with
             | Some s => (set_ws None self2, close s w2)
             | None => (self2, w2)
             end).
  assert (H3 : fst r3 = set_ws None self2 /\
               timers (snd r3) = timers w2 /\
               (forall s k, ws self = Some s -> sockets (snd r3) !! s = Some k ->
                  readyState k = CLOSING \/ readyState k = CLOSED)).
  { unfold r3. replace (ws self2) with (ws self) by (destruct self; reflexivity).
    destruct (ws self) as [s|] eqn:Es; cbn [fst snd].
    - split; [reflexivity|]. split.
      + unfold close, updateSocket. destruct (sockets w2 !! s); reflexivity.
      + intros s' k Es' Hk. inversion Es'; subst s'.
        unfold close, updateSocket in Hk.
        destruct (sockets w2 !! s) as [k0|] eqn:Ek; [|congruence].
        cbn in Hk. rewrite list_lookup_insert_eq in Hk
          by (apply lookup_lt_Some in Ek; exact Ek).
        inversion Hk. destruct (readyState k0) eqn:Er; cbn; auto.
    - split; [destruct self; cbn in *; subst; reflexivity|]. split; [reflexivity|].
      intros s k Es'. discriminate. }
  destruct r3 as [self3 w3]. cbn [fst snd] in H3. destruct H3 as (-> & Ht3 & Hs3).
  pose proof (SocketFacts.setState_fst disconnected (set_ws None self2) w3) as Hf.
  pose proof (SocketFacts.setState_touches disconnected (set_ws None self2) w3) as Ht.
  destruct (setState disconnected (set_ws None self2) w3) as [self4 w4].
  cbn [fst snd] in Hf, Ht. subst self4.
  destruct (hostOf_parts _ _ (touches_hostOf _ _ _ Ht)) as (Hs4 & Ht4 & _).
  repeat split; try (destruct self; reflexivity).
  - intros i Ei. rewrite Ht4, Ht3. apply Ht2, Ei.
  - intros s k Es Hk. rewrite Hs4 in Hk. apply (Hs3 s k Es Hk).
Qed.

End SocketGood.

Module SocketRetired.
Import WebSocketTransport.

Lemma noRetry_refl w : noRetry w w.
Proof. split; auto. Qed.

Lemma noRetry_trans w1 w2 w3 : noRetry w1 w2 -> noRetry w2 w3 -> noRetry w1 w3.
Proof. intros [L1 T1] [L2 T2]. split; [congruence|]. auto. Qed.

Lemma noRetry_hostOf w w' : hostOf w' = hostOf w -> noRetry w w'.
Proof.
  intros E. destruct (hostOf_parts _ _ E) as (Hs & Ht & _).
  split; [rewrite Hs; reflexivity|]. intros i d. rewrite Ht. auto.
Qed.

Lemma noRetry_clearTimeout i w : noRetry w (clearTimeout i w).
Proof.
  split; [reflexivity|]. intros j d. cbn.
  intros H. apply lookup_delete_Some in H. tauto.
Qed.

Lemma noRetry_updateSocket s f w : noRetry w (updateSocket s f w).
Proof.
  unfold updateSocket. destruct (sockets w !! s); [|apply noRetry_refl].
  split; [cbn; apply length_insert|auto].
Qed.

Lemma noRetry_clearGuard s w : noRetry w (clearGuard s w).
Proof.
  unfold clearGuard. destruct (sockets w !! s);
    [apply noRetry_clearTimeout|apply noRetry_refl].
Qed.

Lemma noRetry_reject s w : noRetry w (fst (reject s w)).
Proof.
  unfold reject. destruct (sockets w !! s); [|apply noRetry_refl].
  apply noRetry_updateSocket.
Qed.

Lemma so_refl self w : staysOff self w (self, w).
Proof. intros H. split; [exact H|apply noRetry_refl]. Qed.

Lemma so_trans self w self1 w1 r :
  staysOff self w (self1, w1) -> staysOff self1 w1 r -> staysOff self w r.
Proof.
  intros H1 H2 Hoff. destruct (H1 Hoff) as (A1 & N1). cbn in A1, N1.
  destruct (H2 A1) as (A2 & N2). split; [exact A2|].
  eapply noRetry_trans; eassumption.
Qed.

Lemma so_world self w w' : noRetry w w' -> staysOff self w (self, w').
Proof. intros N Hoff. auto. Qed.

Lemma so_object self self' w :
  autoReconnect self' = autoReconnect self -> staysOff self w (self', w).
Proof. intros E Hoff. split; [cbn; congruence|apply noRetry_refl]. Qed.

Lemma so_log self0 self line w : staysOff self0 w (self0, log self line w).
Proof. apply so_world, noRetry_hostOf, SocketFacts.log_hostOf. Qed.

Lemma so_setState s self w : staysOff self w (setState s self w).
Proof.
  intros Hoff. split.
  - rewrite SocketFacts.setState_fst. destruct self; exact Hoff.
  - apply noRetry_hostOf. eapply touches_hostOf, SocketFacts.setState_touches.
Qed.

Lemma so_emitError e self w : staysOff self w (self, emitError e self w).
Proof.
  apply so_world, noRetry_hostOf. eapply touches_hostOf, SocketFacts.emitError_touches.
Qed.

Lemma so_handleMessage data self w : staysOff self w (self, handleMessage data self w).
Proof.
  apply so_world. destruct data as [m|]; cbn [handleMessage].
  - eapply noRetry_trans; [apply noRetry_hostOf, (SocketFacts.log_hostOf self)|].
    apply noRetry_hostOf. eapply touches_hostOf, touches_notify. reflexivity.
  - eapply noRetry_trans; [apply noRetry_hostOf, (SocketFacts.log_hostOf self)|].
    apply noRetry_hostOf. eapply touches_hostOf, SocketFacts.emitError_touches.
Qed.

Lemma so_send message self w : staysOff self w (fst (send message self w)).
Proof.
  intros Hoff. split.
  - destruct (SocketFacts.send_keeps message self w) as (_ & _ & _ & _ & ->). exact Hoff.
  - unfold send.
    destruct (bool_decide (_state self = connected));
      [|cbn [fst snd]; apply noRetry_hostOf, SocketFacts.log_hostOf].
    destruct (ws self) as [s|];
      [|cbn [fst snd]; apply noRetry_hostOf, SocketFacts.log_hostOf].
    unfold write. set (w1 := withScript _ w).
    assert (H1 : noRetry w w1) by (split; [reflexivity|auto]).
    destruct (default None (head (writes (script w)))) as [x|]; cbn [fst snd].
    + eapply noRetry_trans; [exact H1|].
      eapply noRetry_trans;
        [|apply noRetry_hostOf; eapply touches_hostOf, SocketFacts.emitError_touches].
      eapply noRetry_trans; [|apply noRetry_hostOf, SocketFacts.log_hostOf].
      split; [reflexivity|auto].
    + eapply noRetry_trans; [exact H1|].
      eapply noRetry_trans; [|apply noRetry_hostOf, SocketFacts.log_hostOf].
      split; [reflexivity|auto].
Qed.

Lemma so_flushEach queue : forall self w, staysOff self w (flushEach queue self w).
Proof.
  induction queue as [|m rest IH]; intros self w; cbn [flushEach]; [apply so_refl|].
  pose proof (so_send m self w) as Hs.
  destruct (send m self w) as [[self1 w1] p]. cbn [fst] in Hs.
  destruct p; try (eapply so_trans; [exact Hs|apply IH]).
  eapply so_trans; [exact Hs|]. eapply so_trans; [apply so_log|apply IH].
Qed.

Lemma so_flushMessageQueue self w : staysOff self w (flushMessageQueue self w).
Proof.
  unfold flushMessageQueue.
  destruct (length (messageQueue self) =? 0)%nat; [apply so_refl|].
  eapply so_trans; [apply so_log|].
  eapply so_trans; [apply (so_object _ (set_messageQueue [] self))|apply so_flushEach].
  destruct self; reflexivity.
Qed.

(** With auto-reconnect off, a closure settles as disconnected. *)
Lemma so_handleDisconnect self w : staysOff self w (handleDisconnect self w).
Proof.
  intros Hoff.
  assert (Hr : mayRetry self = false) by (unfold mayRetry; rewrite Hoff; reflexivity).
  destruct (SocketFacts.handleDisconnect_settle self w Hr) as (w1 & H1 & ->).
  split; [destruct self; exact Hoff|apply noRetry_hostOf, H1].
Qed.

Lemma so_reconnectFailed self w : staysOff self w (reconnectFailed self w).
Proof.
  unfold reconnectFailed. eapply so_trans; [apply so_log|apply so_handleDisconnect].
Qed.

Lemma so_disconnect self w : staysOff self w (disconnect self w).
Proof.
  unfold disconnect.
  eapply so_trans; [apply so_log|].
  set (self1 := set_autoReconnect false self).
  set (w1 := log self "Disconnecting" w).
  intros Hoff.
  assert (H1 : autoReconnect self1 = false) by (destruct self; reflexivity).
  set (r2 := match reconnectTimeout self1 with
             | Some i => (set_reconnectTimeout None self1, clearTimeout i w1)
             | None => (self1, w1)
             end).
  assert (H2 : autoReconnect (fst r2) = false /\ noRetry w1 (snd r2)).
  { unfold r2. destruct (reconnectTimeout self1); cbn [fst snd].
    - split; [destruct self; reflexivity|apply noRetry_clearTimeout].
    - split; [exact H1|apply noRetry_refl]. }
  destruct r2 as [self2 w2]. cbn [fst snd] in H2. destruct H2 as (A2 & N2).
  set (r3 := match ws self2 with
             | Some s => (set_ws None self2, close s w2)
             | None => (self2, w2)
             end).
  assert (H3 : autoReconnect (fst r3) = false /\ noRetry w2 (snd r3)).
  { unfold r3. destruct (ws self2); cbn [fst snd].
    - split; [destruct self2; exact A2|apply noRetry_updateSocket].
    - split; [exact A2|apply noRetry_refl]. }
  destruct r3 as [self3 w3]. cbn [fst snd] in H3. destruct H3 as (A3 & N3).
  destruct (so_setState disconnected self3 w3 A3) as (A4 & N4).
  split; [exact A4|].
  eapply noRetry_trans; [exact N2|]. eapply noRetry_trans; [exact N3|exact N4].
Qed.

Lemma so_onopen s self w : staysOff self w (onopen s self w).
Proof.
  unfold onopen.
  eapply so_trans; [apply (so_world _ _ (clearGuard s w)), noRetry_clearGuard|].
  pose proof (so_setState connected self (clearGuard s w)) as Hs.
  destruct (setState connected self (clearGuard s w)) as [self1 w2].
  eapply so_trans; [exact Hs|]. clear Hs.
  eapply so_trans;
    [apply (so_object _ (set_reconnectAttempts 0 self1)); destruct self1; reflexivity|].
  eapply so_trans; [apply so_log|].
  set (self2 := set_reconnectAttempts 0 self1).
  pose proof (so_flushMessageQueue self2 (log self2 "Connected" w2)) as Hf.
  destruct (flushMessageQueue self2 _) as [self3 w4].
  eapply so_trans; [exact Hf|].
  apply so_world, noRetry_updateSocket.
Qed.

Lemma so_onerror s self w : staysOff self w (onerror s self w).
Proof.
  unfold onerror.
  set (w3 := emitError _ self (log self _ (clearGuard s w))).
  assert (H3 : staysOff self w (self, w3)).
  { eapply so_trans; [apply (so_world _ _ (clearGuard s w)), noRetry_clearGuard|].
    eapply so_trans; [apply so_log|apply so_emitError]. }
  pose proof (noRetry_reject s w3) as Hr.
  destruct (reject s w3) as [w4 caught]. cbn [fst] in Hr.
  eapply so_trans; [exact H3|].
  eapply so_trans; [apply (so_world _ _ w4), Hr|].
  destruct caught; [apply so_reconnectFailed|apply so_refl].
Qed.

Lemma so_onclose s self w : staysOff self w (onclose s self w).
Proof.
  unfold onclose.
  eapply so_trans; [apply (so_world _ _ (clearGuard s w)), noRetry_clearGuard|].
  apply so_handleDisconnect.
Qed.

Lemma so_connectionTimedOut s self w : staysOff self w (connectionTimedOut s self w).
Proof.
  unfold connectionTimedOut.
  pose proof (noRetry_reject s w) as Hr.
  destruct (reject s w) as [w1 caught]. cbn [fst] in Hr.
  set (w2 := match ws self with Some current => close current w1 | None => w1 end).
  assert (H2 : noRetry w w2).
  { unfold w2. destruct (ws self); [|exact Hr].
    eapply noRetry_trans; [exact Hr|apply noRetry_updateSocket]. }
  eapply so_trans; [apply (so_world _ _ w2), H2|].
  destruct caught; [apply so_reconnectFailed|apply so_refl].
Qed.

Lemma noRetry_envelope event w :
  noRetry w (TalonClient.log "Sending message:" (snd (TalonClient.envelope event w))).
Proof.
  unfold TalonClient.envelope, TalonClient.generateId, Date_now, Math_random36.
  cbn [snd]. unfold TalonClient.log, console_log.
  match goal with |- context [if ?b then _ else _] => destruct b end;
    split; try reflexivity; auto.
Qed.

Lemma retired_step self w r :
  staysOff self w r -> retired self w ->
  retired (fst r) (snd r) /\ length (sockets (snd r)) = length (sockets w).
Proof.
  intros Hs (Hoff & Hnone). destruct (Hs Hoff) as (A & L & N).
  split; [|exact L]. split; [exact A|].
  intros i d Hi. apply (Hnone i d), N, Hi.
Qed.

(** Any action but an explicit [connect()] on a retired transport. *)
Lemma step_retired a self w :
  a <> Connect -> retired self w ->
  retired (fst (step a (self, w))) (snd (step a (self, w))) /\
  length (sockets (snd (step a (self, w)))) = length (sockets w).
Proof.
  intros Ha Hr.
  assert (Hsame : forall w', hostOf w' = hostOf w ->
            retired self w' /\ length (sockets w') = length (sockets w)).
  { intros w' E. apply (retired_step self w (self, w')); [|exact Hr].
    apply so_world, noRetry_hostOf, E. }
  destruct a as [| |event|eventType cb|eventType cb|eventType
                 |eventType h|c cb|c cb| |message|e];
    cbn [step fst snd].
  - congruence.
  - unfold TalonClient.disconnect. cbn [TalonTransport.disconnect
      WebSocketTransport_TalonTransport].
    pose proof (retired_step _ _ _ (so_disconnect self w) Hr) as Hd.
    destruct (disconnect self w) as [self1 w1]. cbn [fst snd] in Hd.
    destruct Hd as ((A & N) & L). unfold TalonClient.cleanup.
    cbn [TalonTransport.offMessage TalonTransport.offStateChange
         TalonTransport.offError WebSocketTransport_TalonTransport fst snd].
    split; [|exact L]. split; [destruct self1; exact A|exact N].
  - unfold TalonClient.send.
    pose proof (noRetry_envelope event w) as H1.
    destruct (TalonClient.envelope event w) as [message w1]. cbn [snd] in H1.
    cbn [TalonTransport.send WebSocketTransport_TalonTransport].
    apply (retired_step self w
             (fst (send message self (TalonClient.log "Sending message:" w1))));
      [|exact Hr].
    eapply so_trans; [apply (so_world self w _ H1)|apply so_send].
  - apply Hsame. eapply touches_hostOf, touches_on.
  - apply Hsame. eapply touches_hostOf, touches_once.
  - apply Hsame. eapply touches_hostOf, touches_off.
  - apply Hsame. eapply touches_hostOf, touches_unsubscribe.
  - destruct Hr as (A & N).
    destruct c; cbn; (split; [split; [destruct self; exact A|exact N]|reflexivity]).
  - destruct Hr as (A & N).
    destruct c; cbn; (split; [split; [destruct self; exact A|exact N]|reflexivity]).
  - apply (retired_step self w); [apply so_disconnect|exact Hr].
  - apply (retired_step self w _ (so_send message self w) Hr).
  - apply (retired_step self w); [|exact Hr].
    cbn [Host.deliver WebSocketTransport_Host]. unfold deliver.
    destruct (enabled e w); [|apply so_refl].
    destruct e as [s|s|s|s data|i].
    + eapply so_trans; [apply (so_world _ _ (setReady OPEN s w)), noRetry_updateSocket|].
      apply so_onopen.
    + apply so_onerror.
    + eapply so_trans; [apply (so_world _ _ (setReady CLOSED s w)), noRetry_updateSocket|].
      apply so_onclose.
    + apply so_handleMessage.
    + destruct (timers w !! i) as [[s d|d]|] eqn:Ei; [| |apply so_refl].
      * eapply so_trans; [apply (so_world _ _ (clearTimeout i w)), noRetry_clearTimeout|].
        apply so_connectionTimedOut.
      * destruct Hr as (_ & N). exfalso. apply (N i d Ei).
Qed.

End SocketRetired.

(** After [disconnect()], when the only reconnect timer pending was the
    one named by [reconnectTimeout], the transport is retired. *)
Lemma disconnect_retires (self : WebSocketTransport.t) (w : World) :
  (forall i d, timers w !! i = Some (ReconnectTimer d) ->
               WebSocketTransport.reconnectTimeout self = Some i) ->
  retired (fst (WebSocketTransport.disconnect self w))
          (snd (WebSocketTransport.disconnect self w)).
Proof.
  intros Honly.
  pose proof (SocketGood.disconnect_settles self w) as Hd.
  destruct (WebSocketTransport.disconnect self w) as [self' w'] eqn:E.
  destruct Hd as (_ & Hoff & _ & _ & Hcleared & _).
  split; [exact Hoff|]. cbn [fst snd].
  intros i d Hi.
  assert (Hw : timers w !! i = Some (ReconnectTimer d)).
  { assert (Hs : staysOff (WebSocketTransport.set_autoReconnect false self) w
                   (WebSocketTransport.disconnect self w)).
    { intros _. pose proof (SocketRetired.so_disconnect
                              (WebSocketTransport.set_autoReconnect false self) w) as H0.
      assert (Hsame : WebSocketTransport.disconnect
                        (WebSocketTransport.set_autoReconnect false self) w
                      = WebSocketTransport.disconnect self w)
        by (destruct self; reflexivity).
      rewrite Hsame in H0. apply H0. destruct self; reflexivity. }
    rewrite E in Hs. destruct Hs as (_ & _ & N); [destruct self; reflexivity|].
    apply N, Hi. }
  rewrite (Hcleared i (Honly i d Hw)) in Hi. discriminate.
Qed.

(** A retired transport never reconnects by itself: whatever happens, as
    long as the application does not call [connect()], no socket is made. *)
Lemma retired_never_reconnects actions :
  forall (self : WebSocketTransport.t) (w : World),
  retired self w ->
  Forall (fun a => a <> Connect) actions ->
  retired (fst (run actions (self, w))) (snd (run actions (self, w))) /\
  length (sockets (snd (run actions (self, w)))) = length (sockets w).
Proof.
  induction actions as [|a rest IH]; intros self w Hr Hall; [auto|].
  inversion Hall as [|? ? Ha Hrest]; subst.
  unfold run in *. cbn [fold_left].
  destruct (SocketRetired.step_retired a self w Ha Hr) as (H1 & H2).
  destruct (step a (self, w)) as [self1 w1]. cbn [fst snd] in H1, H2.
  destruct (IH self1 w1 H1 Hrest) as (H3 & H4). split; [exact H3|congruence].
Qed.

(** What the claim C7 asks for holds as long as no reconnect timer was
    lost: after [disconnect()], and until the application itself calls
    [connect()], no socket is made, whatever the host delivers. *)
Lemma no_reconnect_after_disconnect (self : WebSocketTransport.t) (w : World)
    (actions : list Action) :
  (forall i d, timers w !! i = Some (ReconnectTimer d) ->
               WebSocketTransport.reconnectTimeout self = Some i) ->
  Forall (fun a => a <> Connect) actions ->
  let after := WebSocketTransport.disconnect self w in
  length (sockets (snd (run actions after))) = length (sockets (snd after)).
Proof.
  intros Honly Hall. cbv zeta.
  pose proof (disconnect_retires self w Honly) as Hr.
  destruct (WebSocketTransport.disconnect self w) as [self1 w1].
  cbn [fst snd] in *.
  apply (retired_never_reconnects actions self1 w1 Hr Hall).
Qed.

(** * Beyond the claims: the dispatcher *)

Lemma has_elem {A} (ident : A -> Fn) x s : x ∈ s -> has ident x s = true.
Proof.
  intros Hx. apply has_true_iff, list_elem_of_In, in_map, list_elem_of_In, Hx.
Qed.

Lemma has_add {A} (ident : A -> Fn) x s : has ident x (add ident x s) = true.
Proof.
  unfold add. destruct (has ident x s) eqn:E; [exact E|].
  apply has_elem, elem_of_app. right. constructor.
Qed.

Lemma add_nonempty {A} (ident : A -> Fn) x s : add ident x s <> [].
Proof.
  unfold add. destruct (has ident x s) eqn:E.
  - destruct s; [discriminate E|discriminate].
  - destruct s; discriminate.
Qed.

Lemma remove_fresh {A} (ident : A -> Fn) x s :
  has ident x s = false -> remove ident x s = s.
Proof.
  unfold remove, has. induction s as [|y s IH]; intros H; [reflexivity|].
  cbn [existsb] in H. apply orb_false_iff in H. destruct H as (Hy & Hs).
  apply bool_decide_eq_false in Hy.
  rewrite filter_cons, decide_True by exact Hy. rewrite IH by exact Hs. reflexivity.
Qed.

Lemma remove_add_fresh {A} (ident : A -> Fn) x s :
  has ident x s = false -> remove ident x (add ident x s) = s.
Proof.
  intros H. unfold add. rewrite H. unfold remove. rewrite filter_app.
  fold (remove ident x s). rewrite (remove_fresh ident x s H).
  rewrite filter_cons, decide_False by (intros Hne; apply Hne; reflexivity).
  rewrite filter_nil. apply app_nil_r.
Qed.

Lemma handlers_on eventType h w :
  eventHandlers (client (TalonClient.on eventType h w))
  = <[eventType := add handlerFn h (TalonClient.registered eventType w)]>
      (eventHandlers (client w)).
Proof. unfold TalonClient.on. rewrite handlers_log. reflexivity. Qed.

Lemma handlers_off eventType w :
  eventHandlers (client (TalonClient.off eventType w))
  = delete eventType (eventHandlers (client w)).
Proof. unfold TalonClient.off. rewrite handlers_log. reflexivity. Qed.

Lemma handlers_unsubscribe eventType h w :
  eventHandlers (client (TalonClient.unsubscribe eventType h w))
  = match eventHandlers (client w) !! eventType with
    | Some handlers =>
        if (length (remove handlerFn h handlers) =? 0)%nat
        then delete eventType (eventHandlers (client w))
        else <[eventType := remove handlerFn h handlers]> (eventHandlers (client w))
    | None => eventHandlers (client w)
    end.
Proof.
  unfold TalonClient.unsubscribe. rewrite handlers_log.
  destruct (eventHandlers (client w) !! eventType) as [hs|]; [|reflexivity].
  destruct (length _ =? 0)%nat; reflexivity.
Qed.

(** Messages of a type nobody listens to change nothing but the log. *)
Lemma deliverAll_unheard eventType messages : forall w,
  eventHandlers (client w) !! eventType = None ->
  Forall (fun m => InboundMessage.type m = eventType) messages ->
  eventHandlers (client (deliverAll messages w)) = eventHandlers (client w) /\
  handlerCalls (deliverAll messages w) = handlerCalls w.
Proof.
  intros w Hn Hall. revert w Hn.
  induction Hall as [|m rest Hm _ IH]; intros w Hn; [auto|].
  cbn [deliverAll fold_left]. rewrite <- Hm in Hn.
  destruct (handleMessage_unheard m w Hn) as (H1 & H2).
  destruct (IH (TalonClient.handleMessage m w)) as (I1 & I2).
  { rewrite H1, <- Hm. exact Hn. }
  unfold deliverAll in *. split; congruence.
Qed.

(** X1.  After [off(eventType)] the type has no handler left, whatever
    was registered for it, and no message of that type, however many
    arrive, calls any handler; the handlers of every other type stay
    registered. *)
Theorem off_silences_event_type (eventType : string)
    (messages : list InboundMessage.t) (w : World) :
  Forall (fun m => InboundMessage.type m = eventType) messages ->
  let w' := deliverAll messages (TalonClient.off eventType w) in
  handlerCalls w' = handlerCalls w /\
  TalonClient.registered eventType w' = [] /\
  forall other, other <> eventType ->
    TalonClient.registered other w' = TalonClient.registered other w.
Proof.
  intros Hall. cbv zeta.
  assert (Hn : eventHandlers (client (TalonClient.off eventType w)) !! eventType = None).
  { rewrite handlers_off. apply lookup_delete_eq. }
  destruct (deliverAll_unheard eventType messages _ Hn Hall) as (H1 & H2).
  split; [rewrite H2; apply handlerCalls_off|].
  unfold TalonClient.registered. rewrite H1. split.
  - rewrite Hn. reflexivity.
  - intros other Hne. rewrite handlers_off, lookup_delete_ne by congruence. reflexivity.
Qed.

Lemma off_silences_event_type_witness :
  Forall (fun m => InboundMessage.type m = "test_event"%string)
    [testEvent 1; testEvent 2] /\
  length (TalonClient.registered "test_event" listeningWorld) = 2%nat /\
  handlerCalls (deliverAll [testEvent 1; testEvent 2]
                  (TalonClient.off "test_event" listeningWorld))
  = handlerCalls listeningWorld /\
  length (TalonClient.registered "other_event"
            (deliverAll [testEvent 1; testEvent 2]
               (TalonClient.off "test_event" listeningWorld))) = 1%nat.
Proof.
  assert (Hall : Forall (fun m => InboundMessage.type m = "test_event"%string)
                   [testEvent 1; testEvent 2])
    by (repeat constructor).
  split; [exact Hall|]. split; [vm_compute; reflexivity|].
  destruct (off_silences_event_type "test_event" [testEvent 1; testEvent 2]
              listeningWorld Hall) as (H1 & _ & H3).
  split; [exact H1|].
  rewrite (H3 "other_event"%string) by discriminate. vm_compute. reflexivity.
Defined.

(** X2.  Registering the same function again for the same type changes
    nothing: the set still holds it once, at its first position. *)
Theorem on_same_handler_twice (eventType : string) (h : EventHandler) (w : World) :
  eventHandlers (client (TalonClient.on eventType h (TalonClient.on eventType h w)))
  = eventHandlers (client (TalonClient.on eventType h w)) /\
  TalonClient.registered eventType (TalonClient.on eventType h w)
  = add handlerFn h (TalonClient.registered eventType w) /\
  (has handlerFn h (TalonClient.registered eventType w) = true ->
   TalonClient.registered eventType (TalonClient.on eventType h w)
   = TalonClient.registered eventType w).
Proof.
  assert (Hreg : TalonClient.registered eventType (TalonClient.on eventType h w)
                 = add handlerFn h (TalonClient.registered eventType w)).
  { unfold TalonClient.registered at 1. rewrite handlers_on, lookup_insert_eq.
    reflexivity. }
  split; [|split; [exact Hreg|]].
  - rewrite (handlers_on eventType h (TalonClient.on eventType h w)).
    rewrite Hreg, handlers_on, insert_insert_eq.
    f_equal. unfold add at 1. rewrite has_add. reflexivity.
  - intros Hh. rewrite Hreg. unfold add. rewrite Hh. reflexivity.
Qed.

Lemma on_same_handler_twice_witness :
  has handlerFn (Plain (returning 2)) (TalonClient.registered "test_event" listeningWorld)
  = true /\
  TalonClient.registered "test_event"
    (TalonClient.on "test_event" (Plain (returning 2)) listeningWorld)
  = TalonClient.registered "test_event" listeningWorld.
Proof.
  assert (Hh : has handlerFn (Plain (returning 2))
                 (TalonClient.registered "test_event" listeningWorld) = true)
    by (vm_compute; reflexivity).
  split; [exact Hh|].
  exact (proj2 (proj2 (on_same_handler_twice "test_event" (Plain (returning 2))
                         listeningWorld)) Hh).
Defined.

(** X3.  The closure returned by [on] undoes the registration: when the
    function was not registered for the type before, the handler map
    after [on] and then the closure is the map before (an entry created
    for the occasion is deleted again). *)
Theorem unsubscribe_undoes_on (eventType : string) (h : EventHandler) (w : World) :
  has handlerFn h (TalonClient.registered eventType w) = false ->
  eventHandlers (client w) !! eventType <> Some [] ->
  eventHandlers (client (TalonClient.unsubscribe eventType h
                           (TalonClient.on eventType h w)))
  = eventHandlers (client w).
Proof.
  intros Hfresh Hne. rewrite handlers_unsubscribe, handlers_on, lookup_insert_eq.
  rewrite (remove_add_fresh handlerFn h _ Hfresh).
  unfold TalonClient.registered in *.
  destruct (eventHandlers (client w) !! eventType) as [hs|] eqn:E; cbn [default].
  - destruct hs as [|h0 hs]; [congruence|]. cbn [length Nat.eqb].
    rewrite insert_insert_eq. apply insert_id, E.
  - cbn [length Nat.eqb]. rewrite delete_insert_eq. apply delete_id, E.
Qed.

Lemma unsubscribe_undoes_on_witness :
  has handlerFn (Plain (returning 9)) (TalonClient.registered "test_event" listeningWorld)
  = false /\
  eventHandlers (client listeningWorld) !! "test_event"%string <> Some [] /\
  eventHandlers (client listeningWorld) !! "fresh_event"%string = None /\
  eventHandlers
    (client (TalonClient.unsubscribe "test_event" (Plain (returning 9))
               (TalonClient.on "test_event" (Plain (returning 9)) listeningWorld)))
  = eventHandlers (client listeningWorld) /\
  eventHandlers
    (client (TalonClient.unsubscribe "fresh_event" (Plain (returning 9))
               (TalonClient.on "fresh_event" (Plain (returning 9)) listeningWorld)))
  = eventHandlers (client listeningWorld).
Proof.
  assert (H1 : has handlerFn (Plain (returning 9))
                 (TalonClient.registered "test_event" listeningWorld) = false)
    by (vm_compute; reflexivity).
  assert (H2 : eventHandlers (client listeningWorld) !! "test_event"%string <> Some [])
    by (vm_compute; discriminate).
  assert (H3 : eventHandlers (client listeningWorld) !! "fresh_event"%string = None)
    by (vm_compute; reflexivity).
  split; [exact H1|]. split; [exact H2|]. split; [exact H3|]. split.
  - exact (unsubscribe_undoes_on "test_event" (Plain (returning 9)) listeningWorld H1 H2).
  - apply unsubscribe_undoes_on.
    + unfold TalonClient.registered. rewrite H3. reflexivity.
    + rewrite H3. discriminate.
Defined.

Lemma noEmptySet_same w w' :
  eventHandlers (client w') = eventHandlers (client w) ->
  noEmptySet w -> noEmptySet w'.
Proof. unfold noEmptySet. intros ->. auto. Qed.

Lemma noEmptySet_unsubscribe eventType h w :
  noEmptySet w -> noEmptySet (TalonClient.unsubscribe eventType h w).
Proof.
  intros Hw t. rewrite handlers_unsubscribe.
  destruct (eventHandlers (client w) !! eventType) as [hs|] eqn:E; [|apply Hw].
  destruct (length (remove handlerFn h hs) =? 0)%nat eqn:El.
  - destruct (decide (t = eventType)) as [->|Hne].
    + rewrite lookup_delete_eq. discriminate.
    + rewrite lookup_delete_ne by congruence. apply Hw.
  - destruct (decide (t = eventType)) as [->|Hne].
    + rewrite lookup_insert_eq. intros Hs. inversion Hs as [Hs'].
      rewrite Hs' in El. discriminate.
    + rewrite lookup_insert_ne by congruence. apply Hw.
Qed.

Lemma noEmptySet_on eventType h w :
  noEmptySet w -> noEmptySet (TalonClient.on eventType h w).
Proof.
  intros Hw t. rewrite handlers_on.
  destruct (decide (t = eventType)) as [->|Hne].
  - rewrite lookup_insert_eq. intros Hs. inversion Hs as [Hs'].
    exact (add_nonempty _ _ _ Hs').
  - rewrite lookup_insert_ne by congruence. apply Hw.
Qed.

Lemma noEmptySet_invoke h a w :
  noEmptySet w -> noEmptySet (fst (TalonClient.invoke h a w)).
Proof.
  intros Hw. destruct h as [cb|n eventType cb]; cbn [TalonClient.invoke call fst].
  - exact Hw.
  - destruct (body cb a); cbn [fst]; [exact Hw|].
    apply noEmptySet_unsubscribe. exact Hw.
Qed.

Lemma noEmptySet_forEachTry eventType a snapshot : forall w,
  noEmptySet w -> noEmptySet (TalonClient.forEachTry eventType snapshot a w).
Proof.
  induction snapshot as [|h rest IH]; intros w Hw; cbn [TalonClient.forEachTry];
    [exact Hw|].
  destruct (has handlerFn h _); [|apply IH, Hw].
  pose proof (noEmptySet_invoke h a w Hw) as Hi.
  destruct (TalonClient.invoke h a w) as [w1 r]. cbn [fst] in Hi.
  apply IH. destruct r; [|exact Hi].
  eapply noEmptySet_same; [apply handlers_log|exact Hi].
Qed.

Lemma noEmptySet_forEach eventType a snapshot : forall w,
  noEmptySet w -> noEmptySet (fst (TalonClient.forEach eventType snapshot a w)).
Proof.
  induction snapshot as [|h rest IH]; intros w Hw; cbn [TalonClient.forEach];
    [exact Hw|].
  destruct (has handlerFn h _); [|apply IH, Hw].
  pose proof (noEmptySet_invoke h a w Hw) as Hi.
  destruct (TalonClient.invoke h a w) as [w1 r]. cbn [fst] in Hi.
  destruct r; [exact Hi|apply IH, Hi].
Qed.

(** X4.  The handler map never maps an event type to an empty set: it is
    so after [cleanup], and [on], [once], [off], the closures they return
    and the three dispatch methods all keep it so.  Hence a type found in
    the map always has a handler. *)
Theorem handler_map_has_no_empty_set (w : World) :
  (forall eventType, eventHandlers (client (TalonClient.setHandlers ∅ w)) !! eventType
                     <> Some []) /\
  (noEmptySet w ->
   (forall eventType h, noEmptySet (TalonClient.on eventType h w)) /\
   (forall eventType cb, noEmptySet (fst (TalonClient.once eventType cb w))) /\
   (forall eventType, noEmptySet (TalonClient.off eventType w)) /\
   (forall eventType h, noEmptySet (TalonClient.unsubscribe eventType h w)) /\
   (forall m, noEmptySet (TalonClient.handleMessage m w)) /\
   (forall s, noEmptySet (fst (TalonClient.handleStateChange s w))) /\
   (forall e, noEmptySet (fst (TalonClient.handleError e w)))).
Proof.
  split; [intros t; cbn; rewrite lookup_empty; discriminate|].
  intros Hw.
  assert (Hlog : forall line w0, noEmptySet w0 -> noEmptySet (TalonClient.log line w0)).
  { intros line w0. apply noEmptySet_same, handlers_log. }
  repeat split.
  - intros eventType h. apply noEmptySet_on, Hw.
  - intros eventType cb. unfold TalonClient.once. cbn [fst].
    apply noEmptySet_on. exact Hw.
  - intros eventType t. rewrite handlers_off.
    destruct (decide (t = eventType)) as [->|Hne].
    + rewrite lookup_delete_eq. discriminate.
    + rewrite lookup_delete_ne by congruence. apply Hw.
  - intros eventType h. apply noEmptySet_unsubscribe, Hw.
  - intros m. unfold TalonClient.handleMessage.
    destruct (eventHandlers _ !! _) as [hs|]; [|apply Hlog, Hlog, Hw].
    destruct (0 <? length hs)%nat; [|apply Hlog, Hlog, Hw].
    apply noEmptySet_forEachTry, Hlog, Hw.
  - intros s. unfold TalonClient.handleStateChange.
    destruct (eventHandlers _ !! _) as [hs|]; [|apply Hlog, Hw].
    apply noEmptySet_forEach, Hlog, Hw.
  - intros e. unfold TalonClient.handleError.
    destruct (eventHandlers _ !! _) as [hs|]; [|apply Hlog, Hw].
    apply noEmptySet_forEach, Hlog, Hw.
Qed.

Lemma handler_map_has_no_empty_set_witness :
  noEmptySet (TalonClient.setHandlers ∅ (newWorld smooth)) /\
  noEmptySet (TalonClient.handleMessage (testEvent 1)
                (fst (TalonClient.once "test_event" (returning 5)
                        (TalonClient.setHandlers ∅ (newWorld smooth))))).
Proof.
  assert (H0 : noEmptySet (TalonClient.setHandlers ∅ (newWorld smooth)))
    by exact (proj1 (handler_map_has_no_empty_set (newWorld smooth))).
  split; [exact H0|].
  destruct (proj2 (handler_map_has_no_empty_set _) H0) as (_ & Honce & _).
  destruct (proj2 (handler_map_has_no_empty_set _)
              (Honce "test_event"%string (returning 5))) as (_ & _ & _ & _ & Hm & _).
  exact (Hm (testEvent 1)).
Defined.

(** Message dispatch on the client: when the handlers registered for the
    type of a message are plain ones (none registered through [once]), the
    client calls each of them once, in registration order, with the data
    of the message, whether or not any of them throws; it calls nothing
    else and its handler map is as before. *)
Lemma handleMessage_calls_each_handler (m : InboundMessage.t) (w : World) :
  Forall isPlain (TalonClient.registered (InboundMessage.type m) w) ->
  handlerCalls (TalonClient.handleMessage m w)
  = handlerCalls w
    ++ map (fun h => (handlerFn h, ArgData (InboundMessage.data m)))
         (TalonClient.registered (InboundMessage.type m) w) /\
  client (TalonClient.handleMessage m w) = client w.
Proof.
  intros Hp. unfold TalonClient.handleMessage.
  assert (Hlog : forall line w0, client (TalonClient.log line w0) = client w0).
  { intros line w0. unfold TalonClient.log, console_log.
    destruct (debug (client w0)); reflexivity. }
  unfold TalonClient.registered in *.
  rewrite Hlog.
  destruct (eventHandlers (client w) !! InboundMessage.type m) as [hs|] eqn:E;
    cbn [default] in *.
  - destruct (0 <? length hs)%nat eqn:El.
    + destruct (forEachTry_reaches_every_handler (InboundMessage.type m)
                  (ArgData (InboundMessage.data m)) hs
                  (TalonClient.log "Received message:" w) eq_refl Hp) as (H1 & H2).
      { intros h Hin. unfold TalonClient.registered. rewrite Hlog, E.
        cbn [default]. apply has_elem. exact Hin. }
      rewrite H1, H2, handlerCalls_client_log, Hlog. auto.
    + destruct hs; [|discriminate]. cbn [map].
      rewrite !handlerCalls_client_log, !Hlog, app_nil_r. auto.
  - cbn [map]. rewrite !handlerCalls_client_log, !Hlog, app_nil_r. auto.
Qed.

Lemma forEach_passes eventType a rest : forall pre w,
  clientArg a = true ->
  Forall isPlain pre -> Forall (returnsOn a) pre ->
  (forall h, h ∈ pre -> has handlerFn h (TalonClient.registered eventType w) = true) ->
  exists w1,
    TalonClient.forEach eventType (pre ++ rest) a w
    = TalonClient.forEach eventType rest a w1 /\
    handlerCalls w1 = handlerCalls w ++ map (fun h => (handlerFn h, a)) pre /\
    client w1 = client w.
Proof.
  intros pre w Ha Hp. revert w.
  induction Hp as [|h pre Hh _ IH]; intros w Hr Hreg.
  - exists w. cbn. rewrite app_nil_r. auto.
  - inversion Hr as [|? ? Hret Hr']; subst.
    destruct h as [cb|]; [|destruct Hh]. cbn [returnsOn] in Hret.
    cbn [app TalonClient.forEach]. rewrite (Hreg (Plain cb)) by constructor.
    cbn [TalonClient.invoke call]. rewrite Hret.
    destruct (IH (emit (Invoked (Supplied (fn cb)) a) w) Hr') as (w1 & E1 & E2 & E3).
    { intros h Hin. apply Hreg. constructor. exact Hin. }
    exists w1. split; [exact E1|]. split; [|exact E3].
    rewrite E2. unfold handlerCalls at 1. rewrite omap_emit. cbn [handlerCall].
    rewrite Ha, <- app_assoc. reflexivity.
Qed.

Lemma forEach_returns eventType a handlers w :
  clientArg a = true ->
  TalonClient.registered eventType w = handlers ->
  Forall isPlain handlers -> Forall (returnsOn a) handlers ->
  snd (TalonClient.forEach eventType handlers a w) = None /\
  handlerCalls (fst (TalonClient.forEach eventType handlers a w))
  = handlerCalls w ++ map (fun h => (handlerFn h, a)) handlers /\
  client (fst (TalonClient.forEach eventType handlers a w)) = client w.
Proof.
  intros Ha Hreg Hp Hr.
  destruct (forEach_passes eventType a [] handlers w Ha Hp Hr) as (w1 & E1 & E2 & E3).
  { intros h Hin. rewrite Hreg. apply has_elem. exact Hin. }
  rewrite app_nil_r in E1. rewrite E1. cbn. auto.
Qed.

Lemma forEach_throws eventType a pre cb x post w :
  clientArg a = true ->
  TalonClient.registered eventType w = pre ++ Plain cb :: post ->
  Forall isPlain pre -> Forall (returnsOn a) pre ->
  body cb a = Some x ->
  snd (TalonClient.forEach eventType (pre ++ Plain cb :: post) a w) = Some x /\
  handlerCalls (fst (TalonClient.forEach eventType (pre ++ Plain cb :: post) a w))
  = handlerCalls w ++ map (fun h => (handlerFn h, a)) (pre ++ [Plain cb]) /\
  client (fst (TalonClient.forEach eventType (pre ++ Plain cb :: post) a w)) = client w.
Proof.
  intros Ha Hreg Hp Hr Hx.
  destruct (forEach_passes eventType a (Plain cb :: post) pre w Ha Hp Hr)
    as (w1 & E1 & E2 & E3).
  { intros h Hin. rewrite Hreg. apply has_elem. apply elem_of_app. auto. }
  rewrite E1.
  assert (Hh : has handlerFn (Plain cb) (TalonClient.registered eventType w1) = true).
  { unfold TalonClient.registered. rewrite E3.
    fold (TalonClient.registered eventType w). rewrite Hreg.
    apply has_elem. apply elem_of_app. right. constructor. }
  cbn [TalonClient.forEach]. rewrite Hh.
  cbn [TalonClient.invoke call]. rewrite Hx. cbn [fst snd].
  split; [reflexivity|]. split; [|exact E3].
  unfold handlerCalls at 1. rewrite omap_emit. cbn [handlerCall].
  rewrite Ha. fold (handlerCalls w1). rewrite E2, map_app, <- app_assoc.
  reflexivity.
Qed.

Lemma client_log line w : client (TalonClient.log line w) = client w.
Proof. unfold TalonClient.log, console_log. destruct (debug (client w)); reflexivity. Qed.

(** X6.  Reserved events when no handler throws: [handleStateChange]
    calls every plain handler registered for "_state_change" once, in
    registration order, with the new state, and [handleError] does the
    same for "_error" with the error; both return normally, call nothing
    else and leave the client as it was. *)
Theorem reserved_events_reach_every_handler (w : World) :
  (forall s,
     Forall isPlain (TalonClient.registered "_state_change" w) ->
     Forall (returnsOn (ArgStateEvent s)) (TalonClient.registered "_state_change" w) ->
     snd (TalonClient.handleStateChange s w) = None /\
     handlerCalls (fst (TalonClient.handleStateChange s w))
     = handlerCalls w
       ++ map (fun h => (handlerFn h, ArgStateEvent s))
            (TalonClient.registered "_state_change" w) /\
     client (fst (TalonClient.handleStateChange s w)) = client w) /\
  (forall e,
     Forall isPlain (TalonClient.registered "_error" w) ->
     Forall (returnsOn (ArgErrorEvent e)) (TalonClient.registered "_error" w) ->
     snd (TalonClient.handleError e w) = None /\
     handlerCalls (fst (TalonClient.handleError e w))
     = handlerCalls w
       ++ map (fun h => (handlerFn h, ArgErrorEvent e))
            (TalonClient.registered "_error" w) /\
     client (fst (TalonClient.handleError e w)) = client w).
Proof.
  split.
  - intros s Hp Hr. unfold TalonClient.handleStateChange.
    unfold TalonClient.registered in *. rewrite client_log.
    destruct (eventHandlers (client w) !! "_state_change"%string) as [hs|] eqn:E;
      cbn [default] in *.
    + destruct (forEach_returns "_state_change" (ArgStateEvent s) hs
                  (TalonClient.log ("State changed: " +:+ stateName s) w)
                  eq_refl) as (H1 & H2 & H3); try assumption.
      { unfold TalonClient.registered. rewrite client_log, E. reflexivity. }
      rewrite H1, H2, H3, handlerCalls_client_log, client_log. auto.
    + cbn [fst snd map]. rewrite handlerCalls_client_log, client_log, app_nil_r. auto.
  - intros e Hp Hr. unfold TalonClient.handleError.
    unfold TalonClient.registered in *. rewrite client_log.
    destruct (eventHandlers (client w) !! "_error"%string) as [hs|] eqn:E;
      cbn [default] in *.
    + destruct (forEach_returns "_error" (ArgErrorEvent e) hs
                  (TalonClient.log "Transport error:" w)
                  eq_refl) as (H1 & H2 & H3); try assumption.
      { unfold TalonClient.registered. rewrite client_log, E. reflexivity. }
      rewrite H1, H2, H3, handlerCalls_client_log, client_log. auto.
    + cbn [fst snd map]. rewrite handlerCalls_client_log, client_log, app_nil_r. auto.
Qed.

Lemma reserved_events_reach_every_handler_witness :
  handlerCalls (fst (TalonClient.handleStateChange connected watchingWorld))
  = handlerCalls watchingWorld
    ++ [(Supplied 1, ArgStateEvent connected); (Supplied 2, ArgStateEvent connected)] /\
  handlerCalls (fst (TalonClient.handleError (new_Error "boom") watchingWorld))
  = handlerCalls watchingWorld ++ [(Supplied 3, ArgErrorEvent (new_Error "boom"))].
Proof.
  split.
  - refine (proj1 (proj2 (proj1 (reserved_events_reach_every_handler watchingWorld)
                            connected _ _)));
      vm_compute; repeat constructor.
  - refine (proj1 (proj2 (proj2 (reserved_events_reach_every_handler watchingWorld)
                            (new_Error "boom") _ _)));
      vm_compute; repeat constructor.
Defined.

(** X7.  Reserved events when a handler throws: the plain handlers
    registered before the first thrower are called once each in order,
    then the thrower; what it threw leaves [handleStateChange]
    (respectively [handleError]) and no handler registered after it is
    called. *)
Theorem reserved_events_stop_at_first_throw (w : World)
    (pre post : list EventHandler) (cb : Callback) (x : Thrown) :
  Forall isPlain pre ->
  (forall s,
     TalonClient.registered "_state_change" w = pre ++ Plain cb :: post ->
     Forall (returnsOn (ArgStateEvent s)) pre ->
     body cb (ArgStateEvent s) = Some x ->
     snd (TalonClient.handleStateChange s w) = Some x /\
     handlerCalls (fst (TalonClient.handleStateChange s w))
     = handlerCalls w
       ++ map (fun h => (handlerFn h, ArgStateEvent s)) (pre ++ [Plain cb])) /\
  (forall e,
     TalonClient.registered "_error" w = pre ++ Plain cb :: post ->
     Forall (returnsOn (ArgErrorEvent e)) pre ->
     body cb (ArgErrorEvent e) = Some x ->
     snd (TalonClient.handleError e w) = Some x /\
     handlerCalls (fst (TalonClient.handleError e w))
     = handlerCalls w
       ++ map (fun h => (handlerFn h, ArgErrorEvent e)) (pre ++ [Plain cb])).
Proof.
  intros Hp. split.
  - intros s Hreg Hr Hx. unfold TalonClient.handleStateChange.
    unfold TalonClient.registered in Hreg. rewrite client_log.
    destruct (eventHandlers (client w) !! "_state_change"%string) as [hs|] eqn:E;
      simpl in Hreg; [|destruct pre; discriminate].
    subst hs.
    destruct (forEach_throws "_state_change" (ArgStateEvent s) pre cb x post
                (TalonClient.log ("State changed: " +:+ stateName s) w)
                eq_refl) as (H1 & H2 & _); try assumption.
    { unfold TalonClient.registered. rewrite client_log, E. reflexivity. }
    rewrite H1, H2, handlerCalls_client_log. auto.
  - intros e Hreg Hr Hx. unfold TalonClient.handleError.
    unfold TalonClient.registered in Hreg. rewrite client_log.
    destruct (eventHandlers (client w) !! "_error"%string) as [hs|] eqn:E;
      simpl in Hreg; [|destruct pre; discriminate].
    subst hs.
    destruct (forEach_throws "_error" (ArgErrorEvent e) pre cb x post
                (TalonClient.log "Transport error:" w)
                eq_refl) as (H1 & H2 & _); try assumption.
    { unfold TalonClient.registered. rewrite client_log, E. reflexivity. }
    rewrite H1, H2, handlerCalls_client_log. auto.
Qed.

Lemma reserved_events_stop_at_first_throw_witness :
  let w := TalonClient.on "_state_change" (Plain (returning 3))
             (TalonClient.on "_state_change" (Plain (throwing 2))
                (TalonClient.on "_state_change" (Plain (returning 1))
                   (newWorld smooth))) in
  TalonClient.registered "_state_change" w
  = [Plain (returning 1)] ++ Plain (throwing 2) :: [Plain (returning 3)] /\
  snd (TalonClient.handleStateChange connected w)
  = Some (ThrowError (new_Error "Handler error")) /\
  handlerCalls (fst (TalonClient.handleStateChange connected w))
  = handlerCalls w ++ [(Supplied 1, ArgStateEvent connected);
                       (Supplied 2, ArgStateEvent connected)].
Proof.
  intros w.
  assert (Hreg : TalonClient.registered "_state_change" w
                 = [Plain (returning 1)] ++ Plain (throwing 2) :: [Plain (returning 3)])
    by (vm_compute; reflexivity).
  split; [exact Hreg|].
  refine (proj1 (reserved_events_stop_at_first_throw w [Plain (returning 1)]
                   [Plain (returning 3)] (throwing 2)
                   (ThrowError (new_Error "Handler error")) _)
            connected Hreg _ _).
  - repeat constructor.
  - repeat constructor.
  - reflexivity.
Defined.

(** * Beyond the claims: the webhook transport *)

Module WebhookBackoff.
Import WebhookTransport.

Lemma sendRequest_sleeps message self w :
  sleeps (fst (sendRequest message self w)) = sleeps w.
Proof.
  assert (Hbase : sleeps (snd (fetch (emit (Requested message) w))) = sleeps w).
  { unfold sleeps, fetch. cbn [snd withScript effects].
    rewrite omap_emit. cbn [sleep]. apply app_nil_r. }
  unfold sendRequest.
  destruct (fetch (emit (Requested message) w)) as [r w1]. cbn [snd] in Hbase.
  destruct r as [status statusText|[e|v]].
  - destruct ((200 <=? status)%Z && (status <=? 299)%Z); cbn [fst]; [|exact Hbase].
    unfold log, sleeps. rewrite omap_console_log by reflexivity. exact Hbase.
  - destruct (String.eqb (name e) "AbortError"); exact Hbase.
  - exact Hbase.
Qed.

Lemma delays_shift (rd attempt : Z) k :
  (rd * 2 ^ attempt)%Z
  :: map (fun i => (rd * 2 ^ (attempt + 1 + Z.of_nat i))%Z) (seq 0 k)
  = map (fun i => (rd * 2 ^ (attempt + Z.of_nat i))%Z) (seq 0 (S k)).
Proof.
  cbn [seq map]. rewrite Z.add_0_r. f_equal.
  rewrite <- seq_shift, map_map. apply map_ext. intros i. do 2 f_equal. lia.
Qed.

(** The delays awaited by the loop of [send]: one after each failed
    attempt but the last, doubling each time. *)
Lemma attemptLoop_sleeps message self n : forall attempt attempts lastError w,
  (n = 0%nat \/ Z.of_nat n + attempt = attempts)%Z ->
  let w' := fst (attemptLoop n attempt attempts lastError message self w) in
  let delay i := (retryDelay self * 2 ^ (attempt + Z.of_nat i))%Z in
  (forall k, (k < n)%nat ->
     (forall j, (j < k)%nat -> failure (answer j w) <> None) ->
     failure (answer k w) = None ->
     sleeps w' = sleeps w ++ map delay (seq 0 k)) /\
  ((forall j, (j < n)%nat -> failure (answer j w) <> None) ->
   sleeps w' = sleeps w ++ map delay (seq 0 (n - 1))).
Proof.
  induction n as [|n IH]; intros attempt attempts lastError w Hn; cbv zeta.
  - cbn. rewrite app_nil_r. split; [intros; lia|auto].
  - destruct Hn as [Hn|Hn]; [discriminate|].
    cbn [attemptLoop].
    pose proof (sendRequest_sleeps message self w) as Hs.
    destruct (WebhookFacts.sendRequest_spec message self w) as (w1 & E & Hf & _).
    rewrite E in Hs |- *. cbn [fst] in Hs.
    destruct (failure (answer 0 w)) as [e|] eqn:E0; cbn [fmap option_fmap option_map].
    + set (w2 := log self _ w1).
      set (w3 := if (attempt <? attempts - 1)%Z then _ else w2).
      assert (H2 : sleeps w2 = sleeps w).
      { unfold w2, log, sleeps. rewrite omap_console_log by reflexivity. exact Hs. }
      assert (Hf3 : fetches (script w3) = tl (fetches (script w))).
      { unfold w3. destruct (attempt <? attempts - 1)%Z; unfold w2, log;
          cbn [emit withEffects script]; rewrite script_console_log; exact Hf. }
      assert (H3 : sleeps w3
                   = sleeps w ++ match n with
                                 | O => []
                                 | S _ => [(retryDelay self * 2 ^ attempt)%Z]
                                 end).
      { unfold w3. destruct (attempt <? attempts - 1)%Z eqn:Elt.
        - apply Z.ltb_lt in Elt. destruct n as [|n']; [lia|].
          unfold sleeps at 1. rewrite omap_emit. cbn [sleep].
          fold (sleeps w2). rewrite H2. reflexivity.
        - apply Z.ltb_ge in Elt. destruct n as [|n']; [|lia].
          rewrite app_nil_r. exact H2. }
      destruct (IH (attempt + 1)%Z attempts
                  (Some (instanceofError "Send failed" (ThrowError e))) w3)
        as (Hfirst & Hall).
      { destruct n; [left; reflexivity|right; lia]. }
      split.
      * intros k Hk Hbefore Hok. destruct k as [|k]; [congruence|].
        rewrite (Hfirst k); [| lia | |].
        -- rewrite H3. destruct n as [|n']; [lia|].
           rewrite <- app_assoc. f_equal. apply delays_shift.
        -- intros j Hj. rewrite (WebhookFacts.answer_next j w w3 Hf3).
           apply Hbefore. lia.
        -- rewrite (WebhookFacts.answer_next k w w3 Hf3). exact Hok.
      * intros Hfail. rewrite Hall.
        -- rewrite H3. destruct n as [|n']; [cbn; rewrite !app_nil_r; reflexivity|].
           rewrite <- app_assoc. f_equal.
           replace (S (S n') - 1)%nat with (S (S n' - 1)) by lia.
           apply delays_shift.
        -- intros j Hj. rewrite (WebhookFacts.answer_next j w w3 Hf3).
           apply Hfail. lia.
    + cbn [fst]. split.
      * intros k Hk Hbefore Hok. destruct k as [|k].
        -- cbn. rewrite app_nil_r. unfold log, sleeps.
           rewrite omap_console_log by reflexivity. exact Hs.
        -- exfalso. apply (Hbefore 0%nat); [lia|exact E0].
      * intros Hfail. exfalso. apply (Hfail 0%nat); [lia|exact E0].
Qed.

End WebhookBackoff.

(** X8.  Back-off of the webhook transport: [send] waits after each
    failed attempt except the last one made possible by the options, the
    i-th wait (from 0) lasting [retryDelay * 2^i] ms; it never waits after
    a successful request, and without retry it never waits. *)
Theorem webhook_backoff_delays (message : OutboundMessage.t)
    (self : WebhookTransport.t) (w : World) :
  WebhookTransport._state self = connected ->
  let attempts := if WebhookTransport.retry self
                  then Z.to_nat (WebhookTransport.maxRetries self + 1)
                  else 1%nat in
  let w' := snd (fst (WebhookTransport.send message self w)) in
  let delay i := (WebhookTransport.retryDelay self * 2 ^ Z.of_nat i)%Z in
  (forall k, (k < attempts)%nat ->
     (forall j, (j < k)%nat -> failure (answer j w) <> None) ->
     failure (answer k w) = None ->
     sleeps w' = sleeps w ++ map delay (seq 0 k)) /\
  ((forall j, (j < attempts)%nat -> failure (answer j w) <> None) ->
   sleeps w' = sleeps w ++ map delay (seq 0 (attempts - 1))) /\
  (WebhookTransport.retry self = false -> sleeps w' = sleeps w).
Proof.
  intros Hc attempts w' delay.
  set (attemptsZ := if WebhookTransport.retry self
                    then (WebhookTransport.maxRetries self + 1)%Z else 1%Z).
  assert (Hat : attempts = Z.to_nat attemptsZ).
  { unfold attempts, attemptsZ. destruct (WebhookTransport.retry self); reflexivity. }
  destruct (WebhookBackoff.attemptLoop_sleeps message self attempts 0%Z attemptsZ
              None w) as (Hfirst & Hall).
  { rewrite Hat. destruct (Z.to_nat attemptsZ) eqn:E; [left; reflexivity|right; lia]. }
  assert (Hw' : sleeps w'
                = sleeps (fst (WebhookTransport.attemptLoop attempts 0 attemptsZ None
                                 message self w))).
  { unfold w', WebhookTransport.send. rewrite Hc. cbn [bool_decide negb].
    rewrite bool_decide_eq_true_2 by reflexivity. cbn [negb].
    fold attemptsZ. rewrite <- Hat.
    destruct (WebhookTransport.attemptLoop attempts 0 attemptsZ None message self w)
      as [w1 [|[e|]]]; cbn [fst snd]; try reflexivity.
    unfold sleeps, WebhookTransport.emitError.
    apply (touches_omap sleep callSide); [intros [] H; try destruct H; reflexivity|].
    apply touches_notify. reflexivity. }
  rewrite Hw'. repeat split.
  - exact Hfirst.
  - exact Hall.
  - intros Hr. assert (Ha : attempts = 1%nat) by (unfold attempts; rewrite Hr; reflexivity).
    rewrite Ha in *.
    destruct (failure (answer 0 w)) eqn:E0.
    + rewrite Hall; [cbn; apply app_nil_r|].
      intros j Hj. replace j with 0%nat by lia. congruence.
    + rewrite (Hfirst 0%nat); [cbn; apply app_nil_r|lia| |exact E0].
      intros j Hj. lia.
Qed.

Lemma webhook_backoff_delays_witness :
  sleeps (snd (fst (WebhookTransport.send purchase (fst (retryingWebhook flakyHost))
                      (snd (retryingWebhook flakyHost)))))
  = [1000; 2000]%Z /\
  sleeps (snd (fst (WebhookTransport.send purchase (fst (retryingWebhook deadHost))
                      (snd (retryingWebhook deadHost)))))
  = [1000; 2000; 4000]%Z.
Proof.
  split.
  - set (self := fst (retryingWebhook flakyHost)).
    set (w := snd (retryingWebhook flakyHost)).
    assert (Hc : WebhookTransport._state self = connected) by (vm_compute; reflexivity).
    rewrite (proj1 (webhook_backoff_delays purchase self w Hc) 2%nat).
    + vm_compute. reflexivity.
    + vm_compute. lia.
    + intros j Hj. assert (Hj' : j = 0%nat \/ j = 1%nat) by lia.
      destruct Hj' as [-> | ->]; vm_compute; discriminate.
    + vm_compute. reflexivity.
  - set (self := fst (retryingWebhook deadHost)).
    set (w := snd (retryingWebhook deadHost)).
    assert (Hc : WebhookTransport._state self = connected) by (vm_compute; reflexivity).
    rewrite (proj1 (proj2 (webhook_backoff_delays purchase self w Hc))).
    + vm_compute. reflexivity.
    + intros j Hj.
      assert (Hj' : (j < 4)%nat) by (revert Hj; vm_compute; lia).
      assert (Hj'' : j = 0%nat \/ j = 1%nat \/ j = 2%nat \/ j = 3%nat) by lia.
      destruct Hj'' as [-> | [-> | [-> | ->]]]; vm_compute; discriminate.
Defined.

(** X9.  With retry enabled and a negative [maxRetries] the loop of
    [send] has no iteration: on a connected webhook transport [send]
    resolves without having issued any request, and nothing is reported
    to the error observers. *)
Theorem webhook_send_negative_maxRetries (message : OutboundMessage.t)
    (self : WebhookTransport.t) (w : World) :
  WebhookTransport._state self = connected ->
  WebhookTransport.retry self = true ->
  (WebhookTransport.maxRetries self < 0)%Z ->
  WebhookTransport.send message self w = (self, w, Resolved).
Proof.
  intros Hc Hr Hm. unfold WebhookTransport.send.
  rewrite Hc, Hr, bool_decide_eq_true_2 by reflexivity. cbn [negb].
  replace (Z.to_nat (WebhookTransport.maxRetries self + 1)) with 0%nat by lia.
  reflexivity.
Qed.

Lemma webhook_send_negative_maxRetries_witness :
  let self := fst (run [Connect]
                     (TalonClient.constructor
                        (WebhookTransport.constructor
                           (webhookOptions (Some true) (Some (-1)%Z)))
                        (Some false) None (newWorld deadHost))) in
  let w := snd (run [Connect]
                  (TalonClient.constructor
                     (WebhookTransport.constructor
                        (webhookOptions (Some true) (Some (-1)%Z)))
                     (Some false) None (newWorld deadHost))) in
  WebhookTransport.maxRetries self = (-1)%Z /\
  snd (WebhookTransport.send purchase self w) = Resolved /\
  requests (snd (fst (WebhookTransport.send purchase self w))) = [].
Proof.
  intros self w.
  assert (Hc : WebhookTransport._state self = connected) by (vm_compute; reflexivity).
  assert (Hr : WebhookTransport.retry self = true) by (vm_compute; reflexivity).
  assert (Hm : (WebhookTransport.maxRetries self < 0)%Z) by (vm_compute; reflexivity).
  split; [vm_compute; reflexivity|].
  rewrite (webhook_send_negative_maxRetries purchase self w Hc Hr Hm).
  split; [reflexivity|vm_compute; reflexivity].
Defined.

(** ** Effects a projection does not see *)

Section Unseen.
Context {X : Type} (f : Effect -> option X).
Hypothesis Hlog : forall l, f (Logged l) = None.

Lemma unseen_log line w :
  omap f (effects (TalonClient.log line w)) = omap f (effects w).
Proof. unfold TalonClient.log. apply omap_console_log, Hlog. Qed.

Lemma unseen_unsubscribe eventType h w :
  omap f (effects (TalonClient.unsubscribe eventType h w)) = omap f (effects w).
Proof.
  unfold TalonClient.unsubscribe. cbv zeta. rewrite unseen_log.
  destruct (eventHandlers (client w) !! eventType) as [hs|]; [|reflexivity].
  destruct (length _ =? 0)%nat; reflexivity.
Qed.

Lemma unseen_on eventType h w :
  omap f (effects (TalonClient.on eventType h w)) = omap f (effects w).
Proof. unfold TalonClient.on. cbv zeta. rewrite unseen_log. reflexivity. Qed.

Lemma unseen_once eventType cb w :
  omap f (effects (fst (TalonClient.once eventType cb w))) = omap f (effects w).
Proof. unfold TalonClient.once. cbn [fst]. rewrite unseen_on. reflexivity. Qed.

Lemma unseen_off eventType w :
  omap f (effects (TalonClient.off eventType w)) = omap f (effects w).
Proof. unfold TalonClient.off. rewrite unseen_log. reflexivity. Qed.

Section Calls.
Variable a : Arg.
Hypothesis Hcall : forall g, f (Invoked g a) = None.

Lemma unseen_invoke h w :
  omap f (effects (fst (TalonClient.invoke h a w))) = omap f (effects w).
Proof.
  destruct h as [cb|n eventType cb]; cbn [TalonClient.invoke call fst].
  - rewrite omap_emit, Hcall. apply app_nil_r.
  - destruct (body cb a); cbn [fst]; rewrite ?unseen_unsubscribe, !omap_emit, !Hcall,
      !app_nil_r; reflexivity.
Qed.

Lemma unseen_forEachTry eventType snapshot : forall w,
  omap f (effects (TalonClient.forEachTry eventType snapshot a w)) = omap f (effects w).
Proof.
  induction snapshot as [|h rest IH]; intros w; cbn [TalonClient.forEachTry];
    [reflexivity|].
  destruct (has handlerFn h _); [|apply IH].
  pose proof (unseen_invoke h w) as Hi.
  destruct (TalonClient.invoke h a w) as [w1 r]. cbn [fst] in Hi.
  rewrite IH. destruct r; rewrite ?unseen_log; exact Hi.
Qed.

Lemma unseen_forEach eventType snapshot : forall w,
  omap f (effects (fst (TalonClient.forEach eventType snapshot a w)))
  = omap f (effects w).
Proof.
  induction snapshot as [|h rest IH]; intros w; cbn [TalonClient.forEach];
    [reflexivity|].
  destruct (has handlerFn h _); [|apply IH].
  pose proof (unseen_invoke h w) as Hi.
  destruct (TalonClient.invoke h a w) as [w1 r]. cbn [fst] in Hi.
  destruct r; [exact Hi|]. rewrite IH. exact Hi.
Qed.
End Calls.

Lemma unseen_handleStateChange s w :
  (forall g, f (Invoked g (ArgStateEvent s)) = None) ->
  omap f (effects (fst (TalonClient.handleStateChange s w))) = omap f (effects w).
Proof.
  intros Hc. unfold TalonClient.handleStateChange. cbv zeta.
  destruct (eventHandlers _ !! _); cbn [fst];
    rewrite ?unseen_forEach by exact Hc; apply unseen_log.
Qed.

Lemma unseen_handleError e w :
  (forall g, f (Invoked g (ArgErrorEvent e)) = None) ->
  omap f (effects (fst (TalonClient.handleError e w))) = omap f (effects w).
Proof.
  intros Hc. unfold TalonClient.handleError. cbv zeta.
  destruct (eventHandlers _ !! _); cbn [fst];
    rewrite ?unseen_forEach by exact Hc; apply unseen_log.
Qed.

(** Observers told of a state or an error. *)
Lemma unseen_notify dbg prefix line a observers : forall w,
  (forall g, f (Invoked g a) = None) ->
  match a with
  | ArgState s => forall g, f (Invoked g (ArgStateEvent s)) = None
  | ArgError e => forall g, f (Invoked g (ArgErrorEvent e)) = None
  | _ => False
  end ->
  omap f (effects (notify dbg prefix line observers a w)) = omap f (effects w).
Proof.
  intros w Ha Hev. revert w.
  induction observers as [|o rest IH]; intros w; cbn [notify]; [reflexivity|].
  assert (Ho : omap f (effects (fst (observe o a w))) = omap f (effects w)).
  { destruct o as [cb|]; cbn [observe call fst].
    - rewrite omap_emit, Ha. apply app_nil_r.
    - destruct a; try destruct Hev.
      + rewrite unseen_handleStateChange by exact Hev.
        rewrite omap_emit, Ha. apply app_nil_r.
      + rewrite unseen_handleError by exact Hev.
        rewrite omap_emit, Ha. apply app_nil_r. }
  destruct (observe o a w) as [w1 r]. cbn [fst] in Ho.
  rewrite IH. destruct r; [|exact Ho].
  rewrite omap_console_log by exact Hlog. exact Ho.
Qed.

End Unseen.

Module WebhookOneWay.
Import WebhookTransport.

Lemma inbound_log line w : forall dbg prefix,
  inboundCalls (console_log dbg prefix line w) = inboundCalls w.
Proof. intros. unfold inboundCalls. apply omap_console_log. reflexivity. Qed.

Lemma inbound_setState s self w :
  inboundCalls (snd (setState s self w)) = inboundCalls w.
Proof.
  unfold setState. destruct (bool_decide _); [reflexivity|]. cbn [snd].
  unfold inboundCalls. apply unseen_notify; reflexivity.
Qed.

Lemma state_setState s self w : _state (fst (setState s self w)) = s.
Proof.
  unfold setState. destruct (bool_decide (_state self = s)) eqn:E; [|reflexivity].
  apply bool_decide_eq_true_1 in E. exact E.
Qed.

Lemma inbound_sendRequest message self w :
  inboundCalls (fst (sendRequest message self w)) = inboundCalls w.
Proof.
  assert (Hbase : inboundCalls (snd (fetch (emit (Requested message) w)))
                  = inboundCalls w).
  { unfold inboundCalls, fetch. cbn [snd withScript effects].
    rewrite omap_emit. apply app_nil_r. }
  unfold sendRequest.
  destruct (fetch (emit (Requested message) w)) as [r w1]. cbn [snd] in Hbase.
  destruct r as [status statusText|[e|v]].
  - destruct ((200 <=? status)%Z && (status <=? 299)%Z); cbn [fst]; [|exact Hbase].
    unfold log. rewrite inbound_log. exact Hbase.
  - destruct (String.eqb (name e) "AbortError"); exact Hbase.
  - exact Hbase.
Qed.

Lemma inbound_attemptLoop message self n : forall attempt attempts lastError w,
  inboundCalls (fst (attemptLoop n attempt attempts lastError message self w))
  = inboundCalls w.
Proof.
  induction n as [|n IH]; intros attempt attempts lastError w; [reflexivity|].
  cbn [attemptLoop].
  pose proof (inbound_sendRequest message self w) as Hs.
  destruct (sendRequest message self w) as [w1 [x|]]; cbn [fst] in Hs |- *.
  - rewrite IH. destruct (attempt <? attempts - 1)%Z.
    + unfold inboundCalls at 1. rewrite omap_emit. cbn [inboundCall].
      rewrite app_nil_r. fold (inboundCalls (log self
        ("Send failed (attempt " +:+ show (attempt + 1) +:+ "):") w1)).
      unfold log. rewrite inbound_log. exact Hs.
    + unfold log. rewrite inbound_log. exact Hs.
  - unfold log. rewrite inbound_log. exact Hs.
Qed.

Lemma send_spec message self w :
  fst (fst (send message self w)) = self /\
  inboundCalls (snd (fst (send message self w))) = inboundCalls w.
Proof.
  unfold send. destruct (negb _); [auto|].
  pose proof (inbound_attemptLoop message self
                (Z.to_nat (if retry self then (maxRetries self + 1)%Z else 1%Z)) 0
                (if retry self then (maxRetries self + 1)%Z else 1%Z) None w) as Hl.
  destruct (attemptLoop _ _ _ _ _ _ _) as [w1 [|[e|]]]; cbn [fst snd] in *; auto.
  split; [reflexivity|]. rewrite <- Hl. unfold emitError, inboundCalls.
  apply unseen_notify; reflexivity.
Qed.

Lemma webhook_step_inbound a self w :
  inboundCalls (snd (step a (self, w))) = inboundCalls w /\
  (_state self = disconnected \/ _state self = connected ->
   _state (fst (step a (self, w))) = disconnected \/
   _state (fst (step a (self, w))) = connected).
Proof.
  destruct a as [| |event|eventType cb|eventType cb|eventType
                 |eventType h|c cb|c cb| |message|e];
    cbn [step fst snd].
  - unfold TalonClient.connect. cbn [TalonTransport.connect
      WebhookTransport_TalonTransport]. unfold connect.
    pose proof (inbound_setState connected self (log self "Webhook transport ready" w))
      as Hs.
    pose proof (state_setState connected self (log self "Webhook transport ready" w))
      as Hst.
    destruct (setState connected self _) as [self1 w1]. cbn [fst snd] in *.
    split; [|auto]. rewrite Hs. unfold log. apply inbound_log.
  - unfold TalonClient.disconnect. cbn [TalonTransport.disconnect
      WebhookTransport_TalonTransport]. unfold disconnect.
    pose proof (inbound_setState disconnected self
                  (log self "Disconnecting webhook transport" w)) as Hs.
    pose proof (state_setState disconnected self
                  (log self "Disconnecting webhook transport" w)) as Hst.
    destruct (setState disconnected self _) as [self1 w1]. cbn [fst snd] in *.
    unfold TalonClient.cleanup. cbn [fst snd]. split; [|auto].
    change (inboundCalls (TalonClient.setHandlers ∅ w1)) with (inboundCalls w1).
    rewrite Hs. unfold log. apply inbound_log.
  - unfold TalonClient.send.
    destruct (TalonClient.envelope event w) as [message w1] eqn:Ee.
    cbn [TalonTransport.send WebhookTransport_TalonTransport].
    destruct (send_spec message self (TalonClient.log "Sending message:" w1))
      as (H1 & H2).
    rewrite H1, H2. split; [|auto].
    unfold TalonClient.log. rewrite inbound_log.
    unfold TalonClient.envelope, TalonClient.generateId, Date_now, Math_random36 in Ee.
    inversion Ee. reflexivity.
  - split; [|auto]. apply unseen_on. reflexivity.
  - split; [|auto]. apply unseen_once. reflexivity.
  - split; [|auto]. apply unseen_off. reflexivity.
  - split; [|auto]. apply unseen_unsubscribe. reflexivity.
  - destruct c; cbn; auto.
  - destruct c; cbn; auto.
  - cbn [TalonTransport.disconnect WebhookTransport_TalonTransport]. unfold disconnect.
    pose proof (inbound_setState disconnected self
                  (log self "Disconnecting webhook transport" w)) as Hs.
    pose proof (state_setState disconnected self
                  (log self "Disconnecting webhook transport" w)) as Hst.
    destruct (setState disconnected self _) as [self1 w1]. cbn [fst snd] in *.
    split; [|auto]. rewrite Hs. unfold log. apply inbound_log.
  - cbn [TalonTransport.send WebhookTransport_TalonTransport].
    destruct (send_spec message self w) as (H1 & H2). rewrite H1, H2. auto.
  - cbn. auto.
Qed.

End WebhookOneWay.

(** X10.  The webhook transport is one-way: whatever the application
    does with the client and the transport and whatever the server
    answers, no message observer registered on the transport is ever
    called, and no event handler of the client receives message data. *)
Theorem webhook_never_delivers (actions : list Action)
    (self : WebhookTransport.t) (w : World) :
  inboundCalls (snd (run actions (self, w))) = inboundCalls w.
Proof.
  revert self w. induction actions as [|a rest IH]; intros self w; [reflexivity|].
  unfold run in *. cbn [fold_left].
  destruct (step a (self, w)) as [self1 w1] eqn:E.
  rewrite IH. replace w1 with (snd (step a (self, w))) by (rewrite E; reflexivity).
  apply WebhookOneWay.webhook_step_inbound.
Qed.

(** X11.  The webhook transport is only ever [disconnected] or
    [connected]: no call and no failed request takes it to [connecting],
    [reconnecting] or [error]. *)
Theorem webhook_state_is_binary (actions : list Action)
    (self : WebhookTransport.t) (w : World) :
  WebhookTransport._state self = disconnected \/
  WebhookTransport._state self = connected ->
  WebhookTransport._state (fst (run actions (self, w))) = disconnected \/
  WebhookTransport._state (fst (run actions (self, w))) = connected.
Proof.
  revert self w. induction actions as [|a rest IH]; intros self w Hs; [exact Hs|].
  unfold run in *. cbn [fold_left].
  destruct (step a (self, w)) as [self1 w1] eqn:E.
  apply IH. replace self1 with (fst (step a (self, w))) by (rewrite E; reflexivity).
  apply WebhookOneWay.webhook_step_inbound. exact Hs.
Qed.

Lemma webhook_state_is_binary_witness :
  WebhookTransport._state webhookTransport = disconnected /\
  (WebhookTransport._state
     (fst (run [Connect; Send []; Send []; TransportDisconnect; Send []]
             (webhookClient deadHost))) = disconnected \/
   WebhookTransport._state
     (fst (run [Connect; Send []; Send []; TransportDisconnect; Send []]
             (webhookClient deadHost))) = connected).
Proof.
  split; [reflexivity|].
  apply (webhook_state_is_binary
           [Connect; Send []; Send []; TransportDisconnect; Send []]
           (fst (webhookClient deadHost)) (snd (webhookClient deadHost))).
  left. vm_compute. reflexivity.
Defined.

(** * Beyond the claims: the queue of the socket transport *)

Module SocketLedger.
Import WebSocketTransport.

Lemma calm_refl self w : calm self w (self, w).
Proof. split; reflexivity. Qed.

Lemma calm_trans self w self1 w1 r :
  calm self w (self1, w1) -> calm self1 w1 r -> calm self w r.
Proof. intros (Q1 & T1) (Q2 & T2). cbn [fst snd] in *. split; congruence. Qed.

Lemma calm_world self w w' : effects w' = effects w -> calm self w (self, w').
Proof.
  intros E. split; [reflexivity|].
  unfold transmissions. cbn [snd]. rewrite E. reflexivity.
Qed.

Lemma calm_touches self w w' : touches callSide w w' -> calm self w (self, w').
Proof.
  intros E. split; [reflexivity|]. apply SocketGood.transmissions_touches, E.
Qed.

Lemma calm_object self self' w :
  messageQueue self' = messageQueue self -> calm self w (self', w).
Proof. intros E. split; [exact E|reflexivity]. Qed.

Lemma calm_log self0 self line w : calm self0 w (self0, log self line w).
Proof. apply calm_touches, SocketFacts.log_touches. intros l. exact I. Qed.

Lemma log_transmissions self line w : transmissions (log self line w) = transmissions w.
Proof. apply SocketGood.transmissions_log. Qed.

Lemma setState_transmissions s self w :
  transmissions (snd (setState s self w)) = transmissions w.
Proof. apply SocketGood.transmissions_touches, SocketFacts.setState_touches. Qed.

Lemma calm_setState s self w : calm self w (setState s self w).
Proof.
  split; [rewrite SocketFacts.setState_fst; reflexivity|apply setState_transmissions].
Qed.

Lemma calm_emitError e self w : calm self w (self, emitError e self w).
Proof. apply calm_touches, SocketFacts.emitError_touches. Qed.

Lemma calm_handleMessage data self w : calm self w (self, handleMessage data self w).
Proof.
  destruct data as [m|]; cbn [handleMessage].
  - eapply calm_trans; [apply calm_log|].
    apply calm_touches, touches_notify. reflexivity.
  - eapply calm_trans; [apply calm_log|apply calm_emitError].
Qed.

Lemma calm_scheduleReconnect self w : calm self w (scheduleReconnect self w).
Proof.
  unfold scheduleReconnect, setTimeout. cbv zeta.
  eapply calm_trans; [apply calm_log|].
  eapply calm_trans; [apply calm_world|apply calm_object]; reflexivity.
Qed.

Lemma calm_handleDisconnect self w : calm self w (handleDisconnect self w).
Proof.
  unfold handleDisconnect. cbv zeta.
  eapply calm_trans; [apply calm_log|].
  eapply calm_trans; [apply (calm_object _ (set_ws None self)); reflexivity|].
  destruct (autoReconnect (set_ws None self) && _).
  - pose proof (calm_setState reconnecting (set_ws None self)
                  (log self "Disconnected" w)) as Hs.
    destruct (setState reconnecting _ _) as [self2 w2].
    eapply calm_trans; [exact Hs|apply calm_scheduleReconnect].
  - apply calm_setState.
Qed.

Lemma calm_connectFrom viaTimer self w :
  calm self w (fst (connectFrom viaTimer self w)).
Proof.
  unfold connectFrom.
  destruct (bool_decide (_state self = connected) || _); [apply calm_log|].
  pose proof (calm_setState connecting self w) as Hs.
  destruct (setState connecting self w) as [self1 w1].
  eapply calm_trans; [exact Hs|]. clear Hs.
  unfold construct. cbv zeta.
  set (w2 := log self1 _ w1).
  destruct (default None (head (constructs (script w2)))) as [x|].
  - set (w3 := withScript _ w2).
    pose proof (calm_setState error self1 w3) as Hs.
    destruct (setState error self1 w3) as [self2 w4]. cbn [fst].
    eapply calm_trans; [apply calm_log|].
    eapply calm_trans; [apply (calm_world _ _ w3); reflexivity|].
    eapply calm_trans; [exact Hs|apply calm_emitError].
  - unfold setTimeout. cbv zeta. cbn [fst].
    eapply calm_trans; [apply calm_log|].
    eapply calm_trans; [apply calm_world|apply calm_object]; reflexivity.
Qed.

Lemma calm_disconnect self w : calm self w (disconnect self w).
Proof.
  unfold disconnect. cbv zeta.
  eapply calm_trans; [apply calm_log|].
  eapply calm_trans;
    [apply (calm_object _ (set_autoReconnect false self)); reflexivity|].
  set (self1 := set_autoReconnect false self).
  set (w1 := log self "Disconnecting" w).
  destruct (reconnectTimeout self1) as [i|].
  - eapply calm_trans; [apply (calm_world _ _ (clearTimeout i w1)); reflexivity|].
    eapply calm_trans;
      [apply (calm_object _ (set_reconnectTimeout None self1)); reflexivity|].
    destruct (ws (set_reconnectTimeout None self1)) as [s|]; [|apply calm_setState].
    eapply calm_trans; [|apply calm_setState].
    eapply calm_trans; [apply (calm_world _ _ (close s (clearTimeout i w1)))|].
    + apply SocketQuiet.effects_updateSocket.
    + apply calm_object. reflexivity.
  - destruct (ws self1) as [s|]; [|apply calm_setState].
    eapply calm_trans; [|apply calm_setState].
    eapply calm_trans; [apply (calm_world _ _ (close s w1))|].
    + apply SocketQuiet.effects_updateSocket.
    + apply calm_object. reflexivity.
Qed.

Lemma calm_reconnectFailed self w : calm self w (reconnectFailed self w).
Proof.
  unfold reconnectFailed. eapply calm_trans; [apply calm_log|apply calm_handleDisconnect].
Qed.

Lemma calm_onerror s self w : calm self w (onerror s self w).
Proof.
  unfold onerror. cbv zeta.
  set (w3 := emitError _ self (log self _ (clearGuard s w))).
  assert (H3 : calm self w (self, w3)).
  { eapply calm_trans; [apply (calm_world _ _ (clearGuard s w)), SocketQuiet.effects_clearGuard|].
    eapply calm_trans; [apply calm_log|apply calm_emitError]. }
  pose proof (SocketQuiet.effects_reject s w3) as Hr.
  destruct (reject s w3) as [w4 caught]. cbn [fst] in Hr.
  eapply calm_trans; [exact H3|].
  eapply calm_trans; [apply (calm_world _ _ w4), Hr|].
  destruct caught; [apply calm_reconnectFailed|apply calm_refl].
Qed.

Lemma calm_onclose s self w : calm self w (onclose s self w).
Proof.
  unfold onclose.
  eapply calm_trans; [apply (calm_world _ _ (clearGuard s w)), SocketQuiet.effects_clearGuard|].
  apply calm_handleDisconnect.
Qed.

Lemma calm_connectionTimedOut s self w : calm self w (connectionTimedOut s self w).
Proof.
  unfold connectionTimedOut.
  pose proof (SocketQuiet.effects_reject s w) as Hr.
  destruct (reject s w) as [w1 caught]. cbn [fst] in Hr. cbv zeta.
  set (w2 := match ws self with Some current => close current w1 | None => w1 end).
  assert (H2 : effects w2 = effects w).
  { unfold w2. destruct (ws self); [|exact Hr].
    unfold close. rewrite SocketQuiet.effects_updateSocket. exact Hr. }
  eapply calm_trans; [apply (calm_world _ _ w2), H2|].
  destruct caught; [apply calm_reconnectFailed|apply calm_refl].
Qed.

Lemma calm_reconnectNow self w : calm self w (reconnectNow self w).
Proof.
  unfold reconnectNow. cbv zeta.
  set (self1 := set_reconnectAttempts _ self).
  eapply calm_trans; [apply (calm_object _ self1); reflexivity|].
  pose proof (calm_connectFrom true self1 w) as Hc.
  destruct (connectFrom true self1 w) as [[self2 w2] p]. cbn [fst] in Hc.
  destruct p; try exact Hc.
  eapply calm_trans; [exact Hc|apply calm_reconnectFailed].
Qed.

(** A calm step leaves the ledger as it is. *)
Lemma calm_ledger self w r : calm self w r -> ledger (fst r) (snd r) = ledger self w.
Proof. intros (Q & T). unfold ledger, attempts. rewrite Q, T. reflexivity. Qed.

Lemma calm_advances self w r : calm self w r -> advances self w r [].
Proof.
  intros Hc. unfold advances. rewrite (calm_ledger _ _ _ Hc), app_nil_r. reflexivity.
Qed.

Lemma attempts_world w w' : effects w' = effects w -> attempts w' = attempts w.
Proof. unfold attempts, transmissions. intros ->. reflexivity. Qed.

Lemma attempts_touches w w' : touches callSide w w' -> attempts w' = attempts w.
Proof.
  intros E. unfold attempts. rewrite (SocketGood.transmissions_touches _ _ E).
  reflexivity.
Qed.

Lemma attempts_log self line w : attempts (log self line w) = attempts w.
Proof. unfold attempts. rewrite log_transmissions. reflexivity. Qed.

Lemma attempts_emit s message ok w :
  attempts (emit (Transmit s message ok) w) = attempts w ++ [(message, ok)].
Proof.
  unfold attempts, transmissions. rewrite omap_emit. cbn [transmission].
  rewrite map_app. reflexivity.
Qed.

(** [send]: a write of the message is attempted at once, or the message
    joins the queue. *)
Lemma send_cases message self w :
  let r := fst (send message self w) in
  _state (fst r) = _state self /\ ws (fst r) = ws self /\
  ((_state self = connected /\ ws self <> None /\
    fst r = self /\ exists ok, attempts (snd r) = attempts w ++ [(message, ok)]) \/
   (~ (_state self = connected /\ ws self <> None) /\
    messageQueue (fst r) = messageQueue self ++ [message] /\
    attempts (snd r) = attempts w)).
Proof.
  cbv zeta. unfold send.
  destruct (bool_decide (_state self = connected)) eqn:Ec.
  - apply bool_decide_eq_true_1 in Ec. destruct (ws self) as [s|] eqn:Ew.
    + unfold write. cbv zeta. set (w1 := withScript _ w).
      destruct (default None (head (writes (script w)))) as [x|]; cbn [fst snd];
        (split; [reflexivity|]);
        (split; [first [reflexivity|exact Ew|symmetry; exact Ew]|]); left;
        (split; [exact Ec|]);
        (split; [first [discriminate|rewrite Ew; discriminate]|]);
        (split; [reflexivity|]).
      * exists false.
        rewrite (attempts_touches _ _ (SocketFacts.emitError_touches _ _ _)).
        rewrite attempts_log, attempts_emit. reflexivity.
      * exists true. rewrite attempts_log, attempts_emit. reflexivity.
    + cbn [fst snd]. split; [reflexivity|].
      split; [first [reflexivity|exact Ew|symmetry; exact Ew]|]. right.
      split; [intros (_ & H); first [contradiction|rewrite Ew in H; contradiction]|].
      split; [reflexivity|]. apply attempts_log.
  - apply bool_decide_eq_false_1 in Ec. cbn [fst snd].
    split; [reflexivity|]. split; [reflexivity|]. right.
    split; [intros (H & _); contradiction|].
    split; [reflexivity|]. apply attempts_log.
Qed.

Lemma advances_send message self w :
  advances self w (fst (send message self w)) [message].
Proof.
  unfold advances, ledger.
  destruct (send_cases message self w) as (_ & _ & H).
  destruct H as [(_ & _ & Hf & ok & Ha)|(_ & Hq & Ha)].
  - rewrite Hf, Ha, map_app. cbn [map fst]. rewrite <- !app_assoc.
    apply Permutation_app_head, Permutation_app_comm.
  - rewrite Hq, Ha, app_assoc. reflexivity.
Qed.

(** The loop of [flushMessageQueue]: a write of every entry is attempted,
    or every entry is put back, in order. *)
Lemma flushEach_cases queue : forall self w,
  let r := flushEach queue self w in
  _state (fst r) = _state self /\ ws (fst r) = ws self /\
  ((_state self = connected /\ ws self <> None /\
    fst r = self /\ map fst (attempts (snd r)) = map fst (attempts w) ++ queue) \/
   (~ (_state self = connected /\ ws self <> None) /\
    messageQueue (fst r) = messageQueue self ++ queue /\
    attempts (snd r) = attempts w)).
Proof.
  induction queue as [|m rest IH]; intros self w; cbv zeta.
  - cbn [flushEach fst snd]. split; [reflexivity|]. split; [reflexivity|].
    destruct (decide (_state self = connected /\ ws self <> None)) as [[Hc Hn]|Hn].
    + left. rewrite app_nil_r. auto.
    + right. rewrite app_nil_r. auto.
  - cbn [flushEach].
    pose proof (send_cases m self w) as Hs. cbv zeta in Hs.
    destruct (send m self w) as [[self1 w1] p]. cbn [fst snd] in Hs.
    destruct Hs as (Hst & Hws & Hcase).
    assert (Hgo : forall w1',
              attempts w1' = attempts w1 ->
              let r := flushEach rest self1 w1' in
              _state (fst r) = _state self /\ ws (fst r) = ws self /\
              ((_state self = connected /\ ws self <> None /\
                fst r = self /\
                map fst (attempts (snd r)) = map fst (attempts w) ++ m :: rest) \/
               (~ (_state self = connected /\ ws self <> None) /\
                messageQueue (fst r) = messageQueue self ++ m :: rest /\
                attempts (snd r) = attempts w))).
    { intros w1' Hw1'. cbv zeta.
      destruct (IH self1 w1') as (Ist & Iws & Icase).
      split; [congruence|]. split; [congruence|].
      destruct Hcase as [(Hc & Hn & Hf & ok & Hwr)|(Hn & Hq & Hwr)].
      - left. subst self1.
        destruct Icase as [(_ & _ & If & Iwr)|(In' & _)]; [|exfalso; apply In'; auto].
        split; [exact Hc|]. split; [exact Hn|]. split; [exact If|].
        rewrite Iwr, Hw1', Hwr, map_app, <- app_assoc. reflexivity.
      - right.
        destruct Icase as [(Ic & In' & _)|(_ & Iq & Iwr)];
          [exfalso; apply Hn; split; congruence|].
        split; [exact Hn|]. split; [rewrite Iq, Hq, <- app_assoc; reflexivity|].
        congruence. }
    destruct p; try (apply Hgo; reflexivity).
    apply Hgo. apply attempts_log.
Qed.

(** [flushMessageQueue] leaves the ledger as it is: each entry of the
    queue has moved to the attempts, or is back in the queue. *)
Lemma flushMessageQueue_ledger self w :
  ledger (fst (flushMessageQueue self w)) (snd (flushMessageQueue self w))
  = ledger self w.
Proof.
  unfold flushMessageQueue.
  destruct (length (messageQueue self) =? 0)%nat eqn:El; [reflexivity|].
  cbv zeta. set (w1 := log self _ w).
  destruct (flushEach_cases (messageQueue self) (set_messageQueue [] self) w1)
    as (_ & _ & Hcase).
  assert (Hw1 : attempts w1 = attempts w) by apply attempts_log.
  unfold ledger. destruct Hcase as [(_ & _ & Hf & Hwr)|(_ & Hq & Hwr)].
  - rewrite Hf, Hwr, Hw1. cbn [set_messageQueue set_registry messageQueue].
    rewrite app_nil_r. reflexivity.
  - rewrite Hq, Hwr, Hw1. reflexivity.
Qed.

Lemma onopen_ledger s self w :
  ledger (fst (onopen s self w)) (snd (onopen s self w)) = ledger self w.
Proof.
  unfold onopen. cbv zeta.
  pose proof (calm_ledger _ _ _ (calm_setState connected self (clearGuard s w))) as Hs.
  destruct (setState connected self (clearGuard s w)) as [self1 w2].
  cbn [fst snd] in Hs.
  set (self2 := set_reconnectAttempts 0 self1).
  pose proof (flushMessageQueue_ledger self2 (log self2 "Connected" w2)) as Hl.
  destruct (flushMessageQueue self2 (log self2 "Connected" w2)) as [self3 w4].
  cbn [fst snd] in *.
  unfold ledger in *.
  rewrite (attempts_world w4 (settle s w4)) by apply SocketQuiet.effects_updateSocket.
  rewrite Hl, attempts_log.
  change (messageQueue self2) with (messageQueue self1). rewrite Hs.
  rewrite (attempts_world w (clearGuard s w)) by apply SocketQuiet.effects_clearGuard.
  reflexivity.
Qed.

Lemma advances_deliver e self w : advances self w (deliver e self w) [].
Proof.
  unfold deliver. destruct (enabled e w); [|apply calm_advances, calm_refl].
  destruct e as [s|s|s|s data|i].
  - unfold advances. rewrite onopen_ledger, app_nil_r. unfold ledger.
    rewrite (attempts_world w (setReady OPEN s w))
      by apply SocketQuiet.effects_updateSocket.
    reflexivity.
  - apply calm_advances, calm_onerror.
  - apply calm_advances.
    eapply calm_trans;
      [apply (calm_world _ _ (setReady CLOSED s w)), SocketQuiet.effects_updateSocket|].
    apply calm_onclose.
  - apply calm_advances, calm_handleMessage.
  - destruct (timers w !! i) as [[s d|d]|]; [| |apply calm_advances, calm_refl].
    + apply calm_advances.
      eapply calm_trans; [apply (calm_world _ _ (clearTimeout i w)); reflexivity|].
      apply calm_connectionTimedOut.
    + apply calm_advances.
      eapply calm_trans; [apply (calm_world _ _ (clearTimeout i w)); reflexivity|].
      apply calm_reconnectNow.
Qed.

Lemma advances_step a self w :
  advances self w (step a (self, w)) (offered a w).
Proof.
  destruct a as [| |event|eventType cb|eventType cb|eventType
                 |eventType h|c cb|c cb| |message|e];
    cbn [step offered].
  - apply calm_advances, calm_connectFrom.
  - apply calm_advances. unfold TalonClient.disconnect.
    cbn [TalonTransport.disconnect WebSocketTransport_TalonTransport].
    pose proof (calm_disconnect self w) as Hd.
    destruct (disconnect self w) as [self1 w1].
    eapply calm_trans; [exact Hd|].
    unfold TalonClient.cleanup.
    cbn [TalonTransport.offMessage TalonTransport.offStateChange
         TalonTransport.offError WebSocketTransport_TalonTransport].
    eapply calm_trans; [apply (calm_world _ _ (TalonClient.setHandlers ∅ w1)); reflexivity|].
    apply calm_object; reflexivity.
  - unfold TalonClient.send.
    destruct (TalonClient.envelope event w) as [message w1] eqn:Ee.
    cbn [TalonTransport.send WebSocketTransport_TalonTransport fst].
    pose proof (advances_send message self (TalonClient.log "Sending message:" w1))
      as Ha.
    unfold advances in *. rewrite Ha. apply Permutation_app_tail.
    unfold ledger. apply Permutation_app_tail.
    unfold attempts, transmissions, TalonClient.log.
    rewrite omap_console_log by reflexivity.
    unfold TalonClient.envelope, TalonClient.generateId, Date_now, Math_random36 in Ee.
    inversion Ee. reflexivity.
  - apply calm_advances. split; [reflexivity|]. apply unseen_on. reflexivity.
  - apply calm_advances. split; [reflexivity|]. apply unseen_once. reflexivity.
  - apply calm_advances. split; [reflexivity|]. apply unseen_off. reflexivity.
  - apply calm_advances. split; [reflexivity|]. apply unseen_unsubscribe. reflexivity.
  - apply calm_advances. destruct c; apply calm_object; reflexivity.
  - apply calm_advances. destruct c; apply calm_object; reflexivity.
  - apply calm_advances, calm_disconnect.
  - apply advances_send.
  - apply advances_deliver.
Qed.

Lemma ledger_run actions : forall self w,
  Permutation (ledger (fst (run actions (self, w))) (snd (run actions (self, w))))
    (ledger self w ++ offeredBy actions (self, w)).
Proof.
  induction actions as [|a rest IH]; intros self w.
  - cbn. rewrite app_nil_r. reflexivity.
  - unfold run in *. cbn [fold_left offeredBy snd].
    pose proof (advances_step a self w) as H1. unfold advances in H1.
    destruct (step a (self, w)) as [self1 w1]. cbn [fst snd] in H1.
    rewrite IH, H1, <- app_assoc. reflexivity.
Qed.

(** Splitting the attempts into the writes that returned and those that
    threw loses nothing. *)
Lemma attempts_split (l : list (OutboundMessage.t * bool)) :
  Permutation
    (omap (fun a : OutboundMessage.t * bool => if snd a then Some (fst a) else None) l
     ++ omap (fun a : OutboundMessage.t * bool => if snd a then None else Some (fst a)) l)
    (map fst l).
Proof.
  induction l as [|[m ok] rest IH]; [reflexivity|].
  cbn [omap list_omap map fst snd]. destruct ok; cbn [app].
  - apply Permutation_cons; [reflexivity|exact IH].
  - rewrite <- Permutation_middle. apply Permutation_cons; [reflexivity|exact IH].
Qed.

Lemma accounted_ledger self w : Permutation (accounted self w) (ledger self w).
Proof.
  unfold accounted, ledger, written, dropped. rewrite app_assoc.
  apply Permutation_app_tail, attempts_split.
Qed.

End SocketLedger.

(** X12.  The socket transport accounts for every message handed to
    [send]: along any sequence of calls by the application and of host
    events, from any state, the messages handed to a socket, those
    dropped because [JSON.stringify] or [ws.send] threw, and those still
    queued are together, counted with repetitions, the ones accounted for
    before and the messages handed to [send] since.  No message is
    duplicated, and none disappears unless its write threw. *)
Theorem socket_messages_are_accounted_for (actions : list Action)
    (self : WebSocketTransport.t) (w : World) :
  Permutation
    (accounted (fst (run actions (self, w))) (snd (run actions (self, w))))
    (accounted self w ++ offeredBy actions (self, w)).
Proof.
  rewrite !SocketLedger.accounted_ledger. apply SocketLedger.ledger_run.
Qed.

Lemma socket_messages_are_accounted_for_witness :
  let actions := [TransportSend (numbered 1); Connect; TransportSend (numbered 2);
                  Happens (SocketOpen 0); TransportSend (numbered 3);
                  TransportDisconnect; TransportSend (numbered 4)] in
  let r := run actions (socketClient secondWriteFails) in
  written (snd r) = [numbered 1; numbered 3] /\
  dropped (snd r) = [numbered 2] /\
  WebSocketTransport.messageQueue (fst r) = [numbered 4] /\
  Permutation (accounted (fst r) (snd r))
    [numbered 1; numbered 2; numbered 3; numbered 4].
Proof.
  intros actions r.
  split; [vm_compute; reflexivity|]. split; [vm_compute; reflexivity|].
  split; [vm_compute; reflexivity|].
  exact (socket_messages_are_accounted_for actions
           (fst (socketClient secondWriteFails)) (snd (socketClient secondWriteFails))).
Defined.

(** * Beyond the claims: connecting and receiving on the socket transport *)

Module SocketConnect.
Import WebSocketTransport.

Lemma setState_hostOf s self w : hostOf (snd (setState s self w)) = hostOf w.
Proof. apply (touches_hostOf callSide), SocketFacts.setState_touches. Qed.

Lemma setState_observerCalls s self w :
  _state self <> s ->
  observerCalls (snd (setState s self w))
  = observerCalls w ++ map (fun o => (observerFn o, ArgState s)) (stateHandlers self).
Proof.
  intros Hs. unfold setState. rewrite bool_decide_eq_false_2 by exact Hs.
  cbn [snd]. apply observerCalls_notify. reflexivity.
Qed.

Lemma emitError_hostOf e self w : hostOf (emitError e self w) = hostOf w.
Proof. apply (touches_hostOf callSide), SocketFacts.emitError_touches. Qed.

End SocketConnect.

(** X13.  [connect()] on the socket transport.  While the state is
    [connected] or [connecting] it resolves at once and changes nothing:
    no socket is made and no observer is called.  Otherwise, when the
    [WebSocket] constructor returns, the state observers are told
    [connecting] once each, one socket is made and held, the connection
    timeout is armed with [connectionTimeout] ms, and the promise stays
    pending. *)
Theorem socket_connect_dials (self : WebSocketTransport.t) (w : World) :
  (WebSocketTransport._state self = connected \/
   WebSocketTransport._state self = connecting ->
   let '(self', w', p) := WebSocketTransport.connect self w in
   p = Resolved /\ self' = self /\ hostOf w' = hostOf w /\
   observerCalls w' = observerCalls w) /\
  (WebSocketTransport._state self <> connected ->
   WebSocketTransport._state self <> connecting ->
   default None (head (constructs (script w))) = None ->
   let '(self', w', p) := WebSocketTransport.connect self w in
   let s := length (sockets w) in
   p = Pending /\
   WebSocketTransport._state self' = connecting /\
   WebSocketTransport.ws self' = Some s /\
   sockets w' = sockets w ++ [{| readyState := CONNECTING; settled := false;
                                 retrying := false; guard := S (timerIds w) |}] /\
   timers w'
   = <[S (timerIds w) :=
         ConnectionTimer s (WebSocketTransport.connectionTimeout self)]> (timers w) /\
   observerCalls w'
   = observerCalls w
     ++ map (fun o => (observerFn o, ArgState connecting))
          (WebSocketTransport.stateHandlers self)).
Proof.
  split.
  - intros Hs. unfold WebSocketTransport.connect, WebSocketTransport.connectFrom.
    assert (Hb : bool_decide (WebSocketTransport._state self = connected)
                 || bool_decide (WebSocketTransport._state self = connecting) = true).
    { destruct Hs as [-> | ->]; reflexivity. }
    rewrite Hb. split; [reflexivity|]. split; [reflexivity|].
    split; [apply SocketFacts.log_hostOf|apply SocketFacts.log_observerCalls].
  - intros H1 H2 Hc. unfold WebSocketTransport.connect, WebSocketTransport.connectFrom.
    rewrite !bool_decide_eq_false_2 by assumption. cbn [orb].
    pose proof (SocketFacts.setState_fst connecting self w) as Hf.
    pose proof (SocketConnect.setState_hostOf connecting self w) as Hh.
    pose proof (SocketConnect.setState_observerCalls connecting self w H2) as Ho.
    destruct (WebSocketTransport.setState connecting self w) as [self1 w1].
    cbn [fst snd] in Hf, Hh, Ho. subst self1.
    set (self1 := WebSocketTransport.set_state connecting self).
    set (w2 := WebSocketTransport.log self1 _ w1).
    assert (Hh2 : hostOf w2 = hostOf w).
    { unfold w2. rewrite SocketFacts.log_hostOf. exact Hh. }
    assert (Ho2 : observerCalls w2 = observerCalls w1).
    { apply SocketFacts.log_observerCalls. }
    destruct (hostOf_parts _ _ Hh2) as (Es & Et & Ei & Esc).
    unfold WebSocketTransport.construct. cbv zeta. rewrite Esc, Hc.
    unfold WebSocketTransport.setTimeout. cbv zeta.
    cbn [withScript withTimers withSockets sockets timers timerIds length].
    split; [reflexivity|]. split; [reflexivity|].
    split; [cbn; rewrite Es; reflexivity|].
    split; [rewrite Es, Ei; reflexivity|].
    split; [rewrite Es, Ei, Et; reflexivity|].
    unfold observerCalls in *. cbn [effects withSockets withTimers withScript].
    rewrite Ho2. exact Ho.
Qed.

Lemma socket_connect_dials_witness :
  let self := fst (observedSocket) in
  let w := snd (observedSocket) in
  WebSocketTransport._state self <> connected /\
  WebSocketTransport._state self <> connecting /\
  snd (WebSocketTransport.connect self w) = Pending /\
  observerCalls (snd (fst (WebSocketTransport.connect self w)))
  = observerCalls w ++ [(BoundMethod, ArgState connecting);
                        (Supplied 6, ArgState connecting)] /\
  snd (WebSocketTransport.connect (fst (fst (WebSocketTransport.connect self w)))
         (snd (fst (WebSocketTransport.connect self w)))) = Resolved.
Proof.
  intros self w.
  assert (H1 : WebSocketTransport._state self <> connected) by (vm_compute; discriminate).
  assert (H2 : WebSocketTransport._state self <> connecting) by (vm_compute; discriminate).
  assert (H3 : default None (head (constructs (script w))) = None)
    by (vm_compute; reflexivity).
  split; [exact H1|]. split; [exact H2|].
  pose proof (proj2 (socket_connect_dials self w) H1 H2 H3) as Hd.
  destruct (WebSocketTransport.connect self w) as [[self' w'] p]. cbn [fst snd].
  destruct Hd as (Hp & Hs & _ & _ & _ & Ho).
  split; [exact Hp|]. split; [rewrite Ho; vm_compute; reflexivity|].
  pose proof (proj1 (socket_connect_dials self' w') (or_intror Hs)) as Hn.
  destruct (WebSocketTransport.connect self' w') as [[self'' w''] p'].
  exact (proj1 Hn).
Defined.

(** X14.  [connect()] when the [WebSocket] constructor throws: the state
    observers are told [connecting] and then [error], the error observers
    are told the error (a thrown non-Error is replaced by "Unknown
    error"), the promise rejects with it, and neither a socket nor a timer
    is made: no reconnect is scheduled. *)
Theorem socket_connect_constructor_throws (self : WebSocketTransport.t) (w : World)
    (x : Thrown) :
  WebSocketTransport._state self <> connected ->
  WebSocketTransport._state self <> connecting ->
  head (constructs (script w)) = Some (Some x) ->
  let '(self', w', p) := WebSocketTransport.connect self w in
  let err := instanceofError "Unknown error" x in
  p = Rejected err /\
  WebSocketTransport._state self' = error /\
  WebSocketTransport.ws self' = WebSocketTransport.ws self /\
  sockets w' = sockets w /\ timers w' = timers w /\
  observerCalls w'
  = observerCalls w
    ++ map (fun o => (observerFn o, ArgState connecting))
         (WebSocketTransport.stateHandlers self)
    ++ map (fun o => (observerFn o, ArgState error))
         (WebSocketTransport.stateHandlers self)
    ++ map (fun o => (observerFn o, ArgError err))
         (WebSocketTransport.errorHandlers self).
Proof.
  intros H1 H2 Hc. unfold WebSocketTransport.connect, WebSocketTransport.connectFrom.
  rewrite !bool_decide_eq_false_2 by assumption. cbn [orb].
  pose proof (SocketFacts.setState_fst connecting self w) as Hf.
  pose proof (SocketConnect.setState_hostOf connecting self w) as Hh.
  pose proof (SocketConnect.setState_observerCalls connecting self w H2) as Ho.
  destruct (WebSocketTransport.setState connecting self w) as [self1 w1].
  cbn [fst snd] in Hf, Hh, Ho. subst self1.
  set (self1 := WebSocketTransport.set_state connecting self).
  set (w2 := WebSocketTransport.log self1 _ w1).
  assert (Hh2 : hostOf w2 = hostOf w).
  { unfold w2. rewrite SocketFacts.log_hostOf. exact Hh. }
  assert (Ho2 : observerCalls w2 = observerCalls w1).
  { apply SocketFacts.log_observerCalls. }
  destruct (hostOf_parts _ _ Hh2) as (Es & Et & Ei & Esc).
  unfold WebSocketTransport.construct. cbv zeta. rewrite Esc, Hc. cbn [default].
  set (w3 := withScript _ w2).
  pose proof (SocketFacts.setState_fst error self1 w3) as Hf'.
  pose proof (SocketConnect.setState_hostOf error self1 w3) as Hh'.
  pose proof (SocketConnect.setState_observerCalls error self1 w3) as Ho'.
  destruct (WebSocketTransport.setState error self1 w3) as [self2 w4].
  cbn [fst snd] in Hf', Hh', Ho'. subst self2. cbv zeta.
  split; [reflexivity|]. split; [reflexivity|]. split; [reflexivity|].
  pose proof (SocketConnect.emitError_hostOf (instanceofError "Unknown error" x)
                (WebSocketTransport.set_state error self1) w4) as Hh5.
  destruct (hostOf_parts _ _ Hh5) as (Es5 & Et5 & _).
  destruct (hostOf_parts _ _ Hh') as (Es4 & Et4 & _).
  split; [rewrite Es5, Es4; exact Es|]. split; [rewrite Et5, Et4; exact Et|].
  unfold WebSocketTransport.emitError. rewrite observerCalls_notify by reflexivity.
  rewrite Ho' by discriminate.
  change (observerCalls w3) with (observerCalls w2). rewrite Ho2, Ho.
  rewrite <- !app_assoc. reflexivity.
Qed.

Lemma socket_connect_constructor_throws_witness :
  let self := fst (run [Observe States (returning 6); Observe Errors (returning 7)]
                     (socketClient badUrl)) in
  let w := snd (run [Observe States (returning 6); Observe Errors (returning 7)]
                  (socketClient badUrl)) in
  let err := {| name := "SyntaxError"; message := "invalid url" |} in
  snd (WebSocketTransport.connect self w) = Rejected err /\
  WebSocketTransport._state (fst (fst (WebSocketTransport.connect self w))) = error /\
  sockets (snd (fst (WebSocketTransport.connect self w))) = [] /\
  observerCalls (snd (fst (WebSocketTransport.connect self w)))
  = [(BoundMethod, ArgState connecting); (Supplied 6, ArgState connecting);
     (BoundMethod, ArgState error); (Supplied 6, ArgState error);
     (BoundMethod, ArgError err); (Supplied 7, ArgError err)].
Proof.
  intros self w err.
  assert (H1 : WebSocketTransport._state self <> connected) by (vm_compute; discriminate).
  assert (H2 : WebSocketTransport._state self <> connecting) by (vm_compute; discriminate).
  assert (H3 : head (constructs (script w)) = Some (Some (ThrowError err)))
    by (vm_compute; reflexivity).
  pose proof (socket_connect_constructor_throws self w (ThrowError err) H1 H2 H3) as Hd.
  destruct (WebSocketTransport.connect self w) as [[self' w'] p]. cbn [fst snd].
  destruct Hd as (Hp & Hs & _ & Hso & _ & Ho).
  split; [exact Hp|]. split; [exact Hs|].
  split; [rewrite Hso; vm_compute; reflexivity|].
  rewrite Ho. vm_compute. reflexivity.
Defined.



Lemma client_notify_detached dbg prefix line a observers : forall w,
  detached observers ->
  client (notify dbg prefix line observers a w) = client w.
Proof.
  induction observers as [|o rest IH]; intros w Hd; [reflexivity|].
  inversion Hd as [|? ? Ho Hrest]; subst. cbn [notify].
  destruct o as [cb|]; [|contradiction]. cbn [observe call].
  rewrite IH by exact Hrest.
  destruct (body cb a); [|reflexivity].
  unfold console_log. destruct dbg; reflexivity.
Qed.

Lemma notify_app dbg prefix line a xs ys w :
  notify dbg prefix line (xs ++ ys) a w
  = notify dbg prefix line ys a (notify dbg prefix line xs a w).
Proof.
  revert w. induction xs as [|o rest IH]; intros w; [reflexivity|].
  cbn [app notify]. destruct (observe o a w) as [w1 r]. apply IH.
Qed.

(** X16.  Frames received on an open socket.  A frame that parses is
    passed to every message observer once, in registration order, whether
    or not one of them throws; a frame that does not parse is passed to no
    message observer, and every error observer is told "Invalid message
    format".  Neither changes the transport, the sockets or the timers. *)
Theorem socket_frame_dispatch (self : WebSocketTransport.t) (w : World)
    (s : nat) (k : Socket) :
  sockets w !! s = Some k -> readyState k = OPEN ->
  (forall m,
     let (self', w') := WebSocketTransport.deliver
                          (SocketMessage s (WellFormed m)) self w in
     self' = self /\ hostOf w' = hostOf w /\
     observerCalls w'
     = observerCalls w
       ++ map (fun o => (observerFn o, ArgMessage m))
            (WebSocketTransport.messageHandlers self)) /\
  (let (self', w') := WebSocketTransport.deliver (SocketMessage s Malformed) self w in
   self' = self /\ hostOf w' = hostOf w /\
   observerCalls w'
   = observerCalls w
     ++ map (fun o => (observerFn o, ArgError (new_Error "Invalid message format")))
          (WebSocketTransport.errorHandlers self)).
Proof.
  intros Hs Hr.
  assert (He : forall data, WebSocketTransport.enabled (SocketMessage s data) w = true).
  { intros data. unfold WebSocketTransport.enabled. rewrite Hs, Hr. reflexivity. }
  split.
  - intros m. unfold WebSocketTransport.deliver. rewrite He.
    unfold WebSocketTransport.onmessage, WebSocketTransport.handleMessage.
    split; [reflexivity|]. split.
    + rewrite (touches_hostOf callSide _ _
                 (touches_notify _ _ _ _ (ArgMessage m) _ eq_refl)).
      apply SocketFacts.log_hostOf.
    + rewrite observerCalls_notify by reflexivity.
      rewrite SocketFacts.log_observerCalls. reflexivity.
  - unfold WebSocketTransport.deliver. rewrite He.
    unfold WebSocketTransport.onmessage, WebSocketTransport.handleMessage.
    split; [reflexivity|]. split.
    + rewrite SocketConnect.emitError_hostOf. apply SocketFacts.log_hostOf.
    + unfold WebSocketTransport.emitError. rewrite observerCalls_notify by reflexivity.
      rewrite SocketFacts.log_observerCalls. reflexivity.
Qed.

Lemma socket_frame_dispatch_witness :
  let self := fst (run [Connect; Happens (SocketOpen 0)] observedSocket) in
  let w := snd (run [Connect; Happens (SocketOpen 0)] observedSocket) in
  sockets w !! 0%nat
  = Some {| readyState := OPEN; settled := true; retrying := false; guard := 1 |} /\
  observerCalls (snd (WebSocketTransport.deliver
                        (SocketMessage 0 (WellFormed (testEvent 1))) self w))
  = observerCalls w ++ [(BoundMethod, ArgMessage (testEvent 1));
                        (Supplied 4, ArgMessage (testEvent 1));
                        (Supplied 5, ArgMessage (testEvent 1))] /\
  observerCalls (snd (WebSocketTransport.deliver (SocketMessage 0 Malformed) self w))
  = observerCalls w ++ [(BoundMethod, ArgError (new_Error "Invalid message format"));
                        (Supplied 7, ArgError (new_Error "Invalid message format"))].
Proof.
  intros self w.
  assert (Hs : sockets w !! 0%nat
               = Some {| readyState := OPEN; settled := true;
                         retrying := false; guard := 1 |})
    by (vm_compute; reflexivity).
  split; [exact Hs|].
  destruct (socket_frame_dispatch self w 0 _ Hs eq_refl) as (H1 & H2).
  specialize (H1 (testEvent 1)).
  destruct (WebSocketTransport.deliver (SocketMessage 0 (WellFormed (testEvent 1))) self w)
    as [self1 w1].
  destruct (WebSocketTransport.deliver (SocketMessage 0 Malformed) self w)
    as [self2 w2].
  cbn [snd]. destruct H1 as (_ & _ & H1), H2 as (_ & _ & H2).
  split; [rewrite H1|rewrite H2]; f_equal.
Defined.

(** X5.  From the socket to the handlers: on a transport whose message
    observers are the client's bound method and any listeners of the
    application, a frame that parses reaches every plain handler
    registered for its type, once each and in registration order, with the
    data of the message, whether or not any of them throws; no other
    handler of the client is called. *)
Theorem inbound_message_reaches_handlers (self : WebSocketTransport.t) (w : World)
    (s : nat) (k : Socket) (m : InboundMessage.t) (pre post : list Observer) :
  sockets w !! s = Some k -> readyState k = OPEN ->
  WebSocketTransport.messageHandlers self = pre ++ Bound :: post ->
  detached pre -> detached post ->
  Forall isPlain (TalonClient.registered (InboundMessage.type m) w) ->
  handlerCalls (snd (WebSocketTransport.deliver
                       (SocketMessage s (WellFormed m)) self w))
  = handlerCalls w
    ++ map (fun h => (handlerFn h, ArgData (InboundMessage.data m)))
         (TalonClient.registered (InboundMessage.type m) w).
Proof.
  intros Hs Hr Hm Hpre Hpost Hp.
  unfold WebSocketTransport.deliver, WebSocketTransport.enabled.
  rewrite Hs, Hr. cbn [bool_decide decide_rel].
  rewrite bool_decide_eq_true_2 by reflexivity.
  unfold WebSocketTransport.onmessage, WebSocketTransport.handleMessage. cbn [snd].
  rewrite Hm, notify_app.
  set (w0 := WebSocketTransport.log self "Received message:" w).
  set (w1 := notify _ _ _ pre _ w0).
  assert (Hc1 : client w1 = client w).
  { unfold w1. rewrite client_notify_detached by exact Hpre.
    unfold w0, WebSocketTransport.log, console_log.
    destruct (WebSocketTransport.debug self); reflexivity. }
  assert (Hh1 : handlerCalls w1 = handlerCalls w).
  { unfold w1. rewrite handlerCalls_notify_detached; [|reflexivity|exact Hpre].
    unfold w0, WebSocketTransport.log. apply handlerCalls_console_log. }
  cbn [notify observe].
  rewrite handlerCalls_notify_detached; [|reflexivity|exact Hpost].
  set (w2 := emit (Invoked BoundMethod (ArgMessage m)) w1).
  assert (Hc2 : client w2 = client w) by exact Hc1.
  assert (Hh2 : handlerCalls w2 = handlerCalls w).
  { unfold w2, handlerCalls. rewrite omap_emit. cbn [handlerCall clientArg].
    rewrite app_nil_r. exact Hh1. }
  destruct (handleMessage_calls_each_handler m w2) as (H1 & _).
  { unfold TalonClient.registered. rewrite Hc2. exact Hp. }
  rewrite H1, Hh2. unfold TalonClient.registered. rewrite Hc2. reflexivity.
Qed.

Lemma inbound_message_reaches_handlers_witness :
  let self := fst (run [On "test_event" (throwing 1); On "test_event" (returning 2);
                        On "other_event" (returning 3);
                        Connect; Happens (SocketOpen 0)] observedSocket) in
  let w := snd (run [On "test_event" (throwing 1); On "test_event" (returning 2);
                     On "other_event" (returning 3);
                     Connect; Happens (SocketOpen 0)] observedSocket) in
  WebSocketTransport.messageHandlers self
  = [] ++ Bound :: [Listener (throwing 4); Listener (returning 5)] /\
  handlerCalls (snd (WebSocketTransport.deliver
                       (SocketMessage 0 (WellFormed (testEvent 1))) self w))
  = handlerCalls w
    ++ [(Supplied 1, ArgData (InboundMessage.data (testEvent 1)));
        (Supplied 2, ArgData (InboundMessage.data (testEvent 1)))].
Proof.
  intros self w.
  assert (Hm : WebSocketTransport.messageHandlers self
               = [] ++ Bound :: [Listener (throwing 4); Listener (returning 5)])
    by (vm_compute; reflexivity).
  assert (Hs : sockets w !! 0%nat
               = Some {| readyState := OPEN; settled := true;
                         retrying := false; guard := 1 |})
    by (vm_compute; reflexivity).
  split; [exact Hm|].
  rewrite (inbound_message_reaches_handlers self w 0 _ (testEvent 1) [] _ Hs eq_refl Hm).
  - f_equal.
  - constructor.
  - repeat constructor; discriminate.
  - vm_compute. repeat constructor.
Defined.

(** X17.  A second [disconnect()] does nothing but log: the transport
    object is the one the first call left, whatever happened to the world
    in between, no observer is called and no socket or timer is touched.
    The first call keeps the queue and the observer sets. *)
Theorem socket_disconnect_idempotent (self : WebSocketTransport.t) (w w' : World) :
  let self1 := fst (WebSocketTransport.disconnect self w) in
  WebSocketTransport.messageQueue self1 = WebSocketTransport.messageQueue self /\
  registryOf self1 = registryOf self /\
  fst (WebSocketTransport.disconnect self1 w') = self1 /\
  hostOf (snd (WebSocketTransport.disconnect self1 w')) = hostOf w' /\
  observerCalls (snd (WebSocketTransport.disconnect self1 w')) = observerCalls w'.
Proof.
  cbv zeta.
  pose proof (SocketGood.disconnect_settles self w) as Hd.
  pose proof (SocketLedger.calm_disconnect self w) as (Hq & _).
  pose proof (SocketQuiet.kq_disconnect self w) as (Hreg & _).
  destruct (WebSocketTransport.disconnect self w) as [self1 w1].
  cbn [fst snd] in *. destruct Hd as (Hs & Ha & Ht & Hw & _).
  split; [exact Hq|]. split; [exact Hreg|].
  destruct self1 as [u sock st auto rd mx att tm ct dbg ms ss es q].
  cbn in Hs, Ha, Ht, Hw. subst st auto tm sock.
  unfold WebSocketTransport.disconnect, WebSocketTransport.setState. cbv zeta.
  cbn -[WebSocketTransport.log hostOf observerCalls].
  split; [reflexivity|].
  split; [apply SocketFacts.log_hostOf|apply SocketFacts.log_observerCalls].
Qed.

(** * Beyond the claims: observer sets and options *)

Lemma add_idem {A} (ident : A -> Fn) x s :
  add ident x (add ident x s) = add ident x s.
Proof.
  unfold add at 1. rewrite has_add. reflexivity.
Qed.

Lemma has_remove {A} (ident : A -> Fn) x s : has ident x (remove ident x s) = false.
Proof.
  destruct (has ident x (remove ident x s)) eqn:E; [|reflexivity].
  apply has_true_iff in E. exfalso. exact (remove_absent ident x s E).
Qed.

(** X18.  Observers of a transport ([onMessage], [onStateChange],
    [onError] and the closures they return), on both transports:
    registering a function that is already in the set changes nothing;
    the closure removes the function from the set, and when the function
    was not registered before, it restores the transport exactly. *)
Theorem observer_registration_round_trip (c : Channel) (handler : Callback) (w : World) :
  (forall self : WebSocketTransport.t,
     step (Observe c handler) (step (Observe c handler) (self, w))
     = step (Observe c handler) (self, w) /\
     has observerFn (Listener handler)
       (socketObservers c (fst (step (Unobserve c handler) (self, w)))) = false /\
     (has observerFn (Listener handler) (socketObservers c self) = false ->
      step (Unobserve c handler) (step (Observe c handler) (self, w)) = (self, w))) /\
  (forall self : WebhookTransport.t,
     step (Observe c handler) (step (Observe c handler) (self, w))
     = step (Observe c handler) (self, w) /\
     has observerFn (Listener handler)
       (webhookObservers c (fst (step (Unobserve c handler) (self, w)))) = false /\
     (has observerFn (Listener handler) (webhookObservers c self) = false ->
      step (Unobserve c handler) (step (Observe c handler) (self, w)) = (self, w))).
Proof.
  split; intros self; (split; [|split]).
  - destruct c; cbn [step TalonTransport.onMessage TalonTransport.onStateChange
                     TalonTransport.onError WebSocketTransport_TalonTransport];
      unfold WebSocketTransport.onMessage, WebSocketTransport.onStateChange,
        WebSocketTransport.onError, WebSocketTransport.set_registry; cbn -[has remove add];
      rewrite add_idem; reflexivity.
  - destruct c; cbn -[has remove add];
      unfold WebSocketTransport.offMessage, WebSocketTransport.offStateChange,
        WebSocketTransport.offError, WebSocketTransport.set_registry;
      cbn -[has remove add]; apply has_remove.
  - intros Hf. destruct self; destruct c; cbn -[has remove add] in *;
      unfold WebSocketTransport.offMessage, WebSocketTransport.onMessage,
        WebSocketTransport.offStateChange, WebSocketTransport.onStateChange,
        WebSocketTransport.offError, WebSocketTransport.onError,
        WebSocketTransport.set_registry; cbn -[has remove add];
      rewrite remove_add_fresh by exact Hf; reflexivity.
  - destruct c; cbn [step TalonTransport.onMessage TalonTransport.onStateChange
                     TalonTransport.onError WebhookTransport_TalonTransport];
      unfold WebhookTransport.onMessage, WebhookTransport.onStateChange,
        WebhookTransport.onError, WebhookTransport.set_handlers; cbn -[has remove add];
      rewrite add_idem; reflexivity.
  - destruct c; cbn -[has remove add];
      unfold WebhookTransport.offMessage, WebhookTransport.offStateChange,
        WebhookTransport.offError, WebhookTransport.set_handlers;
      cbn -[has remove add]; apply has_remove.
  - intros Hf. destruct self; destruct c; cbn -[has remove add] in *;
      unfold WebhookTransport.offMessage, WebhookTransport.onMessage,
        WebhookTransport.offStateChange, WebhookTransport.onStateChange,
        WebhookTransport.offError, WebhookTransport.onError,
        WebhookTransport.set_handlers; cbn -[has remove add];
      rewrite remove_add_fresh by exact Hf; reflexivity.
Qed.

Lemma observer_registration_round_trip_witness :
  has observerFn (Listener (returning 9)) (socketObservers States (fst observedSocket))
  = false /\
  step (Unobserve States (returning 9)) (step (Observe States (returning 9)) observedSocket)
  = observedSocket.
Proof.
  assert (Hf : has observerFn (Listener (returning 9))
                 (socketObservers States (fst observedSocket)) = false)
    by (vm_compute; reflexivity).
  split; [exact Hf|].
  exact (proj2 (proj2 (proj1 (observer_registration_round_trip States (returning 9)
                                (snd observedSocket)) (fst observedSocket))) Hf).
Defined.

(** X19.  Request headers of the webhook transport: "Content-Type" is
    "application/json" unless the caller's headers give it another value,
    and every header of the caller is kept as given. *)
Theorem webhook_headers_merge (options : WebhookTransport.Options.t) :
  let given := default ∅ (WebhookTransport.Options.headers options) in
  let sent := WebhookTransport.headers (WebhookTransport.constructor options) in
  sent !! "Content-Type"%string
  = Some (default "application/json"%string (given !! "Content-Type"%string)) /\
  (forall key value, given !! key = Some value -> sent !! key = Some value) /\
  (forall key, key <> "Content-Type"%string -> sent !! key = given !! key).
Proof.
  cbv zeta. cbn [WebhookTransport.constructor WebhookTransport.headers].
  set (given := default ∅ (WebhookTransport.Options.headers options)).
  split; [|split].
  - rewrite lookup_union. destruct (given !! "Content-Type"%string) as [v|] eqn:E.
    + rewrite lookup_singleton_eq. reflexivity.
    + rewrite lookup_singleton_eq. reflexivity.
  - intros key value Hk. apply lookup_union_Some_l. exact Hk.
  - intros key Hne. rewrite lookup_union, lookup_singleton_ne by congruence.
    destruct (given !! key); reflexivity.
Qed.

(** * Beyond the claims: the socket's open and error events *)

(** X20.  The error event of a socket made by a direct [connect()]: the
    connection timeout is cleared, every error observer is told
    "WebSocket connection error" once, and the pending promise is
    settled; the transport itself is left as it is (its state changes
    only when the close event follows). *)
Theorem socket_error_reports_only (self : WebSocketTransport.t) (w : World)
    (s : nat) (k : Socket) :
  sockets w !! s = Some k ->
  readyState k <> CLOSED ->
  retrying k = false ->
  let (self', w') := WebSocketTransport.deliver (SocketError s) self w in
  self' = self /\
  timers w' = delete (guard k) (timers w) /\
  sockets w' !! s = Some {| readyState := readyState k; settled := true;
                            retrying := false; guard := guard k |} /\
  observerCalls w'
  = observerCalls w
    ++ map (fun o => (observerFn o, ArgError (new_Error "WebSocket connection error")))
         (WebSocketTransport.errorHandlers self).
Proof.
  intros Hs Hr Hre.
  unfold WebSocketTransport.deliver, WebSocketTransport.enabled.
  rewrite Hs, bool_decide_eq_false_2 by exact Hr. cbn [negb].
  unfold WebSocketTransport.onerror. cbv zeta.
  set (w1 := WebSocketTransport.clearGuard s w).
  set (w3 := WebSocketTransport.emitError _ self _).
  assert (H1 : sockets w1 = sockets w /\ timers w1 = delete (guard k) (timers w) /\
               observerCalls w1 = observerCalls w).
  { unfold w1, WebSocketTransport.clearGuard. rewrite Hs. auto. }
  destruct H1 as (S1 & T1 & O1).
  assert (Hh : hostOf w3 = hostOf w1).
  { unfold w3. rewrite SocketConnect.emitError_hostOf. apply SocketFacts.log_hostOf. }
  destruct (hostOf_parts _ _ Hh) as (S3 & T3 & _).
  assert (O3 : observerCalls w3
               = observerCalls w
                 ++ map (fun o => (observerFn o,
                                   ArgError (new_Error "WebSocket connection error")))
                      (WebSocketTransport.errorHandlers self)).
  { unfold w3, WebSocketTransport.emitError.
    rewrite observerCalls_notify by reflexivity.
    rewrite SocketFacts.log_observerCalls, O1. reflexivity. }
  clearbody w3 w1. unfold WebSocketTransport.reject. rewrite S3, S1, Hs, Hre, andb_false_r.
  split; [reflexivity|].
  unfold WebSocketTransport.settle, WebSocketTransport.updateSocket.
  rewrite S3, S1, Hs. cbn [withSockets timers sockets].
  split; [rewrite T3; exact T1|]. split.
  - rewrite ?S3, ?S1, ?Hre. apply list_lookup_insert_eq. apply lookup_lt_Some in Hs. exact Hs.
  - exact O3.
Qed.

Lemma socket_error_reports_only_witness :
  let self := fst (run [Connect] observedSocket) in
  let w := snd (run [Connect] observedSocket) in
  sockets w !! 0%nat
  = Some {| readyState := CONNECTING; settled := false; retrying := false; guard := 1 |} /\
  fst (WebSocketTransport.deliver (SocketError 0) self w) = self /\
  timers (snd (WebSocketTransport.deliver (SocketError 0) self w)) = ∅ /\
  observerCalls (snd (WebSocketTransport.deliver (SocketError 0) self w))
  = observerCalls w
    ++ [(BoundMethod, ArgError (new_Error "WebSocket connection error"));
        (Supplied 7, ArgError (new_Error "WebSocket connection error"))].
Proof.
  intros self w.
  assert (Hs : sockets w !! 0%nat
               = Some {| readyState := CONNECTING; settled := false;
                         retrying := false; guard := 1 |})
    by (vm_compute; reflexivity).
  split; [exact Hs|].
  assert (Hr : readyState {| readyState := CONNECTING; settled := false;
                             retrying := false; guard := 1 |} <> CLOSED)
    by discriminate.
  pose proof (socket_error_reports_only self w 0 _ Hs Hr eq_refl) as Hd.
  destruct (WebSocketTransport.deliver (SocketError 0) self w) as [self' w'].
  cbn [fst snd]. destruct Hd as (H1 & H2 & _ & H4).
  split; [exact H1|]. split; [rewrite H2; vm_compute; reflexivity|].
  rewrite H4. f_equal.
Defined.

(** X21.  The open event of a connecting socket, with nothing queued:
    the connection timeout is cleared, the state becomes [connected] and
    every state observer is told so once, the socket is open and the
    promise of its [connect()] is settled; nothing is written. *)
Theorem socket_open_connects (self : WebSocketTransport.t) (w : World)
    (s : nat) (k : Socket) :
  sockets w !! s = Some k ->
  readyState k = CONNECTING ->
  WebSocketTransport._state self <> connected ->
  WebSocketTransport.messageQueue self = [] ->
  let (self', w') := WebSocketTransport.deliver (SocketOpen s) self w in
  WebSocketTransport._state self' = connected /\
  WebSocketTransport.ws self' = WebSocketTransport.ws self /\
  timers w' = delete (guard k) (timers w) /\
  sockets w' !! s = Some {| readyState := OPEN; settled := true;
                            retrying := retrying k; guard := guard k |} /\
  observerCalls w'
  = observerCalls w
    ++ map (fun o => (observerFn o, ArgState connected))
         (WebSocketTransport.stateHandlers self) /\
  transmissions w' = transmissions w.
Proof.
  intros Hs Hr Hc Hq.
  unfold WebSocketTransport.deliver, WebSocketTransport.enabled.
  rewrite Hs, bool_decide_eq_true_2 by exact Hr.
  unfold WebSocketTransport.onopen. cbv zeta.
  set (w0 := WebSocketTransport.setReady OPEN s w).
  assert (Hs0 : sockets w0 = <[s := {| readyState := OPEN; settled := settled k;
                                       retrying := retrying k; guard := guard k |}]>
                               (sockets w)).
  { unfold w0, WebSocketTransport.setReady, WebSocketTransport.updateSocket.
    rewrite Hs. reflexivity. }
  assert (Hlt : (s < length (sockets w))%nat) by (apply lookup_lt_Some in Hs; exact Hs).
  assert (Hk0 : sockets w0 !! s = Some {| readyState := OPEN; settled := settled k;
                                          retrying := retrying k; guard := guard k |}).
  { rewrite Hs0. apply list_lookup_insert_eq. exact Hlt. }
  assert (H0 : timers w0 = timers w /\ effects w0 = effects w).
  { unfold w0, WebSocketTransport.setReady, WebSocketTransport.updateSocket.
    rewrite Hs. auto. }
  destruct H0 as (T0 & E0).
  set (w1 := WebSocketTransport.clearGuard s w0).
  assert (H1 : sockets w1 = sockets w0 /\ timers w1 = delete (guard k) (timers w) /\
               effects w1 = effects w).
  { unfold w1, WebSocketTransport.clearGuard. rewrite Hk0.
    cbn [guard WebSocketTransport.clearTimeout withTimers sockets timers effects].
    rewrite T0. auto. }
  destruct H1 as (S1 & T1 & E1).
  pose proof (SocketFacts.setState_fst connected self w1) as Hf.
  pose proof (SocketConnect.setState_hostOf connected self w1) as Hh.
  pose proof (SocketConnect.setState_observerCalls connected self w1 Hc) as Ho.
  pose proof (SocketLedger.setState_transmissions connected self w1) as Htr.
  destruct (WebSocketTransport.setState connected self w1) as [self1 w2].
  cbn [fst snd] in Hf, Hh, Ho, Htr. subst self1.
  unfold WebSocketTransport.flushMessageQueue.
  cbn [WebSocketTransport.messageQueue WebSocketTransport.set_reconnectAttempts
       WebSocketTransport.set_connection WebSocketTransport.set_state].
  rewrite Hq. cbn [length Nat.eqb].
  destruct (hostOf_parts _ _ Hh) as (S2 & T2 & _).
  set (w3 := WebSocketTransport.log _ "Connected" w2).
  assert (H3 : sockets w3 = sockets w0 /\ timers w3 = delete (guard k) (timers w) /\
               observerCalls w3
               = observerCalls w
                 ++ map (fun o => (observerFn o, ArgState connected))
                      (WebSocketTransport.stateHandlers self) /\
               transmissions w3 = transmissions w).
  { destruct (hostOf_parts _ _ (SocketFacts.log_hostOf
                (WebSocketTransport.set_reconnectAttempts 0
                   (WebSocketTransport.set_state connected self)) "Connected" w2))
      as (S3 & T3 & _).
    split; [unfold w3; rewrite S3, S2; exact S1|].
    split; [unfold w3; rewrite T3, T2; exact T1|].
    split.
    - unfold w3. rewrite SocketFacts.log_observerCalls, Ho. unfold observerCalls.
      rewrite E1. reflexivity.
    - unfold w3. rewrite SocketLedger.log_transmissions, Htr. unfold transmissions.
      rewrite E1. reflexivity. }
  destruct H3 as (S3 & T3 & O3 & Tr3). clearbody w3.
  cbn [fst snd].
  split; [reflexivity|]. split; [reflexivity|].
  unfold WebSocketTransport.settle, WebSocketTransport.updateSocket.
  rewrite S3, Hk0.
  cbn [withSockets timers sockets effects readyState settled retrying guard].
  split; [exact T3|]. split.
  - apply list_lookup_insert_eq. rewrite Hs0, length_insert. exact Hlt.
  - split; [exact O3|exact Tr3].
Qed.

Lemma socket_open_connects_witness :
  let self := fst (run [Connect] observedSocket) in
  let w := snd (run [Connect] observedSocket) in
  sockets w !! 0%nat
  = Some {| readyState := CONNECTING; settled := false; retrying := false; guard := 1 |} /\
  WebSocketTransport._state self <> connected /\
  WebSocketTransport.messageQueue self = [] /\
  WebSocketTransport._state (fst (WebSocketTransport.deliver (SocketOpen 0) self w))
  = connected /\
  timers (snd (WebSocketTransport.deliver (SocketOpen 0) self w)) = ∅ /\
  observerCalls (snd (WebSocketTransport.deliver (SocketOpen 0) self w))
  = observerCalls w
    ++ [(BoundMethod, ArgState connected); (Supplied 6, ArgState connected)].
Proof.
  intros self w.
  assert (Hs : sockets w !! 0%nat
               = Some {| readyState := CONNECTING; settled := false;
                         retrying := false; guard := 1 |})
    by (vm_compute; reflexivity).
  assert (Hc : WebSocketTransport._state self <> connected) by (vm_compute; discriminate).
  assert (Hq : WebSocketTransport.messageQueue self = []) by (vm_compute; reflexivity).
  split; [exact Hs|]. split; [exact Hc|]. split; [exact Hq|].
  pose proof (socket_open_connects self w 0 _ Hs eq_refl Hc Hq) as Hd.
  destruct (WebSocketTransport.deliver (SocketOpen 0) self w) as [self' w'].
  cbn [fst snd]. destruct Hd as (H1 & _ & H3 & _ & H5 & _).
  split; [exact H1|]. split; [rewrite H3; vm_compute; reflexivity|].
  rewrite H5. f_equal.
Defined.

(** * Beyond the claims: closure without a retry *)

(** X22.  Closure with auto-reconnect off (or the attempts used up): the
    transport lets go of its socket and settles as [disconnected]; the
    connection timeout of the closed socket is cleared, no reconnect timer
    is armed and no socket is made. *)
Theorem close_without_retry (self : WebSocketTransport.t) (w : World)
    (s : nat) (k : Socket) :
  mayRetry self = false ->
  sockets w !! s = Some k ->
  readyState k <> CLOSED ->
  let (self', w') := WebSocketTransport.deliver (SocketClose s) self w in
  WebSocketTransport._state self' = disconnected /\
  WebSocketTransport.ws self' = None /\
  WebSocketTransport.reconnectTimeout self' = WebSocketTransport.reconnectTimeout self /\
  WebSocketTransport.messageQueue self' = WebSocketTransport.messageQueue self /\
  timers w' = delete (guard k) (timers w) /\
  sockets w' = <[s := {| readyState := CLOSED; settled := settled k;
                         retrying := retrying k; guard := guard k |}]> (sockets w).
Proof.
  intros Hm Hs Hr.
  unfold WebSocketTransport.deliver, WebSocketTransport.enabled.
  rewrite Hs, bool_decide_eq_false_2 by exact Hr. cbn [negb].
  unfold WebSocketTransport.onclose.
  set (w0 := WebSocketTransport.setReady CLOSED s w).
  assert (Hlt : (s < length (sockets w))%nat) by (apply lookup_lt_Some in Hs; exact Hs).
  assert (H0 : sockets w0 = <[s := {| readyState := CLOSED; settled := settled k;
                                      retrying := retrying k; guard := guard k |}]>
                              (sockets w) /\ timers w0 = timers w).
  { unfold w0, WebSocketTransport.setReady, WebSocketTransport.updateSocket.
    rewrite Hs. auto. }
  destruct H0 as (S0 & T0).
  set (w1 := WebSocketTransport.clearGuard s w0).
  assert (H1 : sockets w1 = sockets w0 /\ timers w1 = delete (guard k) (timers w)).
  { unfold w1, WebSocketTransport.clearGuard. rewrite S0, list_lookup_insert_eq by exact Hlt.
    cbn [guard WebSocketTransport.clearTimeout withTimers sockets timers].
    rewrite T0. auto. }
  destruct H1 as (S1 & T1).
  destruct (SocketFacts.handleDisconnect_settle self w1 Hm) as (w2 & Hh & ->).
  destruct (hostOf_parts _ _ Hh) as (S2 & T2 & _).
  split; [reflexivity|]. split; [reflexivity|]. split; [reflexivity|].
  split; [reflexivity|]. split; [rewrite T2; exact T1|].
  rewrite S2, S1. exact S0.
Qed.

Lemma close_without_retry_witness :
  let self := fst manualSocket in
  let w := snd manualSocket in
  mayRetry self = false /\
  sockets w !! 0%nat
  = Some {| readyState := OPEN; settled := true; retrying := false; guard := 1 |} /\
  WebSocketTransport._state (fst (WebSocketTransport.deliver (SocketClose 0) self w))
  = disconnected /\
  timers (snd (WebSocketTransport.deliver (SocketClose 0) self w)) = ∅.
Proof.
  intros self w.
  assert (Hm : mayRetry self = false) by (vm_compute; reflexivity).
  assert (Hs : sockets w !! 0%nat
               = Some {| readyState := OPEN; settled := true;
                         retrying := false; guard := 1 |})
    by (vm_compute; reflexivity).
  assert (Hr : readyState {| readyState := OPEN; settled := true;
                             retrying := false; guard := 1 |} <> CLOSED)
    by discriminate.
  split; [exact Hm|]. split; [exact Hs|].
  pose proof (close_without_retry self w 0 _ Hm Hs Hr) as Hd.
  destruct (WebSocketTransport.deliver (SocketClose 0) self w) as [self' w'].
  cbn [fst snd]. destruct Hd as (H1 & _ & _ & _ & H5 & _).
  split; [exact H1|]. rewrite H5. vm_compute. reflexivity.
Defined.
